(** * BinMaster: the S/4HANA-backed warehouse bin service

    A shallow embedding of the field mapper, the query translator and the
    request handlers of [srv/warehouse-service-cloudsdk.js], of the
    statistics function shared with [srv/warehouse-service.js], and of the
    screens of the mobile application, followed by the properties the
    specification states about them.

    The built-in functions of JavaScript are embedded on the values the
    service works with: Numbers that are integers, exact as long as they are
    safe integers, and strings as sequences of bytes, on which [trim] and
    [parseInt] know the white space of ASCII.  The properties that depend on
    it say so in their hypotheses ([safe_integer], [safe_number],
    [bounded_total], [ascii_text]). *)

From Stdlib Require Import ZArith NArith String Ascii List Bool Lia Floats
  Uint63 Permutation Reals Lra Psatz.
Import ListNotations.

Local Open Scope string_scope.
Local Open Scope Z_scope.

(* ================================================================== *)
(** * JavaScript values *)
(* ================================================================== *)

Module JS.

(** A JavaScript Number as the service meets it: an integer or [NaN].
  [Num z] stands for the integer-valued Number [z]; the embedding is exact
  for safe integers, which include every CDS [Integer]. *)
Inductive number :=
| Num (z : Z)
| NaN.

(** A field of a JSON record that holds a string or a number; an absent
  field ([undefined]) is [None] in an [option jsval]. *)
Inductive jsval :=
| JStr (s : string)
| JNum (n : number).

Definition safe_integer (z : Z) : Prop := - (2 ^ 53 - 1) <= z <= 2 ^ 53 - 1.

(** ** Strings *)

(** White space removed by [String.prototype.trim] and skipped by
  [parseInt], among the characters of ASCII: TAB, LF, VT, FF, CR and SPACE.
  JavaScript also takes U+00A0, U+FEFF, U+2028, U+2029 and the space
  separators of Unicode for white space, so [trim] and [parseInt] below are
  those of JavaScript on ASCII text. *)
Definition is_ws (c : ascii) : bool :=
let n := N_of_ascii c in
((9 <=? n) && (n <=? 13))%N || (n =? 32)%N.

Fixpoint trimStart (s : string) : string :=
match s with
| String c r => if is_ws c then trimStart r else s
| EmptyString => EmptyString
end.

(** [trimEnd] drops a character when it is white space and everything after
  it has been dropped. *)
Fixpoint trimEnd (s : string) : string :=
match s with
| String c r =>
    match trimEnd r with
    | EmptyString => if is_ws c then EmptyString else String c EmptyString
    | r' => String c r'
    end
| EmptyString => EmptyString
end.

Definition trim (s : string) : string := trimEnd (trimStart s).

(** [s.split(sep)] for a one-character separator: the segments between
  every occurrence of [sep]; never empty. *)
Fixpoint split (sep : ascii) (s : string) : list string :=
match s with
| EmptyString => [EmptyString]
| String c r =>
    if Ascii.eqb c sep then EmptyString :: split sep r
    else match split sep r with
         | seg :: segs => String c seg :: segs
         | [] => [String c EmptyString]
         end
end.

(** [xs.join(sep)]. *)
Fixpoint join (sep : string) (xs : list string) : string :=
match xs with
| [] => EmptyString
| [x] => x
| x :: rest => x ++ sep ++ join sep rest
end.

(** [hay.includes(needle)]: [needle] occurs in [hay]. *)
Fixpoint includes (needle hay : string) : bool :=
String.prefix needle hay ||
match hay with
| EmptyString => false
| String _ r => includes needle r
end.

(** ** Numbers *)

Definition digit_char (d : Z) : ascii := ascii_of_N (48 + Z.to_N d).

(** The value of a character as a digit, for radix up to 16. *)
Definition digit_value (c : ascii) : option Z :=
let n := Z.of_N (N_of_ascii c) in
if (48 <=? n) && (n <=? 57) then Some (n - 48)
else if (97 <=? n) && (n <=? 102) then Some (n - 87)
else if (65 <=? n) && (n <=? 70) then Some (n - 55)
else None.

(** Decimal digits of a non-negative integer, most significant first. *)
Fixpoint digits_from (fuel : nat) (n : Z) (acc : list Z) : list Z :=
match fuel with
| O => acc
| S f =>
    if n <? 10 then n :: acc
    else digits_from f (n / 10) (n mod 10 :: acc)
end.

Definition decimal_digits (n : Z) : list Z :=
digits_from (S (Z.to_nat (Z.log2 n))) n [].

Fixpoint string_of_digits (ds : list Z) : string :=
match ds with
| [] => EmptyString
| d :: r => String (digit_char d) (string_of_digits r)
end.

(** [Number.prototype.toString()] (radix 10) of an integer below [10^21] in
  absolute value, where JavaScript writes every digit; from [10^21] on
  JavaScript writes an exponent.  Exact on safe integers. *)
Definition Number_toString (n : number) : string :=
match n with
| NaN => "NaN"
| Num z =>
    if z <? 0 then String "-" (string_of_digits (decimal_digits (- z)))
    else string_of_digits (decimal_digits z)
end.

Definition ToString (v : jsval) : string :=
match v with
| JStr s => s
| JNum n => Number_toString n
end.

(** The longest prefix of [s] made of digits of the radix. *)
Fixpoint digits_prefix (radix : Z) (s : string) : list Z :=
match s with
| EmptyString => []
| String c r =>
    match digit_value c with
    | Some d => if d <? radix then d :: digits_prefix radix r else []
    | None => []
    end
end.

Definition value_of_digits (radix : Z) (ds : list Z) : Z :=
fold_left (fun acc d => acc * radix + d) ds 0.

(** The rest of a string that starts with [0x] or [0X]. *)
Definition hex_prefix (s : string) : option string :=
match s with
| String c0 (String c1 r) =>
    if Ascii.eqb c0 "0" && (Ascii.eqb c1 "x" || Ascii.eqb c1 "X")
    then Some r else None
| _ => None
end.

Definition read_digits (radix : Z) (s : string) : option Z :=
match digits_prefix radix s with
| [] => None
| ds => Some (value_of_digits radix ds)
end.

(** The number read from the start of a sign-free string. *)
Definition parse_unsigned (s : string) : option Z :=
match hex_prefix s with
| Some r => read_digits 16 r
| None => read_digits 10 s
end.

(** [parseInt(s)] without a radix argument: leading white space is
  skipped, a sign is read, a [0x] prefix selects radix 16, and the digits
  up to the first other character are the value; [NaN] when there is no
  digit.  The value is the integer that the digits denote; JavaScript
  returns the double nearest to it, which is that integer when it is a safe
  integer. *)
Definition parseInt_string (s : string) : number :=
let t := trimStart s in
let '(sign, u) :=
  match t with
  | String c r =>
      if Ascii.eqb c "-" then (-1, r)
      else if Ascii.eqb c "+" then (1, r)
      else (1, t)
  | EmptyString => (1, t)
  end in
match parse_unsigned u with
| Some v => Num (sign * v)
| None => NaN
end.

(** [parseInt(v)]: the argument is converted to a string first. *)
Definition parseInt (v : jsval) : number := parseInt_string (ToString v).

(** Truthiness. *)
Definition truthy_string (s : string) : bool :=
match s with EmptyString => false | _ => true end.

Definition truthy (v : jsval) : bool :=
match v with
| JStr s => truthy_string s
| JNum (Num z) => negb (z =? 0)
| JNum NaN => false
end.

(** Truthiness of a possibly absent string ([undefined] is falsy). *)
Definition truthy_opt (s : option string) : bool :=
match s with Some x => truthy_string x | None => false end.

(** [v || d] on a possibly absent field. *)
Definition or_else (v : option jsval) (d : jsval) : jsval :=
match v with
| Some x => if truthy x then x else d
| None => d
end.

(** [s || d] on a possibly absent string field. *)
Definition str_or (s : option string) (d : string) : string :=
match s with
| Some x => if truthy_string x then x else d
| None => d
end.

(** [n || 0] on a possibly absent numeric field; the result is never
  [NaN]. *)
Definition num_or_0 (n : option number) : Z :=
match n with
| Some (Num z) => z
| _ => 0
end.

(** [a > b] on possibly absent numbers: [undefined] converts to [NaN] and
  every comparison with [NaN] is false. *)
Definition gt (a b : option number) : bool :=
match a, b with
| Some (Num x), Some (Num y) => y <? x
| _, _ => false
end.

(** A value inside a template literal. *)
Definition tmpl (s : option string) : string :=
match s with Some x => x | None => "undefined" end.

End JS.

Import JS.

(* ================================================================== *)
(** * Data model *)
(* ================================================================== *)

(** A record of the OData entity set [A_WarehouseStorageBin], as the
    service reads and writes it.  Every property may be absent; the two
    quantities arrive as strings or as numbers. *)
Record S4Bin := mkS4Bin {
  StorageBin : option string;
  Warehouse : option string;
  StorageType : option string;
  MaximumStorageCapacity : option jsval;
  CurrentStock : option jsval;
  BlockingIndicator : option string;
  CreationDate : option string
}.

(** An object of the CAP entity [Bins] (schema [WarehouseBins]): the result
    of [mapS4ToBin], and also the payload [req.data] of a create or update
    request, where an omitted property is [None]. *)
Record Bin := mkBin {
  ID : option string;
  binNumber : option string;
  location : option string;
  capacity : option number;
  currentStock : option number;
  status : option string;
  barcode : option string;
  lastUpdated : option string;
  createdAt : option string
}.

(** What a handler can catch: a [TypeError] raised by reading a property of
    [undefined], or the error of a failed HTTP request. *)
Inductive exn :=
| TypeError (property : string)
| HttpError (message : string).

Definition exn_message (e : exn) : string :=
  match e with
  | TypeError p => "Cannot read properties of undefined (reading '" ++ p ++ "')"
  | HttpError m => m
  end.

(* ================================================================== *)
(** * Field mapper *)
(* ================================================================== *)

(** [mapS4ToBin(s4Bin)]; [now] is the value of
    [new Date().toISOString()] when the record is mapped. *)
Definition mapS4ToBin (now : string) (s4Bin : S4Bin) : Bin :=
  {| ID := StorageBin s4Bin;
     binNumber := StorageBin s4Bin;
     location :=
       Some (trim (str_or (Warehouse s4Bin) "" ++ " - "
                   ++ str_or (StorageType s4Bin) ""));
     capacity :=
       Some (parseInt (or_else (MaximumStorageCapacity s4Bin) (JNum (Num 0))));
     currentStock :=
       Some (parseInt (or_else (CurrentStock s4Bin) (JNum (Num 0))));
     status :=
       Some (if truthy_opt (BlockingIndicator s4Bin)
             then "inactive" else "active");
     barcode := Some (str_or (StorageBin s4Bin) "");
     lastUpdated := Some now;
     createdAt := Some (str_or (CreationDate s4Bin) now) |}.

(** [bin.status === 'active']. *)
Definition is_active (st : option string) : bool :=
  match st with
  | Some s => String.eqb s "active"
  | None => false
  end.

(** [mapBinToS4(bin)].  Reading [split] or [toString] from an absent
    property raises a [TypeError]; the properties are evaluated in the order
    of the object literal. *)
Definition mapBinToS4 (bin : Bin) : exn + S4Bin :=
  match location bin with
  | None => inl (TypeError "split")
  | Some loc =>
      let parts := split "-" loc in
      match capacity bin with
      | None => inl (TypeError "toString")
      | Some cap =>
          match currentStock bin with
          | None => inl (TypeError "toString")
          | Some stock =>
              inr {| StorageBin := binNumber bin;
                     Warehouse := Some (trim (nth 0 parts ""));
                     StorageType :=
                       Some (str_or (option_map trim (nth_error parts 1)) "BULK");
                     MaximumStorageCapacity := Some (JStr (Number_toString cap));
                     CurrentStock := Some (JStr (Number_toString stock));
                     BlockingIndicator :=
                       Some (if is_active (status bin) then "" else "X");
                     CreationDate := None |}
          end
      end
  end.

(* ================================================================== *)
(** * Statistics *)
(* ================================================================== *)

(** The double nearest to an integer. *)
Definition Z2float (z : Z) : float :=
  SF2Prim (binary_normalize prec emax z 0 false).

(** The Number [parseFloat(x.toFixed(2))], kept as the decimal that
    [toFixed(2)] prints: a sign and a count of hundredths.  [parseFloat]
    returns the double nearest to that decimal.  A value that is not finite
    is printed by name and read back unchanged. *)
Inductive fixed2 :=
| Fixed (negative : bool) (hundredths : Z)
| NotFinite (x : float).

(** The integer [n] for which [n / 100] is closest to [m * 2 ^ e]; of two
    such integers the larger. *)
Definition round_hundredths (m e : Z) : Z :=
  if 0 <=? e then 100 * m * 2 ^ e
  else (200 * m + 2 ^ (- e)) / 2 ^ (1 - e).

(** [x.toFixed(2)]: the sign is split off and the magnitude is rounded. *)
Definition toFixed2 (x : float) : fixed2 :=
  match Prim2SF x with
  | S754_zero _ => Fixed false 0
  | S754_finite s m e => Fixed s (round_hundredths (Z.pos m) e)
  | _ => NotFinite x
  end.

Record Statistics := mkStatistics {
  totalBins : Z;
  activeBins : Z;
  inactiveBins : Z;
  totalCapacity : Z;
  totalStock : Z;
  utilizationPercentage : fixed2
}.

(** The body of the [getBinStatistics] handlers, from [allBins] on; it is
    the same text in both service implementations.  The sums are those of
    the integers; the code adds doubles, and its sums are these as long as
    every partial sum stays a safe integer. *)
Definition binStatistics (allBins : list Bin) : Statistics :=
  let totalBins := Z.of_nat (length allBins) in
  let activeBins :=
    Z.of_nat (length (filter (fun b => is_active (status b)) allBins)) in
  let inactiveBins := totalBins - activeBins in
  let totalCapacity :=
    fold_left (fun sum b => sum + num_or_0 (capacity b)) allBins 0 in
  let totalStock :=
    fold_left (fun sum b => sum + num_or_0 (currentStock b)) allBins 0 in
  let utilizationPercentage :=
    if 0 <? totalCapacity
    then toFixed2 (Z2float totalStock / Z2float totalCapacity * Z2float 100)%float
    else Fixed false 0 in
  {| totalBins := totalBins;
     activeBins := activeBins;
     inactiveBins := inactiveBins;
     totalCapacity := totalCapacity;
     totalStock := totalStock;
     utilizationPercentage := utilizationPercentage |}.

(* ================================================================== *)
(** * The remote service and the handler monad *)
(* ================================================================== *)

Inductive method := GET | POST | PATCH | PUT | DELETE.

Definition method_eqb (a b : method) : bool :=
  match a, b with
  | GET, GET | POST, POST | PATCH, PATCH | PUT, PUT | DELETE, DELETE => true
  | _, _ => false
  end.

(** The [requestConfig] that [callS4API] hands to [executeHttpRequest]. *)
Record request := mkRequest {
  r_method : method;
  r_url : string;
  r_data : option S4Bin
}.

(** The property [d] of an OData response body: one entity, or a
    collection under [results]. *)
Inductive payload :=
| Entity (e : S4Bin)
| Results (rs : list S4Bin).

(** What [req.error(code, message)] registers. *)
Record error := mkError {
  code : Z;
  message : string
}.

(** The outcome of a handler: the value it returns, or the error it
    registered on the request. *)
Inductive reply (A : Type) :=
| Return (a : A)
| Rejected (e : error).
Arguments Return {A} a.
Arguments Rejected {A} e.

Definition ODATA_PATH : string := "/sap/opu/odata/sap/API_WAREHOUSE_STORAGE_BIN".

Definition is_write (m : method) : bool :=
  match m with
  | POST | PATCH | PUT | DELETE => true
  | GET => false
  end.

Section Service.

(** The world outside the service: the destination with the S/4HANA
    system behind it, and the clock.  [executeHttpRequest] answers a
    request with the [d] property of the response body or throws. *)
Variable World : Type.
Variable executeHttpRequest : World -> request -> (exn + option payload) * World.
Variable clock : World -> string.

(** The state threaded through a handler: the world, and the requests
    sent so far, oldest first. *)
Record state := mkState {
  world : World;
  sent : list request
}.

(** Computations that may throw. *)
Definition M (A : Type) : Type := state -> (exn + A) * state.

Definition ret {A} (a : A) : M A := fun st => (inr a, st).

Definition throw {A} (e : exn) : M A := fun st => (inl e, st).

Definition bind {A B} (m : M A) (k : A -> M B) : M B :=
  fun st =>
    match m st with
    | (inr a, st') => k a st'
    | (inl e, st') => (inl e, st')
    end.

Definition try_catch {A} (m : M A) (h : exn -> M A) : M A :=
  fun st =>
    match m st with
    | (inr a, st') => (inr a, st')
    | (inl e, st') => h e st'
    end.

Definition lift {A} (r : exn + A) : M A := fun st => (r, st).

(** [new Date().toISOString()]. *)
Definition now : M string := fun st => (inr (clock (world st)), st).

(** [callS4API(path, method, data)]: the body is attached to POST, PATCH
    and PUT requests only. *)
Definition callS4API (path : string) (m : method) (data : option S4Bin)
  : M (option payload) :=
  fun st =>
    let requestConfig :=
      {| r_method := m;
         r_url := ODATA_PATH ++ path;
         r_data := match m with
                   | POST | PATCH | PUT => data
                   | _ => None
                   end |} in
    let '(res, w) := executeHttpRequest (world st) requestConfig in
    (res, {| world := w; sent := sent st ++ [requestConfig] |}).

End Service.

Arguments ret {World A} a.
Arguments throw {World A} e.
Arguments bind {World A B} m k.
Arguments try_catch {World A} m h.
Arguments lift {World A} r.
Arguments world {World} s.
Arguments sent {World} s.
Arguments mkState {World} world sent.

Notation "x <- m ;; k" := (bind m (fun x => k))
  (at level 61, m at next level, right associativity).

(* ================================================================== *)
(** * Query translator *)
(* ================================================================== *)

(** An element of a CQN [where] array: an operator or keyword, a reference
    or a literal [{val: v}]. *)
Inductive where_item :=
| Tok (t : string)
| Ref (path : list string)
| Val (v : jsval).

(** [req.query.SELECT.where] as the READ handler looks at it: the elements
    when it is an array, and its [status] property. *)
Record Where := mkWhere {
  w_items : option (list where_item);
  w_status : option string
}.

(** The parts of [req.query.SELECT] the READ handler reads: [limit],
    [from.ref[0].where.$skip] and [where]. *)
Record Select := mkSelect {
  limit : option Z;
  skip : option Z;
  where_ : option Where
}.

(** [where.includes('or')]. *)
Definition includes_or (items : list where_item) : bool :=
  existsb (fun w => match w with Tok t => String.eqb t "or" | _ => false end)
          items.

(** [where.find(w => w.val)?.val]. *)
Definition find_val (items : list where_item) : option jsval :=
  match find (fun w => match w with Val v => truthy v | _ => false end) items with
  | Some (Val v) => Some v
  | _ => None
  end.

(** The search term the handler extracts, if any. *)
Definition searchTerm (w : Where) : option string :=
  match w_items w with
  | Some items =>
      if includes_or items then option_map ToString (find_val items) else None
  | None => None
  end.

(** The blocking indicator the status filter compares with, if any. *)
Definition statusFlag (w : Where) : option string :=
  if truthy_opt (w_status w)
  then Some (if is_active (w_status w) then "" else "X")
  else None.

Definition search_filter (term : string) : string :=
  "(substringof('" ++ term ++ "',StorageBin) eq true or " ++
  "substringof('" ++ term ++ "',Warehouse) eq true)".

Definition status_filter (flag : string) : string :=
  "BlockingIndicator eq '" ++ flag ++ "'".

(** The array [filters] of the READ handler. *)
Definition read_filters (sel : Select) : list string :=
  match where_ sel with
  | Some w =>
      match searchTerm w with Some t => [search_filter t] | None => [] end ++
      match statusFlag w with Some f => [status_filter f] | None => [] end
  | None => []
  end.

(** [n || d] followed by interpolation into the query. *)
Definition num_param (n : option Z) (d : Z) : string :=
  Number_toString (Num (match n with
                        | Some z => if z =? 0 then d else z
                        | None => d
                        end)).

(** The path and query string the READ handler requests. *)
Definition read_query (sel : Select) : string :=
  let query := "/A_WarehouseStorageBin?$format=json" in
  let query :=
    query ++ "&$top=" ++ num_param (limit sel) 100
          ++ "&$skip=" ++ num_param (skip sel) 0 in
  match read_filters sel with
  | [] => query
  | filters => query ++ "&$filter=" ++ join " and " filters
  end.

(** ** The filter language *)

(** The filter expressions that the handler writes, as syntax. *)
Inductive s4field := FStorageBin | FWarehouse | FBlockingIndicator.

Inductive filter_expr :=
| SubstringOf (term : string) (f : s4field)
| Eq (f : s4field) (v : string)
| Or (a b : filter_expr).

Definition field_name (f : s4field) : string :=
  match f with
  | FStorageBin => "StorageBin"
  | FWarehouse => "Warehouse"
  | FBlockingIndicator => "BlockingIndicator"
  end.

(** The value of a property of a stored record; an absent property is the
    empty string. *)
Definition field_value (r : S4Bin) (f : s4field) : string :=
  match f with
  | FStorageBin => match StorageBin r with Some s => s | None => "" end
  | FWarehouse => match Warehouse r with Some s => s | None => "" end
  | FBlockingIndicator => match BlockingIndicator r with Some s => s | None => "" end
  end.

(** Whether a record satisfies a filter expression: [substringof(t, f)]
    holds when [t] occurs in [f], [eq] is string equality. *)
Fixpoint satisfies (r : S4Bin) (f : filter_expr) : bool :=
  match f with
  | SubstringOf t fld => includes t (field_value r fld)
  | Eq fld v => String.eqb (field_value r fld) v
  | Or a b => satisfies r a || satisfies r b
  end.

(* ================================================================== *)
(** * Request handlers *)
(* ================================================================== *)

(** An object that has none of the properties of a storage bin. *)
Definition no_properties : S4Bin :=
  {| StorageBin := None; Warehouse := None; StorageType := None;
     MaximumStorageCapacity := None; CurrentStock := None;
     BlockingIndicator := None; CreationDate := None |}.

(** The object [d] read as a storage bin: a collection object has a
    [results] property and nothing else. *)
Definition entity_of (p : payload) : S4Bin :=
  match p with
  | Entity e => e
  | Results _ => no_properties
  end.

(** [mapS4ToBin(response.d)] where [d] may be absent. *)
Definition mapS4ToBin_d (ts : string) (d : option payload) : exn + Bin :=
  match d with
  | Some p => inr (mapS4ToBin ts (entity_of p))
  | None => inl (TypeError "StorageBin")
  end.

(** [{ ...currentBin, ...req.data }]: a property of [data] replaces the one
    of [currentBin]; an omitted one leaves it. *)
Definition over {A} (supplied current : option A) : option A :=
  match supplied with
  | Some v => Some v
  | None => current
  end.

Definition merge (currentBin data : Bin) : Bin :=
  {| ID := over (ID data) (ID currentBin);
     binNumber := over (binNumber data) (binNumber currentBin);
     location := over (location data) (location currentBin);
     capacity := over (capacity data) (capacity currentBin);
     currentStock := over (currentStock data) (currentStock currentBin);
     status := over (status data) (status currentBin);
     barcode := over (barcode data) (barcode currentBin);
     lastUpdated := over (lastUpdated data) (lastUpdated currentBin);
     createdAt := over (createdAt data) (createdAt currentBin) |}.

Definition stock_exceeds_capacity : error :=
  {| code := 400; message := "Current stock cannot exceed capacity" |}.

Definition entity_path (binId : option string) : string :=
  "/A_WarehouseStorageBin('" ++ tmpl binId ++ "')".

Section Handlers.

Variable World : Type.
Variable executeHttpRequest : World -> request -> (exn + option payload) * World.
Variable clock : World -> string.

Local Abbreviation M := (M World).
Local Abbreviation state := (state World).
Local Abbreviation callS4API := (callS4API World executeHttpRequest).
Local Abbreviation now := (now World clock).

(** The [try { ... } catch (error) { req.error(500, ...) }] around every
    handler body. *)
Definition guarded {A} (failed : string) (body : M (reply A))
  : state -> reply A * state :=
  fun st =>
    match body st with
    | (inr r, st') => (r, st')
    | (inl e, st') =>
        (Rejected {| code := 500; message := failed ++ exn_message e |}, st')
    end.

(** [this.on('READ', 'Bins', ...)].  The clock is read once for the whole
    list. *)
Definition on_READ (sel : Select) : state -> reply (list Bin) * state :=
  guarded "Failed to read bins: "
    (response <- callS4API (read_query sel) GET None ;;
     ts <- now ;;
     ret (Return match response with
                 | Some (Results rs) => map (mapS4ToBin ts) rs
                 | _ => []
                 end)).

(** [this.on('CREATE', 'Bins', ...)]. *)
Definition on_CREATE (data : Bin) : state -> reply Bin * state :=
  guarded "Failed to create bin: "
    (if gt (currentStock data) (capacity data)
     then ret (Rejected stock_exceeds_capacity)
     else
       s4Data <- lift (mapBinToS4 data) ;;
       response <- callS4API "/A_WarehouseStorageBin" POST (Some s4Data) ;;
       ts <- now ;;
       ret (Return (mapS4ToBin ts match response with
                                  | Some p => entity_of p
                                  | None => s4Data
                                  end))).

(** [this.on('UPDATE', 'Bins', ...)]. *)
Definition on_UPDATE (data : Bin) : state -> reply Bin * state :=
  guarded "Failed to update bin: "
    (let binId := ID data in
     currentResponse <-
       callS4API (entity_path binId ++ "?$format=json") GET None ;;
     ts <- now ;;
     currentBin <- lift (mapS4ToBin_d ts currentResponse) ;;
     let capacity := over (capacity data) (capacity currentBin) in
     let currentStock := over (currentStock data) (currentStock currentBin) in
     if gt currentStock capacity
     then ret (Rejected stock_exceeds_capacity)
     else
       let updatedData := merge currentBin data in
       s4Data <- lift (mapBinToS4 updatedData) ;;
       _ <- callS4API (entity_path binId) PATCH (Some s4Data) ;;
       updatedResponse <-
         callS4API (entity_path binId ++ "?$format=json") GET None ;;
       ts' <- now ;;
       updated <- lift (mapS4ToBin_d ts' updatedResponse) ;;
       ret (Return updated)).

(** [this.on('DELETE', 'Bins', ...)]. *)
Definition on_DELETE (data : Bin) : state -> reply unit * state :=
  guarded "Failed to delete bin: "
    (_ <- callS4API (entity_path (ID data)) DELETE None ;;
     ret (Return tt)).

(** [this.on('getBinStatistics', ...)]. *)
Definition on_getBinStatistics : state -> reply Statistics * state :=
  guarded "Failed to get statistics: "
    (response <- callS4API "/A_WarehouseStorageBin?$format=json&$top=1000" GET None ;;
     ts <- now ;;
     let allBins := match response with
                    | Some (Results rs) => map (mapS4ToBin ts) rs
                    | _ => []
                    end in
     ret (Return (binStatistics allBins))).

End Handlers.

Arguments guarded {World A} failed body st.
Arguments on_READ {World} executeHttpRequest clock sel st.
Arguments on_CREATE {World} executeHttpRequest clock data st.
Arguments on_UPDATE {World} executeHttpRequest clock data st.
Arguments on_DELETE {World} executeHttpRequest data st.
Arguments on_getBinStatistics {World} executeHttpRequest clock st.

(* ================================================================== *)
(** * The service on the local database *)
(* ================================================================== *)

(** The handlers of [srv/warehouse-service.js].  They run before the
    generic handlers of the framework, which perform the write unless an
    error has been registered on the request. *)
Module LocalService.

(** [this.before('CREATE', 'Bins', ...)]: the errors it registers. *)
Definition before_CREATE (data : Bin) : list error :=
  if gt (currentStock data) (capacity data)
  then [stock_exceeds_capacity] else [].

(** [bin.capacity] and [bin.currentStock], where [bin] is the row that
    [SELECT.one] found, if any. *)
Definition row_field {A} (bin : option Bin) (field : Bin -> option A)
  (name : string) : exn + option A :=
  match bin with
  | Some b => inr (field b)
  | None => inl (TypeError name)
  end.

(** [this.before('UPDATE', 'Bins', ...)]: the errors it registers, or the
    exception it throws. *)
Definition before_UPDATE (bin : option Bin) (data : Bin) : exn + list error :=
  match
    match capacity data with
    | Some c => inr (Some c)
    | None => row_field bin capacity "capacity"
    end
  with
  | inl e => inl e
  | inr cap =>
      match
        match currentStock data with
        | Some k => inr (Some k)
        | None => row_field bin currentStock "currentStock"
        end
      with
      | inl e => inl e
      | inr stock =>
          inr (if gt stock cap then [stock_exceeds_capacity] else [])
      end
  end.

(** [this.on('getBinStatistics', ...)] over the rows of [SELECT.from(Bins)]. *)
Definition getBinStatistics (allBins : list Bin) : Statistics :=
  binStatistics allBins.

End LocalService.

(** The write requests among the requests sent. *)
Definition writes (rs : list request) : list request :=
  filter (fun r => is_write (r_method r)) rs.

(* ================================================================== *)
(** * The create form *)
(* ================================================================== *)

Module CreateForm.

(** The state [formData] of [CreateBinScreen]: every field is the text of
    an input control. *)
Record FormData := mkFormData {
  bin_number : string;
  location : string;
  capacity : string;
  current_stock : string;
  status : string;
  barcode : string
}.

(** [Record<string, string>]: at most one message per key. *)
Definition Errors := list (string * string).

(** [errors[key] = msg]. *)
Fixpoint assign (key msg : string) (errors : Errors) : Errors :=
  match errors with
  | [] => [(key, msg)]
  | (k, m) :: rest =>
      if String.eqb k key then (k, msg) :: rest
      else (k, m) :: assign key msg rest
  end.

(** [errors[key]]. *)
Fixpoint lookup (key : string) (errors : Errors) : option string :=
  match errors with
  | [] => None
  | (k, m) :: rest => if String.eqb k key then Some m else lookup key rest
  end.

Definition when (c : bool) (f : Errors -> Errors) (errors : Errors) : Errors :=
  if c then f errors else errors.

(** [a <= b] and [a < b] on Numbers: false when either is [NaN]. *)
Definition num_leb (a b : number) : bool :=
  match a, b with Num x, Num y => x <=? y | _, _ => false end.

Definition num_ltb (a b : number) : bool :=
  match a, b with Num x, Num y => x <? y | _, _ => false end.

(** [s || '0']. *)
Definition or_0 (s : string) : string :=
  if truthy_string s then s else "0".

(** The object [newErrors] at the end of [validateForm]. *)
Definition newErrors (formData : FormData) : Errors :=
  let e := [] in
  let e := when (negb (truthy_string (trim (bin_number formData))))
                (assign "bin_number" "Bin number is required") e in
  let e := when (negb (truthy_string (trim (location formData))))
                (assign "location" "Location is required") e in
  let e := when (negb (truthy_string (capacity formData))
                 || num_leb (parseInt_string (capacity formData)) (Num 0))
                (assign "capacity" "Capacity must be greater than 0") e in
  let stock := parseInt_string (or_0 (current_stock formData)) in
  let capacity := parseInt_string (or_0 (capacity formData)) in
  let e := when (num_ltb stock (Num 0))
                (assign "current_stock" "Stock cannot be negative") e in
  let e := when (num_ltb capacity stock)
                (assign "current_stock" "Stock cannot exceed capacity") e in
  e.

(** The result of [validateForm()]:
    [Object.keys(newErrors).length === 0]. *)
Definition validateForm (formData : FormData) : bool :=
  match newErrors formData with [] => true | _ => false end.

(** The JSON body of the POST to [/api/bins]. *)
Record Body := mkBody {
  body_form : FormData;
  body_capacity : number;
  body_current_stock : number
}.

(** [handleSubmit]: the request it sends, if it sends one. *)
Definition handleSubmit (formData : FormData) : option Body :=
  if negb (validateForm formData) then None
  else Some {| body_form := formData;
               body_capacity := parseInt_string (capacity formData);
               body_current_stock :=
                 parseInt_string (or_0 (current_stock formData)) |}.

End CreateForm.

(* ================================================================== *)
(** * An in-memory source *)
(* ================================================================== *)

(** A stand-in for the remote system, used to run the handlers on concrete
    requests: the stored records in insertion order.  [strict] says whether
    it refuses a POST whose key is already stored. *)
Module InMemory.

Definition Store := list S4Bin.

Definition entity_url (r : S4Bin) : string :=
  ODATA_PATH ++ entity_path (StorageBin r).

Definition addressed (url : string) (r : S4Bin) : bool :=
  String.eqb url (entity_url r) ||
  String.eqb url (entity_url r ++ "?$format=json").

Definition same_key (a b : S4Bin) : bool :=
  String.eqb (tmpl (StorageBin a)) (tmpl (StorageBin b)).

Definition not_found : exn := HttpError "Request failed with status code 404".
Definition bad_request : exn := HttpError "Request failed with status code 400".

Definition serve (strict : bool) (store : Store) (r : request)
  : (exn + option payload) * Store :=
  match r_method r with
  | GET =>
      match find (addressed (r_url r)) store with
      | Some e => (inr (Some (Entity e)), store)
      | None =>
          if String.prefix (ODATA_PATH ++ "/A_WarehouseStorageBin?") (r_url r)
          then (inr (Some (Results store)), store)
          else (inl not_found, store)
      end
  | POST =>
      match r_data r with
      | Some e =>
          if strict && existsb (same_key e) store
          then (inl bad_request, store)
          else (inr (Some (Entity e)), (store ++ [e])%list)
      | None => (inl bad_request, store)
      end
  | PATCH | PUT =>
      match r_data r, find (addressed (r_url r)) store with
      | Some e, Some _ =>
          (inr None,
           map (fun x => if addressed (r_url r) x then e else x) store)
      | _, _ => (inl not_found, store)
      end
  | DELETE =>
      match find (addressed (r_url r)) store with
      | Some _ =>
          (inr None, filter (fun x => negb (addressed (r_url r) x)) store)
      | None => (inl not_found, store)
      end
  end.

Definition clock (_ : Store) : string := "2025-01-01T00:00:00.000Z".

Definition start (store : Store) : state Store :=
  {| world := store; sent := [] |}.

End InMemory.

(* ================================================================== *)
(** * The requests of the handlers, and the specification's wording *)
(* ================================================================== *)

(** The read of one bin, the write of one bin and the insertion, as
    [callS4API] sends them. *)
Definition get_request (binId : option string) : request :=
  {| r_method := GET;
     r_url := ODATA_PATH ++ entity_path binId ++ "?$format=json";
     r_data := None |}.

Definition patch_request (binId : option string) (s4Data : S4Bin) : request :=
  {| r_method := PATCH;
     r_url := ODATA_PATH ++ entity_path binId;
     r_data := Some s4Data |}.

Definition post_request (s4Data : S4Bin) : request :=
  {| r_method := POST;
     r_url := ODATA_PATH ++ "/A_WarehouseStorageBin";
     r_data := Some s4Data |}.

Definition list_request (sel : Select) : request :=
  {| r_method := GET;
     r_url := ODATA_PATH ++ read_query sel;
     r_data := None |}.

Definition statistics_request : request :=
  {| r_method := GET;
     r_url := ODATA_PATH ++ "/A_WarehouseStorageBin?$format=json&$top=1000";
     r_data := None |}.

(** The error a handler registers when its body throws. *)
Definition failed (what : string) (e : exn) : error :=
  {| code := 500; message := what ++ exn_message e |}.

(** The application reports an absent bin with HTTP status 404 (the scan
    screen tests [response.status === 404]). *)
Definition is_NotFound (e : error) : Prop := code e = 404.

(** The round-trip law as the specification words it: the five fields
    survive [toSource] followed by [toCanonical] exactly. *)
Definition round_trip_exact (now : string) (b : Bin) : Prop :=
  exists s4,
    mapBinToS4 b = inr s4 /\
    let b' := mapS4ToBin now s4 in
    binNumber b' = binNumber b /\
    capacity b' = capacity b /\
    currentStock b' = currentStock b /\
    status b' = status b /\
    barcode b' = barcode b.

(** A location composed of two sub-fields with the [" - "] delimiter. *)
Definition composed_location (b : Bin) : Prop :=
  exists w t, location b = Some (w ++ " - " ++ t).

(** [s] without its first [n] characters. *)
Fixpoint drop (n : nat) (s : string) : string :=
  match n, s with
  | S m, String _ r => drop m r
  | _, _ => s
  end.

(** Decomposition on the first occurrence of a delimiter as the
    specification words it: the text before the first occurrence, and
    everything after it when there is one. *)
Fixpoint split_first (delim s : string) : string * option string :=
  match s with
  | EmptyString => (EmptyString, None)
  | String c r =>
      if String.prefix delim s
      then (EmptyString, Some (drop (String.length delim) s))
      else let '(a, b) := split_first delim r in (String c a, b)
  end.

(** The two sub-fields the specification's [toSource] would write. *)
Definition decomposed_on_first (delim loc : string) (s4 : S4Bin) : Prop :=
  Warehouse s4 = Some (trim (fst (split_first delim loc))) /\
  StorageType s4 =
    Some (str_or (option_map trim (snd (split_first delim loc))) "BULK").

(** The text of [s] before its first [c], and the text after it. *)
Fixpoint before (c : ascii) (s : string) : string :=
  match s with
  | EmptyString => EmptyString
  | String x r => if Ascii.eqb x c then EmptyString else String x (before c r)
  end.

Fixpoint after (c : ascii) (s : string) : option string :=
  match s with
  | EmptyString => None
  | String x r => if Ascii.eqb x c then Some r else after c r
  end.

Definition opt_string (s : option string) : string :=
  match s with Some x => x | None => EmptyString end.

(** The three identifiers of a mapped bin equal the key of the record. *)
Definition identifiers_coincide (r : S4Bin) (b : Bin) : Prop :=
  ID b = StorageBin r /\ binNumber b = StorageBin r /\ barcode b = StorageBin r.

(** The sum of a list of integers. *)
Definition sumZ (xs : list Z) : Z := fold_right Z.add 0 xs.

(** [n / 100] is the hundredth closest to [m * 2 ^ e], the larger one of
    two: [n / 100 - 1 / 200 <= m * 2 ^ e < n / 100 + 1 / 200], cleared of
    fractions. *)
Definition closest_hundredth (m e n : Z) : Prop :=
  if 0 <=? e then n = 100 * m * 2 ^ e
  else - 2 ^ (- e) <= 200 * m - n * 2 ^ (1 - e) < 2 ^ (- e).

(** A decimal digit. *)
Definition is_digit (d : Z) : Prop := 0 <= d < 10.

(** The four bins of the sample data ([db/data/binmaster-WarehouseBins.csv]). *)
Definition sample_bin (id number loc : string) (cap stock : Z) (st code : string)
  : Bin :=
  {| ID := Some id; binNumber := Some number; location := Some loc;
     capacity := Some (Num cap); currentStock := Some (Num stock);
     status := Some st; barcode := Some code;
     lastUpdated := None; createdAt := None |}.

Definition sample_bins : list Bin :=
  [ sample_bin "550e8400-e29b-41d4-a716-446655440001" "BIN-A001"
               "Aisle A Row 1" 1000 750 "active" "1234567890";
    sample_bin "550e8400-e29b-41d4-a716-446655440002" "BIN-A002"
               "Aisle A Row 2" 800 300 "active" "1234567891";
    sample_bin "550e8400-e29b-41d4-a716-446655440003" "BIN-B001"
               "Aisle B Row 1" 1200 1100 "active" "1234567892";
    sample_bin "550e8400-e29b-41d4-a716-446655440004" "BIN-C001"
               "Aisle C Row 1" 500 0 "inactive" "1234567893" ].

(* ================================================================== *)
(** * Sample requests and records *)
(* ================================================================== *)

(** The bin of the specification's create scenario. *)
Definition scenario_bin : Bin :=
  {| ID := None; binNumber := Some "BIN-A001";
     location := Some "Aisle A - Row 1";
     capacity := Some (Num 1000); currentStock := Some (Num 750);
     status := Some "active"; barcode := Some "1234567890";
     lastUpdated := None; createdAt := None |}.

(** The same bin with its bin number as barcode. *)
Definition keyed_bin : Bin :=
  {| ID := None; binNumber := Some "BIN-A001";
     location := Some "Aisle A - Row 1";
     capacity := Some (Num 1000); currentStock := Some (Num 750);
     status := Some "active"; barcode := Some "BIN-A001";
     lastUpdated := None; createdAt := None |}.

(** A bin whose location holds the delimiter twice. *)
Definition three_part_bin : Bin :=
  {| ID := None; binNumber := Some "BIN-A001";
     location := Some "A - B - C";
     capacity := Some (Num 1000); currentStock := Some (Num 750);
     status := Some "active"; barcode := Some "1234567890";
     lastUpdated := None; createdAt := None |}.

(** The payload of a create request. *)
Definition new_bin (num loc : option string) (cap stock : option number) : Bin :=
  {| ID := None; binNumber := num; location := loc;
     capacity := cap; currentStock := stock;
     status := Some "active"; barcode := None;
     lastUpdated := None; createdAt := None |}.

(** The payload of an update request that names quantities only. *)
Definition change (id : string) (cap stock : option number) : Bin :=
  {| ID := Some id; binNumber := None; location := None;
     capacity := cap; currentStock := stock;
     status := None; barcode := None;
     lastUpdated := None; createdAt := None |}.

(** A record as the source stores it. *)
Definition stored (key wh ty cap stock flag : string) : S4Bin :=
  {| StorageBin := Some key; Warehouse := Some wh; StorageType := Some ty;
     MaximumStorageCapacity := Some (JStr cap);
     CurrentStock := Some (JStr stock);
     BlockingIndicator := Some flag; CreationDate := None |}.

(** A source that holds one bin. *)
Definition store1 : InMemory.Store :=
  [stored "BIN-A001" "WH1" "BULK" "1000" "750" ""].

(** A create request for a bin number that [store1] holds, and the
    record it maps to. *)
Definition duplicate_bin : Bin :=
  new_bin (Some "BIN-A001") (Some "WH2 - RACK") (Some (Num 500)) (Some (Num 10)).

Definition duplicate_record : S4Bin :=
  {| StorageBin := Some "BIN-A001"; Warehouse := Some "WH2";
     StorageType := Some "RACK";
     MaximumStorageCapacity := Some (JStr "500");
     CurrentStock := Some (JStr "10");
     BlockingIndicator := Some ""; CreationDate := None |}.

(** A create request with an empty location, and the record it maps
    to. *)
Definition unlocated_bin : Bin :=
  new_bin (Some "BIN-D001") (Some "") (Some (Num 10)) (Some (Num 0)).

Definition unlocated_record : S4Bin :=
  {| StorageBin := Some "BIN-D001"; Warehouse := Some "";
     StorageType := Some "BULK";
     MaximumStorageCapacity := Some (JStr "10");
     CurrentStock := Some (JStr "0");
     BlockingIndicator := Some ""; CreationDate := None |}.

(** A create form left blank. *)
Definition blank_form : CreateForm.FormData :=
  {| CreateForm.bin_number := "  "; CreateForm.location := "";
     CreateForm.capacity := ""; CreateForm.current_stock := "0";
     CreateForm.status := "active"; CreateForm.barcode := "" |}.

(** A stored record whose stock is above its capacity. *)
Definition overfull_record : S4Bin :=
  stored "BIN-A001" "WH1" "BULK" "100" "150" "".

(** The query of a list request that searches for [term]. *)
Definition search_for (term : string) (st : option string) : Select :=
  {| limit := None; skip := None;
     where_ := Some {| w_items := Some [Ref ["binNumber"]; Tok "like"; Val (JStr term);
                                        Tok "or";
                                        Ref ["location"]; Tok "like"; Val (JStr term)];
                       w_status := st |} |}.

(* ================================================================== *)
(** * More of the service: requests and predicates *)
(* ================================================================== *)

(** The removal of one bin, as [callS4API] sends it. *)
Definition delete_request (binId : option string) : request :=
  {| r_method := DELETE;
     r_url := ODATA_PATH ++ entity_path binId;
     r_data := None |}.

(** A Number that prints as a plain decimal numeral: a safe integer, or
    [NaN]. *)
Definition safe_number (n : number) : Prop :=
  match n with
  | Num z => safe_integer z
  | NaN => True
  end.

(** A string without white space at either end. *)
Definition clean (s : string) : Prop := trimStart s = s /\ trimEnd s = s.

(** A string without hyphen. *)
Definition hyphen_free (s : string) : Prop := after "-" s = None.

(** The blocking indicator that [mapBinToS4] writes for a stored one. *)
Definition normal_flag (flag : option string) : string :=
  if truthy_opt flag then "X" else "".

(** The statistics of an answer that holds no bins. *)
Definition no_statistics : Statistics :=
  {| totalBins := 0; activeBins := 0; inactiveBins := 0;
     totalCapacity := 0; totalStock := 0;
     utilizationPercentage := Fixed false 0 |}.

(* ================================================================== *)
(** * The screens of the mobile application *)
(* ================================================================== *)

(** [0-9]. *)
Definition is_digit_char (c : ascii) : bool :=
  let n := N_of_ascii c in ((48 <=? n) && (n <=? 57))%N.

(** [text.replace(/[^0-9]/g, '')], the filter on the two numeric inputs of
    the create form and of the edit form. *)
Fixpoint digits_only (text : string) : string :=
  match text with
  | EmptyString => EmptyString
  | String c r =>
      if is_digit_char c then String c (digits_only r) else digits_only r
  end.

(** The characters that [encodeURIComponent] leaves as they are: letters,
    digits and [- _ . ! ~ * ' ( )]. *)
Definition unreserved (c : ascii) : bool :=
  let n := N_of_ascii c in
  ((48 <=? n) && (n <=? 57) || (65 <=? n) && (n <=? 90)
   || (97 <=? n) && (n <=? 122))%N
  || existsb (Ascii.eqb c)
       ["-"; "_"; "."; "!"; "~"; "*"; "'"; "("; ")"]%char.

(** An upper-case hexadecimal digit. *)
Definition hex_char (n : N) : ascii :=
  if (n <? 10)%N then ascii_of_N (48 + n) else ascii_of_N (55 + n).

(** [encodeURIComponent(s)]: every other character becomes [%XX], per
    byte of its UTF-8 form. *)
Fixpoint encodeURIComponent (s : string) : string :=
  match s with
  | EmptyString => EmptyString
  | String c r =>
      if unreserved c then String c (encodeURIComponent r)
      else let n := N_of_ascii c in
           String "%" (String (hex_char (n / 16))
                         (String (hex_char (n mod 16)) (encodeURIComponent r)))
  end.

(** The value of a hexadecimal digit, and the inverse of the encoding; it
    serves to show that the encoding loses nothing. *)
Definition hex_value (c : ascii) : option N :=
  let n := N_of_ascii c in
  if ((48 <=? n) && (n <=? 57))%N then Some (n - 48)%N
  else if ((65 <=? n) && (n <=? 70))%N then Some (n - 55)%N
  else None.

Fixpoint decode_fuel (fuel : nat) (s : string) : option string :=
  match fuel with
  | O => None
  | S f =>
      match s with
      | EmptyString => Some EmptyString
      | String c r =>
          if Ascii.eqb c "%"
          then match r with
               | String h (String l r') =>
                   match hex_value h, hex_value l, decode_fuel f r' with
                   | Some a, Some b, Some t =>
                       Some (String (ascii_of_N (16 * a + b)) t)
                   | _, _, _ => None
                   end
               | _ => None
               end
          else option_map (String c) (decode_fuel f r)
      end
  end.

Definition decode (s : string) : option string :=
  decode_fuel (S (String.length s)) s.

(** Whether every character of [s] satisfies [p]. *)
Fixpoint all_chars (p : ascii -> bool) (s : string) : bool :=
  match s with
  | EmptyString => true
  | String c r => p c && all_chars p r
  end.

(** The characters of an encoded component. *)
Definition url_char (c : ascii) : bool := unreserved c || Ascii.eqb c "%".

(** The list screen ([BinsScreen]). *)
Module BinsScreen.

Inductive StatusFilter := all | active | inactive.

Definition filter_name (f : StatusFilter) : string :=
  match f with
  | all => "all"
  | active => "active"
  | inactive => "inactive"
  end.

(** The URL that [fetchBins] requests. *)
Definition fetchBins_url (API_URL searchQuery : string)
  (statusFilter : StatusFilter) : string :=
  let url := API_URL ++ "/api/bins?limit=100" in
  let url :=
    if truthy_string searchQuery
    then url ++ "&search=" ++ encodeURIComponent searchQuery
    else url in
  let url :=
    match statusFilter with
    | all => url
    | _ => url ++ "&status=" ++ filter_name statusFilter
    end in
  url.

(** The parameters of that URL, one per element. *)
Definition fetchBins_params (searchQuery : string)
  (statusFilter : StatusFilter) : list string :=
  ["limit=100"] ++
  (if truthy_string searchQuery
   then ["search=" ++ encodeURIComponent searchQuery] else []) ++
  match statusFilter with
  | all => []
  | _ => ["status=" ++ filter_name statusFilter]
  end.

End BinsScreen.

(** The scanner screen ([ScanScreen]). *)
Module ScanScreen.

(** The URL that [handleBarCodeScanned] requests. *)
Definition lookup_url (API_URL data : string) : string :=
  API_URL ++ "/api/bins/barcode/" ++ encodeURIComponent data.

End ScanScreen.

(** The detail screen ([BinDetailScreen]) with its edit form. *)
Module EditForm.

(** A bin as the REST API returns it. *)
Record ApiBin := mkApiBin {
  id : string;
  bin_number : string;
  location : string;
  capacity : number;
  current_stock : number;
  status : string;
  barcode : option string;
  last_updated : string;
  created_at : string
}.

Record FormData := mkFormData {
  f_location : string;
  f_capacity : string;
  f_current_stock : string;
  f_status : string;
  f_barcode : string
}.

(** The form that [fetchBin] and [handleCancel] fill from a bin. *)
Definition form_of (data : ApiBin) : FormData :=
  {| f_location := location data;
     f_capacity := Number_toString (capacity data);
     f_current_stock := Number_toString (current_stock data);
     f_status := status data;
     f_barcode := str_or (barcode data) "" |}.

(** The object [newErrors] at the end of [validateForm]. *)
Definition newErrors (formData : FormData) : CreateForm.Errors :=
  let e := [] in
  let e := CreateForm.when (negb (truthy_string (trim (f_location formData))))
             (CreateForm.assign "location" "Location is required") e in
  let e := CreateForm.when
             (negb (truthy_string (f_capacity formData))
              || CreateForm.num_leb (parseInt_string (f_capacity formData)) (Num 0))
             (CreateForm.assign "capacity" "Capacity must be greater than 0") e in
  let stock := parseInt_string (CreateForm.or_0 (f_current_stock formData)) in
  let capacity := parseInt_string (CreateForm.or_0 (f_capacity formData)) in
  let e := CreateForm.when (CreateForm.num_ltb stock (Num 0))
             (CreateForm.assign "current_stock" "Stock cannot be negative") e in
  let e := CreateForm.when (CreateForm.num_ltb capacity stock)
             (CreateForm.assign "current_stock" "Stock cannot exceed capacity") e in
  e.

Definition validateForm (formData : FormData) : bool :=
  match newErrors formData with [] => true | _ => false end.

(** The JSON body of the PUT to [/api/bins/:id]. *)
Record Body := mkBody {
  b_location : string;
  b_capacity : number;
  b_current_stock : number;
  b_status : string;
  b_barcode : string
}.

(** [handleSave]: the request it sends, if it sends one. *)
Definition handleSave (formData : FormData) : option Body :=
  if negb (validateForm formData) then None
  else Some {| b_location := f_location formData;
               b_capacity := parseInt_string (f_capacity formData);
               b_current_stock := parseInt_string (f_current_stock formData);
               b_status := f_status formData;
               b_barcode := f_barcode formData |}.

End EditForm.

(** What the create form accepts. *)
Definition create_form_accepts (f : CreateForm.FormData) : Prop :=
  trim (CreateForm.bin_number f) <> "" /\
  trim (CreateForm.location f) <> "" /\
  CreateForm.capacity f <> "" /\
  CreateForm.num_leb (parseInt_string (CreateForm.capacity f)) (Num 0) = false /\
  CreateForm.num_ltb (parseInt_string (CreateForm.or_0 (CreateForm.current_stock f)))
                     (Num 0) = false /\
  CreateForm.num_ltb (parseInt_string (CreateForm.or_0 (CreateForm.capacity f)))
                     (parseInt_string (CreateForm.or_0 (CreateForm.current_stock f)))
    = false.

(** Whether [c] occurs in [s]. *)
Definition has_char (c : ascii) (s : string) : bool :=
  match after c s with Some _ => true | None => false end.

(** Whether every character of [s] is a decimal digit. *)
Definition numeral (s : string) : bool := all_chars is_digit_char s.

(** ** Sample data for the forms, the records and the source *)

(** A stored record that is blocked, with a flag other than ["X"]. *)
Definition blocked_record : S4Bin :=
  stored "BIN-B001" "WH1" "RACK" "500" "20" "B".

(** A stored record without a storage type. *)
Definition untyped_record : S4Bin :=
  {| StorageBin := Some "BIN-C001"; Warehouse := Some "WH1";
     StorageType := None;
     MaximumStorageCapacity := Some (JStr "500");
     CurrentStock := Some (JStr "0");
     BlockingIndicator := None; CreationDate := None |}.

(** A source that cannot be reached, and one that answers every request
    without a body. *)
Definition unreachable {World : Type} (w : World) (_ : request)
  : (exn + option payload) * World :=
  (inl (HttpError "connect ECONNREFUSED"), w).

Definition silent {World : Type} (w : World) (_ : request)
  : (exn + option payload) * World :=
  (inr None, w).

(** A create form filled through the digit filters of its inputs. *)
Definition filtered_form : CreateForm.FormData :=
  {| CreateForm.bin_number := "BIN-A001"; CreateForm.location := "Aisle A";
     CreateForm.capacity := digits_only "1,000";
     CreateForm.current_stock := digits_only "-750";
     CreateForm.status := "active"; CreateForm.barcode := "" |}.

(** The two forms with the stock field emptied. *)
Definition create_form_without_stock : CreateForm.FormData :=
  {| CreateForm.bin_number := "BIN-A001"; CreateForm.location := "Aisle A";
     CreateForm.capacity := "10"; CreateForm.current_stock := "";
     CreateForm.status := "active"; CreateForm.barcode := "" |}.

Definition edit_form_without_stock : EditForm.FormData :=
  {| EditForm.f_location := "Aisle A"; EditForm.f_capacity := "10";
     EditForm.f_current_stock := ""; EditForm.f_status := "active";
     EditForm.f_barcode := "" |}.

(** A bin as the REST API returns it. *)
Definition api_bin : EditForm.ApiBin :=
  {| EditForm.id := "550e8400-e29b-41d4-a716-446655440001";
     EditForm.bin_number := "BIN-A001";
     EditForm.location := "Aisle A Row 1";
     EditForm.capacity := Num 1000; EditForm.current_stock := Num 750;
     EditForm.status := "active"; EditForm.barcode := None;
     EditForm.last_updated := "2025-01-01T00:00:00.000Z";
     EditForm.created_at := "2025-01-01T00:00:00.000Z" |}.

(** Text of 7-bit characters.  On such text the white space of [is_ws] is
    all the white space that [trim] and [parseInt] know. *)
Definition ascii_char (c : ascii) : bool := (N_of_ascii c <? 128)%N.

Definition ascii_text (s : string) : Prop := all_chars ascii_char s = true.

(** A field that, where it holds text, holds ASCII text. *)
Definition ascii_value (v : option jsval) : Prop :=
  match v with
  | Some (JStr s) => ascii_text s
  | _ => True
  end.

(** A stored record whose warehouse, storage type and quantities are ASCII
    text: the fields that [mapS4ToBin] trims or parses. *)
Definition ascii_record (r : S4Bin) : Prop :=
  ascii_text (str_or (Warehouse r) "") /\
  ascii_text (str_or (StorageType r) "") /\
  ascii_value (MaximumStorageCapacity r) /\
  ascii_value (CurrentStock r).

(** The value that an update works with: the one of the request when the
    request names the field, else the one of the current record. *)
Definition supplied_or {A} (supplied : option A) (current : A) : A :=
  match supplied with
  | Some v => v
  | None => current
  end.

(** The record that an update writes, from the request and the record it
    has read: the key, the location cut at its hyphens, the quantities as
    numerals and the status as blocking indicator. *)
Definition update_record (data : Bin) (r : S4Bin) : S4Bin :=
  let loc :=
    supplied_or (location data)
      (trim (str_or (Warehouse r) "" ++ " - " ++ str_or (StorageType r) "")) in
  let cap :=
    supplied_or (capacity data)
      (parseInt (or_else (MaximumStorageCapacity r) (JNum (Num 0)))) in
  let stock :=
    supplied_or (currentStock data)
      (parseInt (or_else (CurrentStock r) (JNum (Num 0)))) in
  let st :=
    supplied_or (status data)
      (if truthy_opt (BlockingIndicator r) then "inactive" else "active") in
  {| StorageBin :=
       match binNumber data with Some n => Some n | None => StorageBin r end;
     Warehouse := Some (trim (before "-" loc));
     StorageType :=
       Some match after "-" loc with
            | Some rest =>
                if truthy_string (trim (before "-" rest))
                then trim (before "-" rest) else "BULK"
            | None => "BULK"
            end;
     MaximumStorageCapacity := Some (JStr (Number_toString cap));
     CurrentStock := Some (JStr (Number_toString stock));
     BlockingIndicator := Some (if String.eqb st "active" then "" else "X");
     CreationDate := None |}.

(** An update that names a barcode and the stock. *)
Definition relabel (id code : string) (stock : Z) : Bin :=
  {| ID := Some id; binNumber := None; location := None;
     capacity := None; currentStock := Some (Num stock);
     status := None; barcode := Some code;
     lastUpdated := None; createdAt := None |}.

(** [JSON.stringify] of a Number: its numeral, or [null] for [NaN]. *)
Definition JSON_number (n : number) : string :=
  match n with
  | Num _ => Number_toString n
  | NaN => "null"
  end.

(** Quantities whose sums, taken in any order, stay safe integers: the
    additions of Numbers that [reduce] performs on them are exact. *)
Definition bounded_total (xs : list Z) : Prop :=
  sumZ (map Z.abs xs) <= 2 ^ 53 - 1.

Definition capacities (bins : list Bin) : list Z :=
  map (fun b => num_or_0 (capacity b)) bins.

Definition stocks (bins : list Bin) : list Z :=
  map (fun b => num_or_0 (currentStock b)) bins.

(** The utilisation as the specification words it: the quotient
    [S / C * 100] rounded to two decimals, in hundredths; a quotient
    halfway between two hundredths goes up. *)
Definition rounded_half_up (S C : Z) : Z := (20000 * S + C) / (2 * C).

(** One bin whose utilisation, 3.625 percent, lies halfway between two
    hundredths. *)
Definition tie_bins : list Bin :=
  [sample_bin "550e8400-e29b-41d4-a716-446655440005" "BIN-T001"
              "Aisle T Row 1" 800 29 "active" "1234567894"].

(** One bin whose utilisation, 14.375 percent, lies halfway between 14.37
    and 14.38; rounding it up and rounding it to the even hundredth both
    give 14.38. *)
Definition odd_tie_bins : list Bin :=
  [sample_bin "550e8400-e29b-41d4-a716-446655440006" "BIN-T002"
              "Aisle T Row 2" 800 115 "active" "1234567895"].

(** ** Binary64 numbers as reals *)

(** The real numbers that a shift record stands for: its mantissa is the
    integer part, and the round and sticky bits say where the number lies
    between the mantissa and its successor. *)
Definition between (mrs : shr_record) (v : R) : Prop :=
  match shr_r mrs, shr_s mrs with
  | false, false => v = IZR (shr_m mrs)
  | false, true => (IZR (shr_m mrs) < v < IZR (shr_m mrs) + / 2)%R
  | true, false => v = (IZR (shr_m mrs) + / 2)%R
  | true, true => (IZR (shr_m mrs) + / 2 < v < IZR (shr_m mrs) + 1)%R
  end.

(** The real number that a mantissa and an exponent stand for. *)
Definition F2R (m : positive) (e : Z) : R := (IZR (Z.pos m) * powerRZ 2 e)%R.

(** The unit roundoff of binary64, [2 ^ -53]. *)
Definition roundoff : R := (/ 9007199254740992)%R.

(* ================================================================== *)
(** * The query string as the source reads it *)
(* ================================================================== *)

(** The READ handler sends its filter as text inside the URL.  What the
    filter selects is decided by the OData service that reads that text;
    the definitions below read back the part of the OData filter language
    that the handler writes: [substringof('..',Field) eq true],
    [Field eq '..'], a disjunction of two of these in parentheses, and
    conjuncts joined by [and]. *)

(** [s] without the prefix [p]. *)
Fixpoint strip_prefix (p s : string) : option string :=
  match p with
  | EmptyString => Some s
  | String a p' =>
      match s with
      | String b s' => if Ascii.eqb a b then strip_prefix p' s' else None
      | EmptyString => None
      end
  end.

(** A string literal from the character after its opening quote on: the
    text up to the closing quote, and what follows it.  A doubled quote
    stands for a quote inside the literal. *)
Fixpoint read_literal (s : string) : option (string * string) :=
  match s with
  | EmptyString => None
  | String c r =>
      if Ascii.eqb c "'" then
        match r with
        | String c' r' =>
            if Ascii.eqb c' "'"
            then match read_literal r' with
                 | Some (l, rest) => Some (String "'" l, rest)
                 | None => None
                 end
            else Some (EmptyString, r)
        | EmptyString => Some (EmptyString, EmptyString)
        end
      else match read_literal r with
           | Some (l, rest) => Some (String c l, rest)
           | None => None
           end
  end.

Definition parse_field (s : string) : option (s4field * string) :=
  match strip_prefix "StorageBin" s with
  | Some r => Some (FStorageBin, r)
  | None =>
      match strip_prefix "Warehouse" s with
      | Some r => Some (FWarehouse, r)
      | None =>
          match strip_prefix "BlockingIndicator" s with
          | Some r => Some (FBlockingIndicator, r)
          | None => None
          end
      end
  end.

(** [substringof('term',Field) eq true]. *)
Definition parse_substringof (s : string) : option (filter_expr * string) :=
  match strip_prefix "substringof('" s with
  | None => None
  | Some r =>
      match read_literal r with
      | None => None
      | Some (t, r) =>
          match strip_prefix "," r with
          | None => None
          | Some r =>
              match parse_field r with
              | None => None
              | Some (f, r) =>
                  match strip_prefix ") eq true" r with
                  | None => None
                  | Some r => Some (SubstringOf t f, r)
                  end
              end
          end
      end
  end.

(** [Field eq 'value']. *)
Definition parse_eq (s : string) : option (filter_expr * string) :=
  match parse_field s with
  | None => None
  | Some (f, r) =>
      match strip_prefix " eq '" r with
      | None => None
      | Some r =>
          match read_literal r with
          | None => None
          | Some (v, r) => Some (Eq f v, r)
          end
      end
  end.

Definition parse_atom (s : string) : option (filter_expr * string) :=
  match parse_substringof s with
  | Some x => Some x
  | None => parse_eq s
  end.

(** One conjunct: a comparison, or two of them joined by [or] inside
    parentheses. *)
Definition parse_conjunct (s : string) : option (filter_expr * string) :=
  match strip_prefix "(" s with
  | Some r =>
      match parse_atom r with
      | None => None
      | Some (a, r) =>
          match strip_prefix " or " r with
          | None => None
          | Some r =>
              match parse_atom r with
              | None => None
              | Some (b, r) =>
                  match strip_prefix ")" r with
                  | None => None
                  | Some r => Some (Or a b, r)
                  end
              end
          end
      end
  | None => parse_atom s
  end.

(** The conjuncts of a filter, joined by [and]. *)
Fixpoint parse_conjuncts (fuel : nat) (s : string) : option (list filter_expr) :=
  match fuel with
  | O => None
  | S f =>
      match parse_conjunct s with
      | None => None
      | Some (e, EmptyString) => Some [e]
      | Some (e, r) =>
          match strip_prefix " and " r with
          | None => None
          | Some r' =>
              match parse_conjuncts f r' with
              | Some es => Some (e :: es)
              | None => None
              end
          end
      end
  end.

Definition parse_filter (text : string) : option (list filter_expr) :=
  parse_conjuncts (S (String.length text)) text.

(** The value of the parameter [name] in the query part of a URL. *)
Definition query_param (name url : string) : option string :=
  match after "?" url with
  | None => None
  | Some query =>
      match find (fun p => String.prefix (name ++ "=") p) (split "&" query) with
      | Some p => strip_prefix (name ++ "=") p
      | None => None
      end
  end.

(** Whether the source selects a record for a URL: every record when the
    URL has no [$filter]; the records that satisfy every conjunct when it
    has one; [None] when the filter cannot be read, in which case the
    source refuses the request. *)
Definition url_selects (url : string) (r : S4Bin) : option bool :=
  match query_param "$filter" url with
  | None => Some true
  | Some text =>
      match parse_filter text with
      | Some conjuncts => Some (forallb (satisfies r) conjuncts)
      | None => None
      end
  end.

(** Characters that stand for themselves everywhere in a URL and in a
    string literal: letters, digits and [- _ . ~]. *)
Definition plain_char (c : ascii) : bool :=
  let n := N_of_ascii c in
  ((48 <=? n) && (n <=? 57) || (65 <=? n) && (n <=? 90)
   || (97 <=? n) && (n <=? 122))%N
  || existsb (Ascii.eqb c) ["-"; "_"; "."; "~"]%char.

Definition plain_term (t : string) : Prop := all_chars plain_char t = true.

(** A page size or an offset that is absent or a safe integer, which the
    template literal of the query prints with all its digits. *)
Definition safe_param (n : option Z) : Prop :=
  match n with
  | Some z => safe_integer z
  | None => True
  end.

(** ** The amended reading of the where clause *)

(** The search term of a where clause: the first truthy literal of the
    array, wherever it stands, provided the array holds the token [or];
    no term when the clause is no array, when it holds no [or], or when it
    holds no truthy literal. *)
Inductive reads_term (w : Where) : option string -> Prop :=
| term_no_array : w_items w = None -> reads_term w None
| term_no_or : forall items,
    w_items w = Some items -> ~ In (Tok "or") items -> reads_term w None
| term_no_literal : forall items,
    w_items w = Some items ->
    (forall v, In (Val v) items -> truthy v = false) ->
    reads_term w None
| term_first_literal : forall items pre t post,
    w_items w = Some items -> In (Tok "or") items ->
    items = (pre ++ Val (JStr t) :: post)%list ->
    (forall v, In (Val v) pre -> truthy v = false) ->
    t <> "" ->
    reads_term w (Some t).

(** The blocking flag of a where clause: none without a [status] property
    or with an empty one, [""] for the status "active", ["X"] for any
    other status. *)
Inductive reads_flag (w : Where) : option string -> Prop :=
| flag_absent : w_status w = None -> reads_flag w None
| flag_empty : w_status w = Some "" -> reads_flag w None
| flag_active : w_status w = Some "active" -> reads_flag w (Some "")
| flag_other : forall st,
    w_status w = Some st -> st <> "" -> st <> "active" ->
    reads_flag w (Some "X").

(** The conjunction of the amended claim: the term occurs in [StorageBin]
    or in [Warehouse], and [BlockingIndicator] equals the flag. *)
Definition conjunction (term flag : option string) (r : S4Bin) : bool :=
  match term with
  | Some t =>
      includes t (opt_string (StorageBin r))
      || includes t (opt_string (Warehouse r))
  | None => true
  end &&
  match flag with
  | Some f => String.eqb (opt_string (BlockingIndicator r)) f
  | None => true
  end.

(** The [$filter] parameter that stands for that conjunction. *)
Definition conjunction_text (term flag : option string) : string :=
  match term, flag with
  | None, None => ""
  | Some t, None =>
      "&$filter=(substringof('" ++ t ++ "',StorageBin) eq true or substringof('"
      ++ t ++ "',Warehouse) eq true)"
  | None, Some f => "&$filter=BlockingIndicator eq '" ++ f ++ "'"
  | Some t, Some f =>
      "&$filter=(substringof('" ++ t ++ "',StorageBin) eq true or substringof('"
      ++ t ++ "',Warehouse) eq true) and BlockingIndicator eq '" ++ f ++ "'"
  end.

(** The search of the specification: the term occurs in the bin number,
    in the location or in the barcode of the bin. *)
Definition spec_search (term : string) (b : Bin) : bool :=
  includes term (opt_string (binNumber b))
  || includes term (opt_string (location b))
  || includes term (opt_string (barcode b)).

(** A where clause in which the status is a predicate of the array, as a
    CQN query has it, followed by a search. *)
Definition status_predicate_query (st term : string) : Select :=
  {| limit := None; skip := None;
     where_ := Some {| w_items := Some [Ref ["status"]; Tok "="; Val (JStr st);
                                        Tok "and"; Tok "(";
                                        Ref ["binNumber"]; Tok "like"; Val (JStr term);
                                        Tok "or";
                                        Ref ["location"]; Tok "like"; Val (JStr term);
                                        Tok ")"];
                       w_status := None |} |}.

(* ================================================================== *)
(** * Numerals: printing and reading back *)
(* ================================================================== *)

Lemma digit_value_char d : is_digit d -> digit_value (digit_char d) = Some d.
Proof.
  intros [H0 H1].
  assert (d = 0 \/ d = 1 \/ d = 2 \/ d = 3 \/ d = 4 \/ d = 5 \/ d = 6 \/ d = 7
          \/ d = 8 \/ d = 9) as H by lia.
  repeat (destruct H as [-> | H]; [reflexivity |]). subst. reflexivity.
Qed.

Lemma digits_from_app f : forall n acc,
  digits_from f n acc = (digits_from f n [] ++ acc)%list.
Proof.
  induction f as [| f IH]; intros n acc; simpl; [reflexivity |].
  destruct (n <? 10); [reflexivity |].
  rewrite (IH _ (_ :: acc)), (IH _ [_]), <- app_assoc. reflexivity.
Qed.

Lemma value_of_digits_snoc radix ds d :
  value_of_digits radix (ds ++ [d]) = value_of_digits radix ds * radix + d.
Proof. unfold value_of_digits. rewrite fold_left_app. reflexivity. Qed.

Lemma digits_from_value f : forall n,
  0 <= n < 2 ^ Z.of_nat f -> value_of_digits 10 (digits_from f n []) = n.
Proof.
  induction f as [| f IH]; intros n Hn.
  - simpl in *. cbn. lia.
  - simpl digits_from. destruct (Z.ltb_spec n 10) as [Hlt | Hge].
    + cbn. lia.
    + rewrite digits_from_app, value_of_digits_snoc, IH.
      * pose proof (Z.div_mod n 10). lia.
      * rewrite Nat2Z.inj_succ, Z.pow_succ_r in Hn by lia.
        split; [apply Z.div_pos; lia |].
        apply Z.div_lt_upper_bound; lia.
Qed.

Lemma digits_from_digits f : forall n,
  0 <= n -> Forall is_digit (digits_from f n []).
Proof.
  induction f as [| f IH]; intros n Hn; simpl; [constructor |].
  destruct (Z.ltb_spec n 10) as [Hlt | Hge].
  - repeat constructor; lia.
  - rewrite digits_from_app. apply Forall_app. split.
    + apply IH. apply Z.div_pos; lia.
    + repeat constructor; pose proof (Z.mod_pos_bound n 10); lia.
Qed.

Lemma digits_from_nonempty f n : digits_from (S f) n [] <> [].
Proof.
  simpl. destruct (n <? 10); [discriminate |].
  rewrite digits_from_app. intros H. apply app_eq_nil in H. destruct H; discriminate.
Qed.

Lemma log2_fuel n : 0 <= n -> 0 <= n < 2 ^ Z.of_nat (S (Z.to_nat (Z.log2 n))).
Proof.
  intros Hn. split; [exact Hn |].
  rewrite Nat2Z.inj_succ, Z2Nat.id by apply Z.log2_nonneg.
  destruct (Z.eq_dec n 0) as [-> | Hne]; [reflexivity |].
  apply Z.log2_spec. lia.
Qed.

Lemma decimal_digits_value n : 0 <= n -> value_of_digits 10 (decimal_digits n) = n.
Proof. intros Hn. apply digits_from_value, log2_fuel, Hn. Qed.

Lemma decimal_digits_digits n : 0 <= n -> Forall is_digit (decimal_digits n).
Proof. intros Hn. apply digits_from_digits, Hn. Qed.

Lemma decimal_digits_nonempty n : decimal_digits n <> [].
Proof. apply digits_from_nonempty. Qed.

Lemma digits_prefix_string ds :
  Forall is_digit ds -> digits_prefix 10 (string_of_digits ds) = ds.
Proof.
  induction 1 as [| d ds Hd _ IH]; [reflexivity |].
  simpl. rewrite (digit_value_char d Hd).
  destruct (Z.ltb_spec d 10) as [_ | Hge]; [| destruct Hd; lia].
  rewrite IH. reflexivity.
Qed.

(** A decimal digit is no white space, sign or radix mark. *)
Lemma digit_char_plain d : is_digit d ->
  let c := digit_char d in
  is_ws c = false /\ Ascii.eqb c "-" = false /\ Ascii.eqb c "+" = false
  /\ Ascii.eqb c "x" = false /\ Ascii.eqb c "X" = false.
Proof.
  intros [H0 H1].
  assert (d = 0 \/ d = 1 \/ d = 2 \/ d = 3 \/ d = 4 \/ d = 5 \/ d = 6 \/ d = 7
          \/ d = 8 \/ d = 9) as H by lia.
  repeat (destruct H as [-> | H]; [repeat split |]). subst. repeat split.
Qed.

Lemma hex_prefix_digits ds :
  Forall is_digit ds -> hex_prefix (string_of_digits ds) = None.
Proof.
  intros Hds. destruct Hds as [| d ds Hd Hds]; [reflexivity |].
  destruct Hds as [| d' ds Hd' _]; [reflexivity |].
  simpl. destruct (digit_char_plain d' Hd') as (_ & _ & _ & -> & ->).
  rewrite andb_false_r. reflexivity.
Qed.

Lemma parse_unsigned_digits ds :
  Forall is_digit ds -> ds <> [] ->
  parse_unsigned (string_of_digits ds) = Some (value_of_digits 10 ds).
Proof.
  intros Hds Hne. unfold parse_unsigned, read_digits.
  rewrite (hex_prefix_digits ds Hds), (digits_prefix_string ds Hds).
  destruct ds; [contradiction | reflexivity].
Qed.

Lemma parseInt_decimal n :
  0 <= n -> parseInt_string (string_of_digits (decimal_digits n)) = Num n.
Proof.
  intros Hn. pose proof (decimal_digits_digits n Hn) as Hds.
  pose proof (decimal_digits_nonempty n) as Hne.
  pose proof (parse_unsigned_digits _ Hds Hne) as Hp.
  rewrite (decimal_digits_value n Hn) in Hp.
  unfold parseInt_string.
  destruct (decimal_digits n) as [| d ds]; [contradiction |].
  inversion Hds as [| ? ? Hd _]; subst.
  destruct (digit_char_plain d Hd) as (Hws & Hm & Hp' & _).
  simpl string_of_digits in *. simpl trimStart. rewrite Hws, Hm, Hp', Hp.
  f_equal. lia.
Qed.

Lemma parseInt_toString z : parseInt_string (Number_toString (Num z)) = Num z.
Proof.
  unfold Number_toString. destruct (Z.ltb_spec z 0) as [Hneg | Hpos].
  - pose proof (decimal_digits_digits (- z) ltac:(lia)) as Hds.
    pose proof (decimal_digits_nonempty (- z)) as Hne.
    pose proof (parse_unsigned_digits _ Hds Hne) as Hp.
    rewrite (decimal_digits_value (- z)) in Hp by lia.
    unfold parseInt_string.
    remember (string_of_digits (decimal_digits (- z))) as s.
    cbn -[parse_unsigned Z.mul]. rewrite Hp. f_equal. lia.
  - apply parseInt_decimal, Hpos.
Qed.

Lemma Number_toString_truthy n : truthy_string (Number_toString n) = true.
Proof.
  destruct n as [z |]; [| reflexivity].
  unfold Number_toString.
  destruct (z <? 0); [reflexivity |].
  pose proof (decimal_digits_nonempty z).
  destruct (decimal_digits z); [contradiction | reflexivity].
Qed.

Lemma parseInt_toString_NaN : parseInt_string (Number_toString NaN) = NaN.
Proof. reflexivity. Qed.

(* ================================================================== *)
(** * The field mapper *)
(* ================================================================== *)

(** A quantity written by [mapBinToS4] is read back by [mapS4ToBin]. *)
Lemma quantity_read_back n :
  parseInt (or_else (Some (JStr (Number_toString n))) (JNum (Num 0))) = n.
Proof.
  unfold or_else, truthy. rewrite Number_toString_truthy.
  unfold parseInt, ToString.
  destruct n; [apply parseInt_toString | reflexivity].
Qed.

Lemma status_read_back st :
  st = Some "active" \/ st = Some "inactive" ->
  Some (if truthy_opt (Some (if is_active st then "" else "X"))
        then "inactive" else "active") = st.
Proof. intros [-> | ->]; reflexivity. Qed.

Lemma str_or_self n : str_or (Some n) "" = n.
Proof. destruct n; reflexivity. Qed.

(** C1, as stated, fails: the bin of the specification's own scenario has
    a location composed with the delimiter, yet its barcode does not
    survive the round trip, because the source record has no barcode
    property and [mapS4ToBin] takes the barcode from [StorageBin]. *)
Lemma round_trip_loses_barcode :
  composed_location scenario_bin /\
  ~ round_trip_exact "2025-01-01T00:00:00.000Z" scenario_bin /\
  exists s4,
    mapBinToS4 scenario_bin = inr s4 /\
    barcode (mapS4ToBin "2025-01-01T00:00:00.000Z" s4) = Some "BIN-A001".
Proof.
  split; [| split].
  - exists "Aisle A", "Row 1". reflexivity.
  - intros (s4 & Hmap & _ & _ & _ & _ & Hbar).
    cbv in Hmap. injection Hmap as <-. cbv in Hbar. discriminate.
  - eexists. split; reflexivity.
Qed.

(** The fields after the round trip, for any barcode. *)
Lemma round_trip_fields (now : string) (b : Bin) (loc : string) (c k : Z) :
  location b = Some loc ->
  capacity b = Some (Num c) ->
  currentStock b = Some (Num k) ->
  status b = Some "active" \/ status b = Some "inactive" ->
  exists s4,
    mapBinToS4 b = inr s4 /\
    binNumber (mapS4ToBin now s4) = binNumber b /\
    capacity (mapS4ToBin now s4) = capacity b /\
    currentStock (mapS4ToBin now s4) = currentStock b /\
    status (mapS4ToBin now s4) = status b /\
    barcode (mapS4ToBin now s4) = Some (str_or (binNumber b) "").
Proof.
  intros Hloc Hc Hk Hst.
  unfold mapBinToS4. rewrite Hloc, Hc, Hk.
  eexists. split; [reflexivity |].
  unfold mapS4ToBin; cbn [StorageBin MaximumStorageCapacity CurrentStock
    BlockingIndicator binNumber capacity currentStock status barcode].
  rewrite !quantity_read_back, (status_read_back _ Hst).
  repeat split; reflexivity.
Qed.

(** Every bin that [mapS4ToBin] produces survives the round trip in all
    five fields. *)
Lemma mapped_bins_round_trip (now now' : string) (r : S4Bin) :
  round_trip_exact now' (mapS4ToBin now r).
Proof.
  unfold round_trip_exact, mapBinToS4.
  cbn [mapS4ToBin location capacity currentStock].
  eexists. split; [reflexivity |].
  unfold mapS4ToBin; cbn [StorageBin MaximumStorageCapacity CurrentStock
    BlockingIndicator binNumber capacity currentStock status barcode].
  rewrite !quantity_read_back.
  repeat split.
  destruct (truthy_opt (BlockingIndicator r)); reflexivity.
Qed.

(** C1, amended: for a bin within the field coverage of the source, which
    has no barcode property (the bin has a bin number, a location, integer
    quantities in the safe range, a status of the enumeration, and a barcode
    equal to its bin number), the round trip through [mapBinToS4] and
    [mapS4ToBin] preserves [binNumber], [capacity], [currentStock], [status]
    and [barcode] exactly. *)
Theorem round_trip_preserves (now : string) (b : Bin) (n loc : string) (c k : Z) :
  binNumber b = Some n ->
  barcode b = Some n ->
  location b = Some loc ->
  capacity b = Some (Num c) -> safe_integer c ->
  currentStock b = Some (Num k) -> safe_integer k ->
  status b = Some "active" \/ status b = Some "inactive" ->
  round_trip_exact now b.
Proof.
  intros Hn Hbar Hloc Hc _ Hk _ Hst.
  destruct (round_trip_fields now b loc c k Hloc Hc Hk Hst)
    as (s4 & Hmap & H1 & H2 & H3 & H4 & H5).
  exists s4. split; [exact Hmap |]. cbv zeta.
  repeat split; try assumption.
  rewrite H5, Hbar, Hn. f_equal. apply str_or_self.
Qed.

Lemma round_trip_preserves_witness :
  round_trip_exact "2025-01-01T00:00:00.000Z" keyed_bin.
Proof.
  apply (round_trip_preserves _ keyed_bin "BIN-A001" "Aisle A - Row 1" 1000 750);
    try reflexivity; try (unfold safe_integer; lia).
  left; reflexivity.
Defined.

(** C9, as stated, fails for a record without [StorageBin]: [ID] and
    [binNumber] are absent while [barcode] is the empty string. *)
Lemma identifiers_differ_without_key :
  ID (mapS4ToBin "2025-01-01T00:00:00.000Z" no_properties) = None /\
  binNumber (mapS4ToBin "2025-01-01T00:00:00.000Z" no_properties) = None /\
  barcode (mapS4ToBin "2025-01-01T00:00:00.000Z" no_properties) = Some "" /\
  ~ identifiers_coincide no_properties
      (mapS4ToBin "2025-01-01T00:00:00.000Z" no_properties).
Proof.
  repeat split. intros (_ & _ & H). cbv in H. discriminate.
Qed.

(** C9, amended: for every source record that has a [StorageBin], the bin
    produced by [mapS4ToBin] has [ID], [binNumber] and [barcode] all equal
    to it, so the path of the bin addressed by its id is the path addressed
    by its barcode. *)
Theorem identifiers_equal_key (now : string) (r : S4Bin) (key : string) :
  StorageBin r = Some key ->
  let b := mapS4ToBin now r in
  identifiers_coincide r b /\
  ID b = Some key /\ binNumber b = Some key /\ barcode b = Some key /\
  entity_path (ID b) = entity_path (barcode b).
Proof.
  intros Hkey. unfold identifiers_coincide, mapS4ToBin; cbn [ID binNumber barcode].
  rewrite Hkey, str_or_self. repeat split.
Qed.

Lemma identifiers_equal_key_witness :
  identifiers_coincide (stored "BIN-A001" "WH1" "BULK" "1000" "750" "")
    (mapS4ToBin "t" (stored "BIN-A001" "WH1" "BULK" "1000" "750" "")) /\
  ID (mapS4ToBin "t" (stored "BIN-A001" "WH1" "BULK" "1000" "750" ""))
    = Some "BIN-A001" /\
  barcode (mapS4ToBin "t" (stored "BIN-A001" "WH1" "BULK" "1000" "750" ""))
    = Some "BIN-A001".
Proof.
  destruct (identifiers_equal_key "t"
              (stored "BIN-A001" "WH1" "BULK" "1000" "750" "") "BIN-A001"
              eq_refl) as (Hall & Hid & _ & Hbarcode & _).
  repeat split; assumption.
Defined.

Lemma split_nonempty c s : split c s <> [].
Proof.
  destruct s as [| x r]; simpl; [discriminate |].
  destruct (Ascii.eqb x c); [discriminate |].
  destruct (split c r); discriminate.
Qed.

(** The first segment of a split is the text before the first separator. *)
Lemma split_first_segment c s : nth 0 (split c s) "" = before c s.
Proof.
  induction s as [| x r IH]; simpl; [reflexivity |].
  destruct (Ascii.eqb x c); [reflexivity |].
  pose proof (split_nonempty c r).
  destruct (split c r) as [| seg segs]; [contradiction |].
  simpl in *. rewrite IH. reflexivity.
Qed.

(** The second segment is the text between the first separator and the
    second one. *)
Lemma split_second_segment c s :
  nth_error (split c s) 1 = option_map (before c) (after c s).
Proof.
  induction s as [| x r IH]; simpl; [reflexivity |].
  destruct (Ascii.eqb x c).
  - simpl. pose proof (split_nonempty c r) as Hne.
    pose proof (split_first_segment c r) as Hfirst.
    destruct (split c r) as [| seg segs]; [contradiction |].
    simpl in *. rewrite Hfirst. reflexivity.
  - pose proof (split_nonempty c r) as Hne.
    destruct (split c r) as [| seg segs]; [contradiction |].
    simpl in *. exact IH.
Qed.

(** C5, as stated, fails: for the location ["A - B - C"] everything after
    the first delimiter is ["B - C"], but [mapBinToS4] writes ["B"] as the
    storage type, whether the delimiter is read as [" - "] or as ["-"]. *)
Lemma storage_type_is_second_segment_only :
  exists s4,
    mapBinToS4 three_part_bin = inr s4 /\
    StorageType s4 = Some "B" /\
    snd (split_first " - " "A - B - C") = Some "B - C" /\
    ~ decomposed_on_first " - " "A - B - C" s4 /\
    ~ decomposed_on_first "-" "A - B - C" s4.
Proof.
  eexists. split; [reflexivity |]. split; [reflexivity |]. split; [reflexivity |].
  split; intros [_ H]; cbv in H; discriminate.
Qed.

(** C5, amended: [mapBinToS4] cuts the location at every hyphen; the
    trimmed text before the first hyphen is the warehouse, the trimmed text
    between the first and the second hyphen is the storage type, and
    ["BULK"] stands in when there is no hyphen or that text is blank.  The
    status is encoded as blocking indicator [""] for ["active"] and ["X"]
    otherwise, and both quantities are written as decimal numerals, which
    [parseInt] reads back.  This holds for a location of ASCII characters
    and for quantities that are safe integers or [NaN]. *)
Theorem mapBinToS4_fields (b : Bin) (loc : string) (cap stock : number) :
  ascii_text loc -> safe_number cap -> safe_number stock ->
  location b = Some loc ->
  capacity b = Some cap ->
  currentStock b = Some stock ->
  exists s4,
    mapBinToS4 b = inr s4 /\
    StorageBin s4 = binNumber b /\
    Warehouse s4 = Some (trim (before "-" loc)) /\
    StorageType s4 =
      Some match after "-" loc with
           | Some rest =>
               if truthy_string (trim (before "-" rest))
               then trim (before "-" rest) else "BULK"
           | None => "BULK"
           end /\
    BlockingIndicator s4 =
      Some (if is_active (status b) then "" else "X") /\
    MaximumStorageCapacity s4 = Some (JStr (Number_toString cap)) /\
    CurrentStock s4 = Some (JStr (Number_toString stock)) /\
    parseInt_string (Number_toString cap) = cap /\
    parseInt_string (Number_toString stock) = stock.
Proof.
  intros _ _ _ Hloc Hcap Hstock. unfold mapBinToS4. rewrite Hloc, Hcap, Hstock.
  eexists. split; [reflexivity |].
  cbn [StorageBin Warehouse StorageType BlockingIndicator
       MaximumStorageCapacity CurrentStock].
  rewrite split_first_segment, split_second_segment.
  repeat split.
  - destruct (after "-" loc); reflexivity.
  - destruct cap; [apply parseInt_toString | reflexivity].
  - destruct stock; [apply parseInt_toString | reflexivity].
Qed.

Lemma mapBinToS4_fields_witness :
  exists s4,
    mapBinToS4 three_part_bin = inr s4 /\
    StorageBin s4 = Some "BIN-A001" /\
    Warehouse s4 = Some "A" /\
    StorageType s4 = Some "B" /\
    BlockingIndicator s4 = Some "" /\
    MaximumStorageCapacity s4 = Some (JStr "1000") /\
    CurrentStock s4 = Some (JStr "750").
Proof.
  assert (Hcap : safe_number (Num 1000)) by (vm_compute; split; discriminate).
  assert (Hstock : safe_number (Num 750)) by (vm_compute; split; discriminate).
  destruct (mapBinToS4_fields three_part_bin "A - B - C" (Num 1000) (Num 750)
              eq_refl Hcap Hstock eq_refl eq_refl eq_refl)
    as (s4 & Hmap & H1 & H2 & H3 & H4 & H5 & H6 & _ & _).
  exists s4. repeat split; assumption.
Defined.

(* ================================================================== *)
(** * Statistics *)
(* ================================================================== *)

Lemma fold_left_sum {A} (f : A -> Z) (l : list A) : forall a,
  fold_left (fun sum b => sum + f b) l a = a + sumZ (map f l).
Proof.
  induction l as [| x l IH]; intros a; simpl; [lia |].
  rewrite IH. lia.
Qed.

Lemma filter_length_le {A} (p : A -> bool) (l : list A) :
  (length (filter p l) <= length l)%nat.
Proof.
  induction l as [| x l IH]; simpl; [lia |].
  destruct (p x); simpl; lia.
Qed.

Lemma is_active_iff st : is_active st = true <-> st = Some "active".
Proof.
  destruct st as [s |]; simpl.
  - rewrite String.eqb_eq. split; [intros -> | intros [= ->]]; reflexivity.
  - split; discriminate.
Qed.

Lemma round_hundredths_closest m e :
  closest_hundredth m e (round_hundredths m e).
Proof.
  unfold closest_hundredth, round_hundredths.
  destruct (Z.leb_spec 0 e) as [Hpos | Hneg]; [reflexivity |].
  replace (1 - e) with (Z.succ (- e)) by lia.
  rewrite Z.pow_succ_r by lia.
  set (p := 2 ^ (- e)) in *.
  assert (Hp : 0 < p) by (apply Z.pow_pos_nonneg; lia).
  pose proof (Z.div_mod (200 * m + p) (2 * p) ltac:(lia)) as Hdm.
  pose proof (Z.mod_pos_bound (200 * m + p) (2 * p) ltac:(lia)) as Hb.
  lia.
Qed.

Ltac run_handler :=
  unfold on_READ, on_CREATE, on_UPDATE, on_DELETE, on_getBinStatistics,
    guarded, bind, callS4API, now, lift, ret;
  cbn [world sent fst snd].

Section ReadFacts.

Context {World : Type}.
Variable executeHttpRequest : World -> request -> (exn + option payload) * World.
Variable clock : World -> string.

Lemma on_getBinStatistics_results st rs w :
  executeHttpRequest (world st) statistics_request = (inr (Some (Results rs)), w) ->
  on_getBinStatistics executeHttpRequest clock st =
    (Return (binStatistics (map (mapS4ToBin (clock w)) rs)),
     {| world := w; sent := sent st ++ [statistics_request] |}).
Proof.
  intros H. run_handler.
  change {| r_method := GET;
            r_url := ODATA_PATH ++ "/A_WarehouseStorageBin?$format=json&$top=1000";
            r_data := None |} with statistics_request.
  rewrite H. reflexivity.
Qed.

Lemma on_READ_results sel st rs w :
  executeHttpRequest (world st) (list_request sel) = (inr (Some (Results rs)), w) ->
  on_READ executeHttpRequest clock sel st =
    (Return (map (mapS4ToBin (clock w)) rs),
     {| world := w; sent := sent st ++ [list_request sel] |}).
Proof.
  intros H. run_handler.
  change {| r_method := GET; r_url := ODATA_PATH ++ read_query sel;
            r_data := None |} with (list_request sel).
  rewrite H. reflexivity.
Qed.

End ReadFacts.

Section WriteFacts.

Context {World : Type}.
Variable executeHttpRequest : World -> request -> (exn + option payload) * World.
Variable clock : World -> string.

Local Abbreviation on_CREATE := (on_CREATE executeHttpRequest clock).
Local Abbreviation on_UPDATE := (on_UPDATE executeHttpRequest clock).

(** A create whose stock exceeds its capacity is refused before anything
    is sent. *)
Lemma on_CREATE_exceeding data st :
  gt (currentStock data) (capacity data) = true ->
  on_CREATE data st = (Rejected stock_exceeds_capacity, st).
Proof. intros H. run_handler. rewrite H. reflexivity. Qed.

(** A create that passes the check sends the insertion and nothing else. *)
Lemma on_CREATE_sends data st s4Data :
  gt (currentStock data) (capacity data) = false ->
  mapBinToS4 data = inr s4Data ->
  on_CREATE data st =
    match executeHttpRequest (world st) (post_request s4Data) with
    | (inr d, w) =>
        (Return (mapS4ToBin (clock w)
                   match d with Some p => entity_of p | None => s4Data end),
         {| world := w; sent := sent st ++ [post_request s4Data] |})
    | (inl e, w) =>
        (Rejected (failed "Failed to create bin: " e),
         {| world := w; sent := sent st ++ [post_request s4Data] |})
    end.
Proof.
  intros Hgt Hmap. run_handler. rewrite Hgt, Hmap.
  change {| r_method := POST; r_url := ODATA_PATH ++ "/A_WarehouseStorageBin";
            r_data := Some s4Data |} with (post_request s4Data).
  destruct (executeHttpRequest (world st) (post_request s4Data)) as [[e | d] w];
    reflexivity.
Qed.

(** A create that cannot be mapped fails before anything is sent. *)
Lemma on_CREATE_unmapped data st e :
  gt (currentStock data) (capacity data) = false ->
  mapBinToS4 data = inl e ->
  on_CREATE data st = (Rejected (failed "Failed to create bin: " e), st).
Proof. intros Hgt Hmap. run_handler. rewrite Hgt, Hmap. reflexivity. Qed.

(** An update whose first read throws fails with that cause. *)
Lemma on_UPDATE_read_fails data st e w :
  executeHttpRequest (world st) (get_request (ID data)) = (inl e, w) ->
  on_UPDATE data st =
    (Rejected (failed "Failed to update bin: " e),
     {| world := w; sent := sent st ++ [get_request (ID data)] |}).
Proof.
  intros H. run_handler.
  change {| r_method := GET;
            r_url := ODATA_PATH ++ entity_path (ID data) ++ "?$format=json";
            r_data := None |} with (get_request (ID data)).
  rewrite H. reflexivity.
Qed.

(** An update whose first read returns no entity fails on mapping it. *)
Lemma on_UPDATE_no_entity data st w :
  executeHttpRequest (world st) (get_request (ID data)) = (inr None, w) ->
  on_UPDATE data st =
    (Rejected (failed "Failed to update bin: " (TypeError "StorageBin")),
     {| world := w; sent := sent st ++ [get_request (ID data)] |}).
Proof.
  intros H. run_handler.
  change {| r_method := GET;
            r_url := ODATA_PATH ++ entity_path (ID data) ++ "?$format=json";
            r_data := None |} with (get_request (ID data)).
  rewrite H. reflexivity.
Qed.

(** An update whose merged quantities fail the check is refused after
    the read. *)
Lemma on_UPDATE_exceeding data st cur w :
  executeHttpRequest (world st) (get_request (ID data)) = (inr (Some cur), w) ->
  (let merged := merge (mapS4ToBin (clock w) (entity_of cur)) data in
   gt (currentStock merged) (capacity merged) = true) ->
  on_UPDATE data st =
    (Rejected stock_exceeds_capacity,
     {| world := w; sent := sent st ++ [get_request (ID data)] |}).
Proof.
  intros H Hgt. run_handler.
  change {| r_method := GET;
            r_url := ODATA_PATH ++ entity_path (ID data) ++ "?$format=json";
            r_data := None |} with (get_request (ID data)).
  rewrite H. cbn [mapS4ToBin_d world sent].
  cbv zeta in Hgt. cbn [merge currentStock capacity] in Hgt.
  rewrite Hgt. reflexivity.
Qed.

(** The merged bin of an update can always be mapped. *)
Lemma merged_maps now r data :
  exists s4, mapBinToS4 (merge (mapS4ToBin now r) data) = inr s4.
Proof.
  unfold mapBinToS4, merge, mapS4ToBin, over; cbn.
  destruct (location data), (capacity data), (currentStock data);
    eexists; reflexivity.
Qed.

(** An update that passes the check writes the mapped merged bin and
    reads the bin again. *)
Lemma on_UPDATE_writes data st cur w s4Data :
  executeHttpRequest (world st) (get_request (ID data)) = (inr (Some cur), w) ->
  (let merged := merge (mapS4ToBin (clock w) (entity_of cur)) data in
   gt (currentStock merged) (capacity merged) = false /\
   mapBinToS4 merged = inr s4Data) ->
  on_UPDATE data st =
    let sent1 := (sent st ++ [get_request (ID data)])%list in
    let sent2 := (sent1 ++ [patch_request (ID data) s4Data])%list in
    let sent3 := (sent2 ++ [get_request (ID data)])%list in
    match executeHttpRequest w (patch_request (ID data) s4Data) with
    | (inl e, w2) =>
        (Rejected (failed "Failed to update bin: " e),
         {| world := w2; sent := sent2 |})
    | (inr _, w2) =>
        match executeHttpRequest w2 (get_request (ID data)) with
        | (inl e, w3) =>
            (Rejected (failed "Failed to update bin: " e),
             {| world := w3; sent := sent3 |})
        | (inr None, w3) =>
            (Rejected (failed "Failed to update bin: " (TypeError "StorageBin")),
             {| world := w3; sent := sent3 |})
        | (inr (Some upd), w3) =>
            (Return (mapS4ToBin (clock w3) (entity_of upd)),
             {| world := w3; sent := sent3 |})
        end
    end.
Proof.
  intros H [Hgt Hmap]. run_handler.
  change {| r_method := GET;
            r_url := ODATA_PATH ++ entity_path (ID data) ++ "?$format=json";
            r_data := None |} with (get_request (ID data)).
  rewrite H. cbn [mapS4ToBin_d world sent].
  cbn [merge currentStock capacity] in Hgt.
  rewrite Hgt, Hmap.
  change {| r_method := PATCH; r_url := ODATA_PATH ++ entity_path (ID data);
            r_data := Some s4Data |} with (patch_request (ID data) s4Data).
  cbv zeta. cbn [world sent].
  destruct (executeHttpRequest w (patch_request (ID data) s4Data)) as [[e | d] w2];
    [reflexivity |].
  cbn [world sent].
  destruct (executeHttpRequest w2 (get_request (ID data))) as [[e | [upd |]] w3];
    reflexivity.
Qed.

End WriteFacts.

Lemma gt_exceeds a b c k :
  b = Some (Num c) -> a = Some (Num k) -> c < k -> gt a b = true.
Proof. intros -> -> H. simpl. apply Z.ltb_lt, H. Qed.

Lemma writes_app l r : writes (l ++ [r]) = (writes l ++ if is_write (r_method r) then [r] else [])%list.
Proof. unfold writes. rewrite filter_app. simpl. destruct (is_write (r_method r)); reflexivity. Qed.

Lemma before_UPDATE_merged bin data :
  LocalService.before_UPDATE (Some bin) data =
    inr (if gt (currentStock (merge bin data)) (capacity (merge bin data))
         then [stock_exceeds_capacity] else []).
Proof.
  unfold LocalService.before_UPDATE, LocalService.row_field, merge, over; cbn.
  destruct (capacity data), (currentStock data); reflexivity.
Qed.

(** C2: a create whose stock exceeds its capacity, and an update whose
    merged stock exceeds the merged capacity, fail with the error "Current
    stock cannot exceed capacity".  In the S/4HANA-backed service the create
    has sent nothing and the update has sent its read only, so that no write
    reached the source and the source is as the read left it; in the local
    service the error is registered before the write can run. *)
Theorem exceeding_stock_rejected_before_write
  (World : Type)
  (executeHttpRequest : World -> request -> (exn + option payload) * World)
  (clock : World -> string) (st : state World) :
  (forall data c k,
     capacity data = Some (Num c) ->
     currentStock data = Some (Num k) ->
     c < k ->
     on_CREATE executeHttpRequest clock data st
       = (Rejected stock_exceeds_capacity, st) /\
     LocalService.before_CREATE data = [stock_exceeds_capacity]) /\
  (forall data cur w c k,
     executeHttpRequest (world st) (get_request (ID data))
       = (inr (Some cur), w) ->
     let merged := merge (mapS4ToBin (clock w) (entity_of cur)) data in
     capacity merged = Some (Num c) ->
     currentStock merged = Some (Num k) ->
     c < k ->
     exists st',
       on_UPDATE executeHttpRequest clock data st
         = (Rejected stock_exceeds_capacity, st') /\
       sent st' = (sent st ++ [get_request (ID data)])%list /\
       writes (sent st') = writes (sent st) /\
       world st' = w) /\
  (forall bin data c k,
     capacity (merge bin data) = Some (Num c) ->
     currentStock (merge bin data) = Some (Num k) ->
     c < k ->
     LocalService.before_UPDATE (Some bin) data = inr [stock_exceeds_capacity]).
Proof.
  split; [| split].
  - intros data c k Hc Hk Hlt.
    pose proof (gt_exceeds _ _ c k Hc Hk Hlt) as Hgt. split.
    + apply on_CREATE_exceeding, Hgt.
    + unfold LocalService.before_CREATE. rewrite Hgt. reflexivity.
  - intros data cur w c k Hread merged Hc Hk Hlt.
    eexists. split.
    + apply (on_UPDATE_exceeding executeHttpRequest clock data st cur w Hread).
      exact (gt_exceeds _ _ c k Hc Hk Hlt).
    + cbn [sent world]. split; [reflexivity |]. split; [| reflexivity].
      rewrite writes_app. cbn. apply app_nil_r.
  - intros bin data c k Hc Hk Hlt.
    rewrite before_UPDATE_merged, (gt_exceeds _ _ c k Hc Hk Hlt). reflexivity.
Qed.

Lemma exceeding_stock_rejected_before_write_witness :
  on_CREATE (InMemory.serve true) InMemory.clock
    (new_bin (Some "BIN-B001") (Some "WH1 - BULK") (Some (Num 1000)) (Some (Num 1300)))
    (InMemory.start store1)
    = (Rejected stock_exceeds_capacity, InMemory.start store1) /\
  (exists st',
     on_UPDATE (InMemory.serve true) InMemory.clock
       (change "BIN-A001" None (Some (Num 1300))) (InMemory.start store1)
       = (Rejected stock_exceeds_capacity, st') /\
     sent st' = [get_request (Some "BIN-A001")] /\
     writes (sent st') = [] /\
     world st' = store1) /\
  LocalService.before_UPDATE (Some keyed_bin)
    (change "BIN-A001" None (Some (Num 1300)))
    = inr [stock_exceeds_capacity].
Proof.
  pose proof (exceeding_stock_rejected_before_write InMemory.Store
                (InMemory.serve true) InMemory.clock (InMemory.start store1))
    as (Hcreate & Hupdate & Hlocal).
  split; [| split].
  - apply (Hcreate _ 1000 1300); [reflexivity | reflexivity | lia].
  - apply (Hupdate (change "BIN-A001" None (Some (Num 1300)))
             (Entity (stored "BIN-A001" "WH1" "BULK" "1000" "750" ""))
             store1 1000 1300);
      [reflexivity | reflexivity | reflexivity | lia].
  - apply (Hlocal keyed_bin _ 1000 1300); [reflexivity | reflexivity | lia].
Defined.

(** C6, as stated, fails: the handler sends the insertion without any
    lookup.  Against a source that does not refuse a stored key the create
    of a bin number that exists succeeds and stores a second record; against
    a source that refuses it the create fails with the 500 error of a failed
    request. *)
Lemma duplicate_create_has_no_lookup :
  on_CREATE (InMemory.serve false) InMemory.clock duplicate_bin
            (InMemory.start store1)
    = (Return (mapS4ToBin (InMemory.clock []) duplicate_record),
       {| world := (store1 ++ [duplicate_record])%list;
          sent := [post_request duplicate_record] |}) /\
  on_CREATE (InMemory.serve true) InMemory.clock duplicate_bin
            (InMemory.start store1)
    = (Rejected {| code := 500;
                   message := "Failed to create bin: Request failed with status code 400" |},
       {| world := store1; sent := [post_request duplicate_record] |}).
Proof. split; vm_compute; reflexivity. Qed.

(** C6, amended: a create that passes the stock check and can be mapped
    sends exactly one request, the insertion of the mapped record, with no
    lookup before it; it fails, with the 500 error "Failed to create bin",
    exactly when the source refuses the insertion, and otherwise returns
    the mapped record. *)
Theorem create_relies_on_source
  (World : Type)
  (executeHttpRequest : World -> request -> (exn + option payload) * World)
  (clock : World -> string) (st : state World) (data : Bin) (s4Data : S4Bin) :
  gt (currentStock data) (capacity data) = false ->
  mapBinToS4 data = inr s4Data ->
  sent (snd (on_CREATE executeHttpRequest clock data st))
    = (sent st ++ [post_request s4Data])%list /\
  (forall e w,
     executeHttpRequest (world st) (post_request s4Data) = (inl e, w) ->
     on_CREATE executeHttpRequest clock data st
       = (Rejected (failed "Failed to create bin: " e),
          {| world := w; sent := (sent st ++ [post_request s4Data])%list |})) /\
  (forall d w,
     executeHttpRequest (world st) (post_request s4Data) = (inr d, w) ->
     on_CREATE executeHttpRequest clock data st
       = (Return (mapS4ToBin (clock w)
                    match d with Some p => entity_of p | None => s4Data end),
          {| world := w; sent := (sent st ++ [post_request s4Data])%list |})).
Proof.
  intros Hgt Hmap.
  rewrite (on_CREATE_sends executeHttpRequest clock data st s4Data Hgt Hmap).
  destruct (executeHttpRequest (world st) (post_request s4Data)) as [[e | d] w].
  - split; [reflexivity |]. split; [intros ? ? [= <- <-]; reflexivity |].
    intros ? ? [=].
  - split; [reflexivity |]. split; [intros ? ? [=] |].
    intros ? ? [= <- <-]. reflexivity.
Qed.

Lemma create_relies_on_source_witness :
  sent (snd (on_CREATE (InMemory.serve true) InMemory.clock duplicate_bin
               (InMemory.start store1)))
    = [post_request duplicate_record] /\
  on_CREATE (InMemory.serve true) InMemory.clock duplicate_bin
            (InMemory.start store1)
    = (Rejected (failed "Failed to create bin: " InMemory.bad_request),
       {| world := store1; sent := [post_request duplicate_record] |}) /\
  on_CREATE (InMemory.serve true) InMemory.clock duplicate_bin
            (InMemory.start [])
    = (Return (mapS4ToBin (InMemory.clock []) duplicate_record),
       {| world := [duplicate_record];
          sent := [post_request duplicate_record] |}).
Proof.
  split; [| split].
  - apply (create_relies_on_source InMemory.Store (InMemory.serve true)
             InMemory.clock (InMemory.start store1) duplicate_bin
             duplicate_record eq_refl eq_refl).
  - destruct (create_relies_on_source InMemory.Store (InMemory.serve true)
                InMemory.clock (InMemory.start store1) duplicate_bin
                duplicate_record eq_refl eq_refl) as (_ & Hfail & _).
    apply (Hfail InMemory.bad_request store1). reflexivity.
  - destruct (create_relies_on_source InMemory.Store (InMemory.serve true)
                InMemory.clock (InMemory.start []) duplicate_bin
                duplicate_record eq_refl eq_refl) as (_ & _ & Hok).
    apply (Hok (Some (Entity duplicate_record)) [duplicate_record]). reflexivity.
Defined.

(** The record that an update writes takes its warehouse and storage type
    from the composed location of the merged bin: an update that names the
    stock only turns the warehouse "WH-01" of storage type "BULK" into the
    warehouse "WH" of storage type "01". *)
Example update_resplits_location :
  world (snd (on_UPDATE (InMemory.serve true) InMemory.clock
                (change "BIN-A001" None (Some (Num 800)))
                (InMemory.start [stored "BIN-A001" "WH-01" "BULK" "1000" "750" ""])))
    = [stored "BIN-A001" "WH" "01" "1000" "800" ""].
Proof. vm_compute. reflexivity. Qed.

(** C7, as stated, fails: an update of a bin that the source does not have
    is answered with status 500 and the text of the failed request, the
    same way as any other failure of the source, not with a not-found
    error. *)
Lemma update_of_absent_bin_is_500 :
  exists e,
    on_UPDATE (InMemory.serve true) InMemory.clock
      (change "BIN-Z999" None (Some (Num 5))) (InMemory.start store1)
      = (Rejected e,
         {| world := store1; sent := [get_request (Some "BIN-Z999")] |}) /\
    e = {| code := 500;
           message := "Failed to update bin: Request failed with status code 404" |} /\
    ~ is_NotFound e.
Proof.
  eexists. split; [vm_compute; reflexivity |]. split; [reflexivity |].
  unfold is_NotFound. cbn. discriminate.
Qed.

(* ================================================================== *)
(** * The create form *)
(* ================================================================== *)

Module FormFacts.
Import CreateForm.

Lemma lookup_assign_same key msg errors :
  lookup key (assign key msg errors) = Some msg.
Proof.
  induction errors as [| [k m] rest IH]; simpl.
  - rewrite String.eqb_refl. reflexivity.
  - destruct (String.eqb k key) eqn:E; simpl; rewrite E; [reflexivity | exact IH].
Qed.

Lemma lookup_assign_other key key' msg errors :
  key' <> key -> lookup key (assign key' msg errors) = lookup key errors.
Proof.
  intros Hne. induction errors as [| [k m] rest IH]; simpl.
  - destruct (String.eqb_spec key' key); [contradiction | reflexivity].
  - destruct (String.eqb_spec k key') as [-> | Hk]; simpl.
    + destruct (String.eqb_spec key' key); [contradiction | reflexivity].
    + destruct (String.eqb k key); [reflexivity | exact IH].
Qed.

Lemma lookup_when_other key key' msg c errors :
  key' <> key -> lookup key (when c (assign key' msg) errors) = lookup key errors.
Proof.
  intros Hne. destruct c; simpl; [apply lookup_assign_other, Hne | reflexivity].
Qed.

Lemma blank_not_truthy s : s = "" -> negb (truthy_string s) = true.
Proof. intros ->. reflexivity. Qed.

(** A form with a recorded error is not submitted. *)
Lemma error_blocks_submit formData key msg :
  lookup key (newErrors formData) = Some msg -> handleSubmit formData = None.
Proof.
  intros H. unfold handleSubmit, validateForm.
  destruct (newErrors formData); [discriminate | reflexivity].
Qed.

Lemma bin_number_required formData :
  trim (bin_number formData) = "" ->
  lookup "bin_number" (newErrors formData) = Some "Bin number is required".
Proof.
  intros H. unfold newErrors. cbv zeta.
  rewrite !lookup_when_other by discriminate.
  rewrite (blank_not_truthy _ H). reflexivity.
Qed.

Lemma location_required formData :
  trim (location formData) = "" ->
  lookup "location" (newErrors formData) = Some "Location is required".
Proof.
  intros H. unfold newErrors. cbv zeta.
  rewrite !lookup_when_other by discriminate.
  rewrite (blank_not_truthy _ H). apply lookup_assign_same.
Qed.

Lemma capacity_required formData :
  capacity formData = "" ->
  lookup "capacity" (newErrors formData)
    = Some "Capacity must be greater than 0".
Proof.
  intros H. unfold newErrors. cbv zeta.
  rewrite !lookup_when_other by discriminate.
  rewrite H. apply lookup_assign_same.
Qed.

End FormFacts.

(** C8, as stated, fails at the service: a create with an empty location
    passes the handler, which maps it to an empty warehouse with storage
    type "BULK", sends the insertion and returns the new bin. *)
Lemma empty_location_is_written :
  location unlocated_bin = Some "" /\
  on_CREATE (InMemory.serve true) InMemory.clock unlocated_bin
            (InMemory.start store1)
    = (Return (mapS4ToBin (InMemory.clock []) unlocated_record),
       {| world := (store1 ++ [unlocated_record])%list;
          sent := [post_request unlocated_record] |}) /\
  writes [post_request unlocated_record] <> [].
Proof.
  split; [reflexivity |]. split; [vm_compute; reflexivity | discriminate].
Qed.

(** C8, amended: a create submitted through the create form whose bin
    number or location is blank, or whose capacity is empty, fails
    validation with a message recorded under the name of that field, and no
    request is sent.  The CREATE handler of the service has no check of
    required fields: when the location or the capacity is absent from the
    request it fails before anything is sent, with status 500 unless the
    stock check has already refused the request; the [before] handler of
    the local service registers no error for a request that passes the
    stock check, whatever else it lacks. *)
Theorem required_fields_checked_by_form :
  (forall formData : CreateForm.FormData,
     (trim (CreateForm.bin_number formData) = "" ->
      CreateForm.lookup "bin_number" (CreateForm.newErrors formData)
        = Some "Bin number is required" /\
      CreateForm.handleSubmit formData = None) /\
     (trim (CreateForm.location formData) = "" ->
      CreateForm.lookup "location" (CreateForm.newErrors formData)
        = Some "Location is required" /\
      CreateForm.handleSubmit formData = None) /\
     (CreateForm.capacity formData = "" ->
      CreateForm.lookup "capacity" (CreateForm.newErrors formData)
        = Some "Capacity must be greater than 0" /\
      CreateForm.handleSubmit formData = None)) /\
  (forall (World : Type) (executeHttpRequest : World -> request -> _)
          (clock : World -> string) (st : state World) (data : Bin),
     location data = None \/ capacity data = None ->
     exists e,
       on_CREATE executeHttpRequest clock data st = (Rejected e, st) /\
       (code e = 500 \/ e = stock_exceeds_capacity)) /\
  (forall data : Bin,
     gt (currentStock data) (capacity data) = false ->
     LocalService.before_CREATE data = []).
Proof.
  split; [| split].
  - intros formData. repeat split.
    + apply FormFacts.bin_number_required; assumption.
    + eapply FormFacts.error_blocks_submit, FormFacts.bin_number_required; assumption.
    + apply FormFacts.location_required; assumption.
    + eapply FormFacts.error_blocks_submit, FormFacts.location_required; assumption.
    + apply FormFacts.capacity_required; assumption.
    + eapply FormFacts.error_blocks_submit, FormFacts.capacity_required; assumption.
  - intros World exec clock st data Habsent.
    destruct (gt (currentStock data) (capacity data)) eqn:Hgt.
    + exists stock_exceeds_capacity. split; [| right; reflexivity].
      apply on_CREATE_exceeding, Hgt.
    + assert (Hmap : exists e, mapBinToS4 data = inl e).
      { unfold mapBinToS4. destruct Habsent as [-> | Hc].
        - eexists; reflexivity.
        - rewrite Hc. destruct (location data); eexists; reflexivity. }
      destruct Hmap as [e Hmap].
      exists (failed "Failed to create bin: " e). split; [| left; reflexivity].
      apply on_CREATE_unmapped; assumption.
  - intros data Hgt. unfold LocalService.before_CREATE. rewrite Hgt. reflexivity.
Qed.

Lemma required_fields_checked_by_form_witness :
  (CreateForm.lookup "bin_number" (CreateForm.newErrors blank_form)
     = Some "Bin number is required" /\
   CreateForm.handleSubmit blank_form = None) /\
  (CreateForm.lookup "location" (CreateForm.newErrors blank_form)
     = Some "Location is required" /\
   CreateForm.handleSubmit blank_form = None) /\
  (CreateForm.lookup "capacity" (CreateForm.newErrors blank_form)
     = Some "Capacity must be greater than 0" /\
   CreateForm.handleSubmit blank_form = None) /\
  (exists e,
     on_CREATE (InMemory.serve true) InMemory.clock
       (new_bin (Some "BIN-D001") None (Some (Num 10)) (Some (Num 0)))
       (InMemory.start store1)
       = (Rejected e, InMemory.start store1) /\
     (code e = 500 \/ e = stock_exceeds_capacity)) /\
  LocalService.before_CREATE
    (new_bin (Some "BIN-D001") None (Some (Num 10)) (Some (Num 0))) = [].
Proof.
  destruct required_fields_checked_by_form as (Hform & Hservice & Hlocal).
  destruct (Hform blank_form) as (Hnumber & Hlocation & Hcapacity).
  split; [apply Hnumber; reflexivity |].
  split; [apply Hlocation; reflexivity |].
  split; [apply Hcapacity; reflexivity |].
  split; [apply Hservice; left; reflexivity |].
  apply Hlocal. reflexivity.
Defined.

(* ================================================================== *)
(** * Bins that exceed their capacity *)
(* ================================================================== *)

(** C10: [mapS4ToBin] checks nothing.  A source record whose stock reads
    above its capacity becomes a bin with [currentStock > capacity]; READ
    returns that bin and [getBinStatistics] aggregates it, and the
    utilisation can then exceed 100 (150.00 for one bin of capacity 100
    holding 150). *)
Theorem overfull_bins_pass_through
  (World : Type)
  (executeHttpRequest : World -> request -> (exn + option payload) * World)
  (clock : World -> string) (st : state World) (sel : Select)
  (rs : list S4Bin) (r : S4Bin) (c k : Z) :
  parseInt (or_else (MaximumStorageCapacity r) (JNum (Num 0))) = Num c ->
  parseInt (or_else (CurrentStock r) (JNum (Num 0))) = Num k ->
  c < k ->
  In r rs ->
  (forall now,
     let b := mapS4ToBin now r in
     capacity b = Some (Num c) /\ currentStock b = Some (Num k) /\
     gt (currentStock b) (capacity b) = true) /\
  (forall w,
     executeHttpRequest (world st) (list_request sel)
       = (inr (Some (Results rs)), w) ->
     exists bins,
       fst (on_READ executeHttpRequest clock sel st) = Return bins /\
       bins = map (mapS4ToBin (clock w)) rs /\
       In (mapS4ToBin (clock w) r) bins) /\
  (forall w,
     executeHttpRequest (world st) statistics_request
       = (inr (Some (Results rs)), w) ->
     fst (on_getBinStatistics executeHttpRequest clock st)
       = Return (binStatistics (map (mapS4ToBin (clock w)) rs))) /\
  (forall now,
     binStatistics [mapS4ToBin now overfull_record]
       = {| totalBins := 1; activeBins := 1; inactiveBins := 0;
            totalCapacity := 100; totalStock := 150;
            utilizationPercentage := Fixed false 15000 |}).
Proof.
  intros Hc Hk Hlt Hin. split; [| split; [| split]].
  - intros now b. subst b. unfold mapS4ToBin; cbn [capacity currentStock].
    rewrite Hc, Hk. repeat split. simpl. apply Z.ltb_lt, Hlt.
  - intros w H. rewrite (on_READ_results executeHttpRequest clock sel st rs w H).
    eexists. split; [reflexivity |]. split; [reflexivity |].
    apply in_map, Hin.
  - intros w H.
    rewrite (on_getBinStatistics_results executeHttpRequest clock st rs w H).
    reflexivity.
  - intros now. vm_compute. reflexivity.
Qed.

Lemma overfull_bins_pass_through_witness :
  gt (currentStock (mapS4ToBin "t" overfull_record))
     (capacity (mapS4ToBin "t" overfull_record)) = true /\
  (exists bins,
     fst (on_READ (InMemory.serve true) InMemory.clock
            {| limit := None; skip := None; where_ := None |}
            (InMemory.start [overfull_record])) = Return bins /\
     In (mapS4ToBin (InMemory.clock []) overfull_record) bins) /\
  fst (on_getBinStatistics (InMemory.serve true) InMemory.clock
         (InMemory.start [overfull_record]))
    = Return (binStatistics [mapS4ToBin (InMemory.clock []) overfull_record]).
Proof.
  destruct (overfull_bins_pass_through InMemory.Store (InMemory.serve true)
              InMemory.clock (InMemory.start [overfull_record])
              {| limit := None; skip := None; where_ := None |}
              [overfull_record] overfull_record 100 150
              eq_refl eq_refl ltac:(lia) (or_introl eq_refl))
    as (Hbin & Hread & Hstats & _).
  split; [apply (Hbin "t") |]. split.
  - destruct (Hread [overfull_record] eq_refl) as (bins & Heq & _ & Hin).
    exists bins. split; assumption.
  - apply (Hstats [overfull_record]). reflexivity.
Defined.

(* ================================================================== *)
(** * Concatenation *)
(* ================================================================== *)

Lemma append_assoc (a b c : string) : (a ++ b) ++ c = a ++ (b ++ c).
Proof. induction a as [| x a IH]; simpl; [reflexivity | rewrite IH; reflexivity]. Qed.

Lemma append_nil_r (s : string) : s ++ "" = s.
Proof. induction s as [| x s IH]; simpl; [reflexivity | rewrite IH; reflexivity]. Qed.

(* ================================================================== *)
(** * Further properties of the mapper, the handlers and the screens *)
(* ================================================================== *)

(* ================================================================== *)
(** * White space and hyphens *)
(* ================================================================== *)

Lemma trimStart_length s : (String.length (trimStart s) <= String.length s)%nat.
Proof.
  induction s as [| c r IH]; simpl; [lia |].
  destruct (is_ws c); simpl; lia.
Qed.

Lemma trimStart_fixed c r : trimStart (String c r) = String c r -> is_ws c = false.
Proof.
  simpl. destruct (is_ws c); [| reflexivity].
  intros H. pose proof (trimStart_length r) as Hl. rewrite H in Hl. simpl in Hl. lia.
Qed.

Lemma trimStart_idempotent s : trimStart (trimStart s) = trimStart s.
Proof.
  induction s as [| c r IH]; simpl; [reflexivity |].
  destruct (is_ws c) eqn:E; [exact IH |]. simpl. rewrite E. reflexivity.
Qed.

Lemma trimEnd_idempotent s : trimEnd (trimEnd s) = trimEnd s.
Proof.
  induction s as [| c r IH]; simpl; [reflexivity |].
  destruct (trimEnd r) as [| x t] eqn:E.
  - destruct (is_ws c) eqn:Ec; simpl; [reflexivity | rewrite Ec; reflexivity].
  - change (trimEnd (String c (String x t)))
      with (match trimEnd (String x t) with
            | "" => if is_ws c then "" else String c ""
            | r' => String c r'
            end).
    rewrite IH. reflexivity.
Qed.

(** Trimming the end of a string that starts clean leaves it starting
    clean. *)
Lemma trimStart_trimEnd s : trimStart s = s -> trimStart (trimEnd s) = trimEnd s.
Proof.
  destruct s as [| c r]; [reflexivity |].
  intros H. apply trimStart_fixed in H. simpl trimEnd.
  destruct (trimEnd r); rewrite ?H; simpl; rewrite H; reflexivity.
Qed.

Lemma trim_clean s : clean (trim s).
Proof.
  unfold clean, trim. split.
  - apply trimStart_trimEnd, trimStart_idempotent.
  - apply trimEnd_idempotent.
Qed.

Lemma clean_trim s : clean s -> trim s = s.
Proof. intros [H1 H2]. unfold trim. rewrite H1. exact H2. Qed.

(** Text that ends clean keeps whatever stands before it. *)
Lemma trimEnd_app a t : t <> "" -> trimEnd t = t -> trimEnd (a ++ t) = a ++ t.
Proof.
  intros Hne Ht. induction a as [| x a IH]; simpl; [exact Ht |].
  rewrite IH. destruct (a ++ t) eqn:E; [| reflexivity].
  destruct a; simpl in E; [contradiction | discriminate].
Qed.

Lemma trimEnd_space a : trimEnd (a ++ " ") = trimEnd a.
Proof.
  induction a as [| x a IH]; simpl; [reflexivity |]. rewrite IH. reflexivity.
Qed.

Lemma trimEnd_nonempty t : t <> "" -> trimEnd t = t -> trimEnd t <> "".
Proof. intros Hne ->. exact Hne. Qed.

Lemma before_app c a b : after c a = None -> before c (a ++ String c b) = a.
Proof.
  induction a as [| x a IH]; simpl.
  - rewrite Ascii.eqb_refl. reflexivity.
  - destruct (Ascii.eqb x c); [discriminate |]. intros H. rewrite IH by exact H.
    reflexivity.
Qed.

Lemma after_app c a b : after c a = None -> after c (a ++ String c b) = Some b.
Proof.
  induction a as [| x a IH]; simpl.
  - rewrite Ascii.eqb_refl. reflexivity.
  - destruct (Ascii.eqb x c); [discriminate | exact IH].
Qed.

Lemma before_none c s : after c s = None -> before c s = s.
Proof.
  induction s as [| x s IH]; simpl; [reflexivity |].
  destruct (Ascii.eqb x c); [discriminate |]. intros H. rewrite IH by exact H.
  reflexivity.
Qed.

Lemma after_app_none c a b :
  after c a = None -> after c b = None -> after c (a ++ b) = None.
Proof.
  induction a as [| x a IH]; simpl; [intros _ H; exact H |].
  destruct (Ascii.eqb x c); [discriminate | exact IH].
Qed.

(** The composed location of a warehouse and a storage type, once
    trimmed. *)
Lemma composed_trimmed w t :
  clean w -> clean t -> t <> "" ->
  trim (w ++ " - " ++ t) = match w with "" => "- " ++ t | _ => w ++ " - " ++ t end.
Proof.
  intros [Hw1 Hw2] [Ht1 Ht2] Hne. unfold trim.
  destruct w as [| c w'].
  - replace (trimStart ("" ++ " - " ++ t)) with ("- " ++ t) by reflexivity.
    apply trimEnd_app; assumption.
  - apply trimStart_fixed in Hw1 as Hc.
    replace (trimStart (String c w' ++ " - " ++ t))
      with ((String c w' ++ " - ") ++ t).
    + rewrite trimEnd_app by assumption. rewrite append_assoc. reflexivity.
    + rewrite append_assoc. simpl. rewrite Hc. reflexivity.
Qed.

(** The same when there is no storage type. *)
Lemma composed_trimmed_no_type w :
  clean w ->
  trim (w ++ " - " ++ "") = match w with "" => "-" | _ => w ++ " -" end.
Proof.
  intros [Hw1 Hw2]. unfold trim.
  destruct w as [| c w']; [reflexivity |].
  apply trimStart_fixed in Hw1 as Hc.
  replace (trimStart (String c w' ++ " - " ++ ""))
    with (((String c w' ++ " -") ++ " ")).
  - rewrite trimEnd_space. apply trimEnd_app; [discriminate | reflexivity].
  - rewrite append_assoc. simpl. rewrite Hc. reflexivity.
Qed.

Lemma trim_space_after w : clean w -> trim (w ++ " ") = w.
Proof.
  intros [Hw1 Hw2]. unfold trim. destruct w as [| c w']; [reflexivity |].
  apply trimStart_fixed in Hw1 as Hc.
  replace (trimStart (String c w' ++ " ")) with (String c w' ++ " ")
    by (simpl; rewrite Hc; reflexivity).
  rewrite trimEnd_space. exact Hw2.
Qed.

Lemma trim_space_before t : clean t -> trim (" " ++ t) = t.
Proof. intros [Ht1 Ht2]. unfold trim. simpl. rewrite Ht1. exact Ht2. Qed.

Lemma str_or_nonempty t : t <> "" -> str_or (Some t) "BULK" = t.
Proof. destruct t; [contradiction | reflexivity]. Qed.

(* ================================================================== *)
(** * From the source record to the bin and back *)
(* ================================================================== *)

(** The location that [mapS4ToBin] composes, cut at its hyphen. *)
Lemma composed_cut w t :
  clean w -> clean t -> hyphen_free w -> hyphen_free t ->
  let loc := trim (w ++ " - " ++ t) in
  trim (before "-" loc) = w /\
  exists rest, after "-" loc = Some rest /\ trim (before "-" rest) = t.
Proof.
  intros Hw Ht Hfw Hft loc. subst loc.
  assert (Hcut : exists pre post,
            trim (w ++ " - " ++ t) = pre ++ String "-" post /\
            after "-" pre = None /\ trim pre = w /\
            after "-" post = None /\ trim post = t).
  { destruct t as [| ct t'].
    - rewrite (composed_trimmed_no_type w Hw). destruct w as [| c w'].
      + exists "", "". repeat split.
      + exists (String c w' ++ " "), "". split.
        * rewrite append_assoc. reflexivity.
        * split; [apply after_app_none; [exact Hfw | reflexivity] |].
          split; [apply trim_space_after, Hw | split; reflexivity].
    - rewrite (composed_trimmed w _ Hw Ht) by discriminate.
      destruct w as [| c w'].
      + exists "", (" " ++ String ct t'). split; [reflexivity |].
        split; [reflexivity |]. split; [reflexivity |].
        split; [exact Hft | apply trim_space_before, Ht].
      + exists (String c w' ++ " "), (" " ++ String ct t'). split.
        * rewrite append_assoc. reflexivity.
        * split; [apply after_app_none; [exact Hfw | reflexivity] |].
          split; [apply trim_space_after, Hw |].
          split; [exact Hft | apply trim_space_before, Ht]. }
  destruct Hcut as (pre & post & -> & Hpre & Htpre & Hpost & Htpost).
  rewrite before_app, after_app by exact Hpre.
  split; [exact Htpre |]. exists post. split; [reflexivity |].
  rewrite before_none by exact Hpost. exact Htpost.
Qed.

(** The sub-fields that [mapBinToS4] writes for a location cut at its
    hyphens. *)
Lemma mapBinToS4_cut b loc cap stock w rest t :
  location b = Some loc -> capacity b = Some cap -> currentStock b = Some stock ->
  trim (before "-" loc) = w ->
  after "-" loc = Some rest -> trim (before "-" rest) = t -> t <> "" ->
  mapBinToS4 b =
    inr {| StorageBin := binNumber b;
           Warehouse := Some w;
           StorageType := Some t;
           MaximumStorageCapacity := Some (JStr (Number_toString cap));
           CurrentStock := Some (JStr (Number_toString stock));
           BlockingIndicator := Some (if is_active (status b) then "" else "X");
           CreationDate := None |}.
Proof.
  intros Hloc Hcap Hstock Hw Hafter Ht Hne.
  unfold mapBinToS4. rewrite Hloc, Hcap, Hstock.
  rewrite split_first_segment, split_second_segment, Hw, Hafter.
  cbn [option_map]. rewrite Ht, (str_or_nonempty _ Hne). reflexivity.
Qed.

Lemma mapped_status_flag now r :
  (if is_active (status (mapS4ToBin now r)) then "" else "X")
    = normal_flag (BlockingIndicator r).
Proof.
  unfold mapS4ToBin, normal_flag; cbn [status].
  destruct (truthy_opt (BlockingIndicator r)); reflexivity.
Qed.

(** X1: a stored record of ASCII text whose warehouse and storage type
    have no hyphen and no white space at either end, and whose storage type is not empty,
    is restored by [mapS4ToBin] followed by [mapBinToS4]: key, warehouse and
    storage type come back as they were, and the blocking indicator comes
    back as [""] or ["X"]. *)
Theorem source_record_restored (now : string) (r : S4Bin) :
  ascii_record r ->
  clean (str_or (Warehouse r) "") ->
  clean (str_or (StorageType r) "") ->
  hyphen_free (str_or (Warehouse r) "") ->
  hyphen_free (str_or (StorageType r) "") ->
  str_or (StorageType r) "" <> "" ->
  exists s4,
    mapBinToS4 (mapS4ToBin now r) = inr s4 /\
    StorageBin s4 = StorageBin r /\
    Warehouse s4 = Some (str_or (Warehouse r) "") /\
    StorageType s4 = Some (str_or (StorageType r) "") /\
    BlockingIndicator s4 = Some (normal_flag (BlockingIndicator r)).
Proof.
  intros _ Hw Ht Hfw Hft Hne.
  destruct (composed_cut _ _ Hw Ht Hfw Hft) as (Hfirst & rest & Hafter & Hsecond).
  eexists. split.
  - apply (mapBinToS4_cut (mapS4ToBin now r) _ _ _ _ rest _ eq_refl eq_refl eq_refl
             Hfirst Hafter Hsecond Hne).
  - cbn [StorageBin Warehouse StorageType BlockingIndicator].
    rewrite mapped_status_flag. repeat split.
Qed.

Lemma source_record_restored_witness :
  exists s4,
    mapBinToS4 (mapS4ToBin "2025-01-01T00:00:00.000Z" blocked_record) = inr s4 /\
    StorageBin s4 = Some "BIN-B001" /\
    Warehouse s4 = Some "WH1" /\
    StorageType s4 = Some "RACK" /\
    BlockingIndicator s4 = Some "X".
Proof.
  apply (source_record_restored "2025-01-01T00:00:00.000Z" blocked_record).
  - repeat split.
  - split; reflexivity.
  - split; reflexivity.
  - reflexivity.
  - reflexivity.
  - discriminate.
Defined.

(** X2: when the stored record, of ASCII text, has no storage type (absent
    or empty) and its warehouse has no hyphen and no white space at either
    end, the same round trip does not restore it: [mapBinToS4] writes
    ["BULK"]. *)
Theorem missing_storage_type_becomes_BULK (now : string) (r : S4Bin) :
  ascii_record r ->
  clean (str_or (Warehouse r) "") ->
  hyphen_free (str_or (Warehouse r) "") ->
  str_or (StorageType r) "" = "" ->
  exists s4,
    mapBinToS4 (mapS4ToBin now r) = inr s4 /\
    Warehouse s4 = Some (str_or (Warehouse r) "") /\
    StorageType s4 = Some "BULK".
Proof.
  intros _ Hw Hfw Hnone.
  assert (Ht : clean "") by (split; reflexivity).
  destruct (composed_cut _ "" Hw Ht Hfw eq_refl) as (Hfirst & rest & Hafter & Hsecond).
  unfold mapBinToS4, mapS4ToBin;
    cbn [location capacity currentStock binNumber status].
  rewrite Hnone.
  eexists. split; [reflexivity |].
  cbn [Warehouse StorageType].
  rewrite split_first_segment, split_second_segment, Hfirst, Hafter.
  cbn [option_map]. rewrite Hsecond. split; reflexivity.
Qed.

Lemma missing_storage_type_becomes_BULK_witness :
  exists s4,
    mapBinToS4 (mapS4ToBin "2025-01-01T00:00:00.000Z" untyped_record) = inr s4 /\
    Warehouse s4 = Some "WH1" /\
    StorageType s4 = Some "BULK".
Proof.
  apply (missing_storage_type_becomes_BULK "2025-01-01T00:00:00.000Z" untyped_record).
  - repeat split.
  - split; reflexivity.
  - reflexivity.
  - reflexivity.
Defined.

Lemma has_char_cons c x r :
  has_char c (String x r) = Ascii.eqb x c || has_char c r.
Proof. unfold has_char. simpl. destruct (Ascii.eqb x c); reflexivity. Qed.

Lemma ws_not_hyphen x : is_ws x = true -> Ascii.eqb x "-" = false.
Proof.
  intros H. destruct (Ascii.eqb_spec x "-") as [-> | _]; [discriminate H | reflexivity].
Qed.

Lemma has_hyphen_trimStart s : has_char "-" (trimStart s) = has_char "-" s.
Proof.
  induction s as [| x r IH]; [reflexivity |]. simpl trimStart.
  destruct (is_ws x) eqn:E; [| reflexivity].
  rewrite IH, has_char_cons, (ws_not_hyphen x E). reflexivity.
Qed.

Lemma has_hyphen_trimEnd s : has_char "-" (trimEnd s) = has_char "-" s.
Proof.
  induction s as [| x r IH]; [reflexivity |]. simpl trimEnd.
  rewrite has_char_cons, <- IH.
  destruct (trimEnd r) as [| y t].
  - destruct (is_ws x) eqn:E.
    + rewrite (ws_not_hyphen x E). reflexivity.
    + rewrite has_char_cons. reflexivity.
  - rewrite has_char_cons. reflexivity.
Qed.

Lemma has_hyphen_composed w t : has_char "-" (w ++ " - " ++ t) = true.
Proof.
  induction w as [| x w IH]; [reflexivity |].
  change (String x w ++ " - " ++ t) with (String x (w ++ " - " ++ t)).
  rewrite has_char_cons, IH. apply orb_true_r.
Qed.

(** X3: every location that [mapS4ToBin] composes has no white space at
    either end and holds a hyphen, whatever the record; so [mapBinToS4]
    always finds a second segment in it. *)
Theorem mapped_location_shape (now : string) (r : S4Bin) :
  exists loc,
    location (mapS4ToBin now r) = Some loc /\
    clean loc /\ trim loc = loc /\
    has_char "-" loc = true /\
    exists segment, nth_error (split "-" loc) 1 = Some segment.
Proof.
  eexists. split; [reflexivity |].
  split; [apply trim_clean |].
  split; [apply clean_trim, trim_clean |].
  assert (H : has_char "-" (trim (str_or (Warehouse r) "" ++ " - "
                                  ++ str_or (StorageType r) "")) = true).
  { unfold trim. rewrite has_hyphen_trimEnd, has_hyphen_trimStart.
    apply has_hyphen_composed. }
  split; [exact H |].
  rewrite split_second_segment. unfold has_char in H.
  destruct (after "-" _) as [rest |]; [| discriminate].
  eexists. reflexivity.
Qed.

(** X4: a bin that [mapS4ToBin] has produced is a fixed point of the round
    trip through the source shape: with quantities that are safe integers
    or [NaN], mapping it with [mapBinToS4] and back gives the same [ID],
    [binNumber], [capacity], [currentStock], [status] and [barcode], for any
    record, whether or not it has a key. *)
Theorem canonical_bin_is_fixed_point (now now' : string) (r : S4Bin) :
  safe_number (parseInt (or_else (MaximumStorageCapacity r) (JNum (Num 0)))) ->
  safe_number (parseInt (or_else (CurrentStock r) (JNum (Num 0)))) ->
  exists s4,
    mapBinToS4 (mapS4ToBin now r) = inr s4 /\
    ID (mapS4ToBin now' s4) = ID (mapS4ToBin now r) /\
    binNumber (mapS4ToBin now' s4) = binNumber (mapS4ToBin now r) /\
    capacity (mapS4ToBin now' s4) = capacity (mapS4ToBin now r) /\
    currentStock (mapS4ToBin now' s4) = currentStock (mapS4ToBin now r) /\
    status (mapS4ToBin now' s4) = status (mapS4ToBin now r) /\
    barcode (mapS4ToBin now' s4) = barcode (mapS4ToBin now r).
Proof.
  intros Hc Hk.
  destruct (mapped_bins_round_trip now now' r) as (s4 & Hmap & H1 & H2 & H3 & H4 & H5).
  exists s4. split; [exact Hmap |].
  repeat split; assumption.
Qed.

Lemma canonical_bin_is_fixed_point_witness :
  exists s4,
    mapBinToS4 (mapS4ToBin "2025-01-01T00:00:00.000Z" untyped_record) = inr s4 /\
    ID (mapS4ToBin "2025-06-01T00:00:00.000Z" s4) = Some "BIN-C001" /\
    binNumber (mapS4ToBin "2025-06-01T00:00:00.000Z" s4) = Some "BIN-C001" /\
    capacity (mapS4ToBin "2025-06-01T00:00:00.000Z" s4) = Some (Num 500) /\
    currentStock (mapS4ToBin "2025-06-01T00:00:00.000Z" s4) = Some (Num 0) /\
    status (mapS4ToBin "2025-06-01T00:00:00.000Z" s4) = Some "active" /\
    barcode (mapS4ToBin "2025-06-01T00:00:00.000Z" s4) = Some "BIN-C001".
Proof.
  apply (canonical_bin_is_fixed_point "2025-01-01T00:00:00.000Z"
           "2025-06-01T00:00:00.000Z" untyped_record).
  - vm_compute. split; discriminate.
  - vm_compute. split; discriminate.
Defined.

(* ================================================================== *)
(** * What the handlers send *)
(* ================================================================== *)

Ltac name_requests :=
  repeat match goal with
  | |- context [ {| r_method := GET; r_url := ODATA_PATH ++ read_query ?sel;
                    r_data := None |} ] =>
      change {| r_method := GET; r_url := ODATA_PATH ++ read_query sel;
                r_data := None |} with (list_request sel)
  | |- context [ {| r_method := GET;
                    r_url := ODATA_PATH ++ "/A_WarehouseStorageBin?$format=json&$top=1000";
                    r_data := None |} ] =>
      change {| r_method := GET;
                r_url := ODATA_PATH ++ "/A_WarehouseStorageBin?$format=json&$top=1000";
                r_data := None |} with statistics_request
  | |- context [ {| r_method := DELETE; r_url := ODATA_PATH ++ entity_path ?i;
                    r_data := None |} ] =>
      change {| r_method := DELETE; r_url := ODATA_PATH ++ entity_path i;
                r_data := None |} with (delete_request i)
  end.

Section Discipline.

Context {World : Type}.
Variable executeHttpRequest : World -> request -> (exn + option payload) * World.
Variable clock : World -> string.

Lemma on_READ_run sel st :
  on_READ executeHttpRequest clock sel st =
    match executeHttpRequest (world st) (list_request sel) with
    | (inl e, w) =>
        (Rejected (failed "Failed to read bins: " e),
         {| world := w; sent := sent st ++ [list_request sel] |})
    | (inr (Some (Results rs)), w) =>
        (Return (map (mapS4ToBin (clock w)) rs),
         {| world := w; sent := sent st ++ [list_request sel] |})
    | (inr _, w) =>
        (Return [], {| world := w; sent := sent st ++ [list_request sel] |})
    end.
Proof.
  run_handler. name_requests.
  destruct (executeHttpRequest (world st) (list_request sel)) as [[e | [[ent | rs] |]] w];
    reflexivity.
Qed.

Lemma on_getBinStatistics_run st :
  on_getBinStatistics executeHttpRequest clock st =
    match executeHttpRequest (world st) statistics_request with
    | (inl e, w) =>
        (Rejected (failed "Failed to get statistics: " e),
         {| world := w; sent := sent st ++ [statistics_request] |})
    | (inr (Some (Results rs)), w) =>
        (Return (binStatistics (map (mapS4ToBin (clock w)) rs)),
         {| world := w; sent := sent st ++ [statistics_request] |})
    | (inr _, w) =>
        (Return (binStatistics []),
         {| world := w; sent := sent st ++ [statistics_request] |})
    end.
Proof.
  run_handler. name_requests.
  destruct (executeHttpRequest (world st) statistics_request) as [[e | [[ent | rs] |]] w];
    reflexivity.
Qed.

Lemma on_DELETE_run data st :
  on_DELETE executeHttpRequest data st =
    match executeHttpRequest (world st) (delete_request (ID data)) with
    | (inl e, w) =>
        (Rejected (failed "Failed to delete bin: " e),
         {| world := w; sent := sent st ++ [delete_request (ID data)] |})
    | (inr _, w) =>
        (Return tt, {| world := w; sent := sent st ++ [delete_request (ID data)] |})
    end.
Proof.
  run_handler. name_requests.
  destruct (executeHttpRequest (world st) (delete_request (ID data))) as [[e | d] w];
    reflexivity.
Qed.

End Discipline.

(** X5: READ and [getBinStatistics] are read-only whatever the source
    answers: each sends exactly one GET request and no write. *)
Theorem read_handlers_never_write
  (World : Type)
  (executeHttpRequest : World -> request -> (exn + option payload) * World)
  (clock : World -> string) (st : state World) (sel : Select) :
  sent (snd (on_READ executeHttpRequest clock sel st))
    = (sent st ++ [list_request sel])%list /\
  writes (sent (snd (on_READ executeHttpRequest clock sel st)))
    = writes (sent st) /\
  sent (snd (on_getBinStatistics executeHttpRequest clock st))
    = (sent st ++ [statistics_request])%list /\
  writes (sent (snd (on_getBinStatistics executeHttpRequest clock st)))
    = writes (sent st).
Proof.
  rewrite on_READ_run, on_getBinStatistics_run.
  destruct (executeHttpRequest (world st) (list_request sel))
    as [[e | [[ent | rs] |]] w];
  destruct (executeHttpRequest (world st) statistics_request)
    as [[e' | [[ent' | rs'] |]] w'];
  cbn [snd sent]; rewrite !writes_app; cbn; rewrite !app_nil_r; repeat split.
Qed.

(** X6: a handler that writes sends at most one write.  DELETE sends one
    DELETE request without body and nothing else; CREATE sends nothing or the
    one POST of the mapped request; UPDATE starts with the read of the bin
    and sends after it nothing, or the PATCH of the mapped merged bin, or the
    PATCH and one more read. *)
Theorem write_handlers_write_once
  (World : Type)
  (executeHttpRequest : World -> request -> (exn + option payload) * World)
  (clock : World -> string) (st : state World) (data : Bin) :
  sent (snd (on_DELETE executeHttpRequest data st))
    = (sent st ++ [delete_request (ID data)])%list /\
  (sent (snd (on_CREATE executeHttpRequest clock data st)) = sent st \/
   exists s4Data,
     mapBinToS4 data = inr s4Data /\
     sent (snd (on_CREATE executeHttpRequest clock data st))
       = (sent st ++ [post_request s4Data])%list) /\
  (exists s4Data after_read,
     sent (snd (on_UPDATE executeHttpRequest clock data st))
       = (sent st ++ get_request (ID data) :: after_read)%list /\
     (after_read = [] \/
      after_read = [patch_request (ID data) s4Data] \/
      after_read = [patch_request (ID data) s4Data; get_request (ID data)])).
Proof.
  split; [| split].
  - rewrite on_DELETE_run.
    destruct (executeHttpRequest (world st) (delete_request (ID data))) as [[e | d] w];
      reflexivity.
  - destruct (gt (currentStock data) (capacity data)) eqn:Hgt.
    + left. rewrite on_CREATE_exceeding by exact Hgt. reflexivity.
    + destruct (mapBinToS4 data) as [e | s4Data] eqn:Hmap.
      * left. rewrite (on_CREATE_unmapped _ _ _ _ e Hgt Hmap). reflexivity.
      * right. exists s4Data. split; [reflexivity |].
        rewrite (on_CREATE_sends _ _ _ _ s4Data Hgt Hmap).
        destruct (executeHttpRequest (world st) (post_request s4Data)) as [[e | d] w];
          reflexivity.
  - destruct (executeHttpRequest (world st) (get_request (ID data)))
      as [[e | [cur |]] w] eqn:Hread.
    + exists no_properties, []. split; [| left; reflexivity].
      rewrite (on_UPDATE_read_fails _ _ _ _ e w Hread). reflexivity.
    + destruct (gt (currentStock (merge (mapS4ToBin (clock w) (entity_of cur)) data))
                   (capacity (merge (mapS4ToBin (clock w) (entity_of cur)) data)))
        eqn:Hgt.
      * exists no_properties, []. split; [| left; reflexivity].
        rewrite (on_UPDATE_exceeding _ _ _ _ cur w Hread Hgt). reflexivity.
      * destruct (merged_maps (clock w) (entity_of cur) data) as [s4Data Hmap].
        rewrite (on_UPDATE_writes _ _ _ _ cur w s4Data Hread (conj Hgt Hmap)).
        cbv zeta.
        destruct (executeHttpRequest w (patch_request (ID data) s4Data))
          as [[e | d] w2].
        -- exists s4Data, [patch_request (ID data) s4Data].
           cbn [snd sent]. rewrite <- app_assoc. split; [reflexivity |].
           right; left; reflexivity.
        -- exists s4Data,
             [patch_request (ID data) s4Data; get_request (ID data)].
           split; [| right; right; reflexivity].
           destruct (executeHttpRequest w2 (get_request (ID data)))
             as [[e | [upd |]] w3];
             cbn [snd sent]; rewrite <- !app_assoc; reflexivity.
    + exists no_properties, []. split; [| left; reflexivity].
      rewrite (on_UPDATE_no_entity _ _ _ _ w Hread). reflexivity.
Qed.

(** X7: READ, [getBinStatistics] and DELETE fail only when the request to
    the source throws, and then with status 500 and the messages "Failed to
    read bins: ", "Failed to get statistics: " and "Failed to delete bin: "
    followed by the cause.  An answer without a collection of results is no
    failure: READ returns the empty list and the statistics are all zero. *)
Theorem read_and_delete_outcomes
  (World : Type)
  (executeHttpRequest : World -> request -> (exn + option payload) * World)
  (clock : World -> string) (st : state World) (sel : Select) (data : Bin) :
  (forall e w,
     executeHttpRequest (world st) (list_request sel) = (inl e, w) ->
     fst (on_READ executeHttpRequest clock sel st)
       = Rejected (failed "Failed to read bins: " e)) /\
  (forall d w,
     executeHttpRequest (world st) (list_request sel) = (inr d, w) ->
     (forall rs, d <> Some (Results rs)) ->
     fst (on_READ executeHttpRequest clock sel st) = Return []) /\
  (forall e w,
     executeHttpRequest (world st) statistics_request = (inl e, w) ->
     fst (on_getBinStatistics executeHttpRequest clock st)
       = Rejected (failed "Failed to get statistics: " e)) /\
  (forall d w,
     executeHttpRequest (world st) statistics_request = (inr d, w) ->
     (forall rs, d <> Some (Results rs)) ->
     fst (on_getBinStatistics executeHttpRequest clock st) = Return no_statistics) /\
  (forall e w,
     executeHttpRequest (world st) (delete_request (ID data)) = (inl e, w) ->
     fst (on_DELETE executeHttpRequest data st)
       = Rejected (failed "Failed to delete bin: " e)) /\
  (forall d w,
     executeHttpRequest (world st) (delete_request (ID data)) = (inr d, w) ->
     on_DELETE executeHttpRequest data st
       = (Return tt,
          {| world := w; sent := sent st ++ [delete_request (ID data)] |})).
Proof.
  rewrite on_READ_run, on_getBinStatistics_run, on_DELETE_run.
  repeat split.
  - intros e w ->. reflexivity.
  - intros d w -> Hd. destruct d as [[ent | rs] |]; try reflexivity.
    exfalso. apply (Hd rs). reflexivity.
  - intros e w ->. reflexivity.
  - intros d w -> Hd. destruct d as [[ent | rs] |]; try reflexivity.
    exfalso. apply (Hd rs). reflexivity.
  - intros e w ->. reflexivity.
  - intros d w ->. reflexivity.
Qed.

Lemma read_and_delete_outcomes_witness :
  fst (on_READ unreachable InMemory.clock (search_for "WH1" None)
         (InMemory.start store1))
    = Rejected (failed "Failed to read bins: " (HttpError "connect ECONNREFUSED")) /\
  fst (on_READ silent InMemory.clock (search_for "WH1" None)
         (InMemory.start store1))
    = Return [] /\
  fst (on_getBinStatistics silent InMemory.clock (InMemory.start store1))
    = Return no_statistics /\
  fst (on_DELETE (InMemory.serve true) (change "BIN-Z999" None None)
         (InMemory.start store1))
    = Rejected (failed "Failed to delete bin: " InMemory.not_found) /\
  on_DELETE (InMemory.serve true) (change "BIN-A001" None None)
    (InMemory.start store1)
    = (Return tt,
       {| world := []; sent := [delete_request (Some "BIN-A001")] |}).
Proof.
  split; [| split; [| split; [| split]]].
  - destruct (read_and_delete_outcomes InMemory.Store unreachable InMemory.clock
                (InMemory.start store1) (search_for "WH1" None)
                (change "BIN-Z999" None None)) as (H & _).
    apply (H _ store1 eq_refl).
  - destruct (read_and_delete_outcomes InMemory.Store silent InMemory.clock
                (InMemory.start store1) (search_for "WH1" None)
                (change "BIN-Z999" None None)) as (_ & H & _).
    apply (H None store1 eq_refl). discriminate.
  - destruct (read_and_delete_outcomes InMemory.Store silent InMemory.clock
                (InMemory.start store1) (search_for "WH1" None)
                (change "BIN-Z999" None None)) as (_ & _ & _ & H & _).
    apply (H None store1 eq_refl). discriminate.
  - destruct (read_and_delete_outcomes InMemory.Store (InMemory.serve true)
                InMemory.clock (InMemory.start store1) (search_for "WH1" None)
                (change "BIN-Z999" None None)) as (_ & _ & _ & _ & H & _).
    apply (H _ store1 eq_refl).
  - destruct (read_and_delete_outcomes InMemory.Store (InMemory.serve true)
                InMemory.clock (InMemory.start store1) (search_for "WH1" None)
                (change "BIN-A001" None None)) as (_ & _ & _ & _ & _ & H).
    apply (H None [] eq_refl).
Defined.

(* ================================================================== *)
(** * Updates and creates seen from the source *)
(* ================================================================== *)

(** X8: an update that names quantities only, of a stored record of ASCII
    text whose warehouse and storage type are free of hyphens and of white
    space at either end (the storage type not being empty), writes a record
    with the key, warehouse and storage type it has read, the blocking
    indicator as [""] or ["X"], and the merged quantities, when they are
    safe integers or [NaN], as numerals. *)
Theorem update_keeps_subfields
  (World : Type)
  (executeHttpRequest : World -> request -> (exn + option payload) * World)
  (clock : World -> string) (st : state World) (data : Bin)
  (r : S4Bin) (w : World) (cap stock : number) :
  executeHttpRequest (world st) (get_request (ID data))
    = (inr (Some (Entity r)), w) ->
  ascii_record r ->
  safe_number cap -> safe_number stock ->
  binNumber data = None -> location data = None -> status data = None ->
  clean (str_or (Warehouse r) "") ->
  clean (str_or (StorageType r) "") ->
  hyphen_free (str_or (Warehouse r) "") ->
  hyphen_free (str_or (StorageType r) "") ->
  str_or (StorageType r) "" <> "" ->
  capacity (merge (mapS4ToBin (clock w) r) data) = Some cap ->
  currentStock (merge (mapS4ToBin (clock w) r) data) = Some stock ->
  gt (Some stock) (Some cap) = false ->
  In (patch_request (ID data)
        {| StorageBin := StorageBin r;
           Warehouse := Some (str_or (Warehouse r) "");
           StorageType := Some (str_or (StorageType r) "");
           MaximumStorageCapacity := Some (JStr (Number_toString cap));
           CurrentStock := Some (JStr (Number_toString stock));
           BlockingIndicator := Some (normal_flag (BlockingIndicator r));
           CreationDate := None |})
     (sent (snd (on_UPDATE executeHttpRequest clock data st))).
Proof.
  intros Hread _ _ _ Hnum Hloc Hst Hw Ht Hfw Hft Hne Hcap Hstock Hgt.
  destruct (composed_cut _ _ Hw Ht Hfw Hft) as (Hfirst & rest & Hafter & Hsecond).
  set (merged := merge (mapS4ToBin (clock w) r) data) in *.
  assert (Hmap : mapBinToS4 merged =
            inr {| StorageBin := StorageBin r;
                   Warehouse := Some (str_or (Warehouse r) "");
                   StorageType := Some (str_or (StorageType r) "");
                   MaximumStorageCapacity := Some (JStr (Number_toString cap));
                   CurrentStock := Some (JStr (Number_toString stock));
                   BlockingIndicator := Some (normal_flag (BlockingIndicator r));
                   CreationDate := None |}).
  { rewrite (mapBinToS4_cut merged _ cap stock _ rest _
               ltac:(subst merged; cbn; rewrite Hloc; reflexivity)
               Hcap Hstock Hfirst Hafter Hsecond Hne).
    subst merged. unfold merge; cbn [binNumber status]. rewrite Hnum, Hst.
    cbn [over]. rewrite mapped_status_flag. reflexivity. }
  assert (Hok : gt (currentStock merged) (capacity merged) = false)
    by (rewrite Hcap, Hstock; exact Hgt).
  rewrite (on_UPDATE_writes executeHttpRequest clock data st (Entity r) w _ Hread
             (conj Hok Hmap)).
  cbv zeta.
  destruct (executeHttpRequest w _) as [[e | d] w2].
  - cbn [snd sent]. apply in_or_app. right. left. reflexivity.
  - destruct (executeHttpRequest w2 _) as [[e | [upd |]] w3];
      cbn [snd sent]; apply in_or_app; left; apply in_or_app; right;
      left; reflexivity.
Qed.

Lemma update_keeps_subfields_witness :
  In (patch_request (Some "BIN-A001")
        {| StorageBin := Some "BIN-A001";
           Warehouse := Some "WH1";
           StorageType := Some "BULK";
           MaximumStorageCapacity := Some (JStr "1000");
           CurrentStock := Some (JStr "800");
           BlockingIndicator := Some "";
           CreationDate := None |})
     (sent (snd (on_UPDATE (InMemory.serve true) InMemory.clock
                   (change "BIN-A001" None (Some (Num 800)))
                   (InMemory.start store1)))).
Proof.
  apply (update_keeps_subfields InMemory.Store (InMemory.serve true)
           InMemory.clock (InMemory.start store1)
           (change "BIN-A001" None (Some (Num 800)))
           (stored "BIN-A001" "WH1" "BULK" "1000" "750" "") store1
           (Num 1000) (Num 800)).
  - reflexivity.
  - repeat split.
  - vm_compute. split; discriminate.
  - vm_compute. split; discriminate.
  - reflexivity.
  - reflexivity.
  - reflexivity.
  - split; reflexivity.
  - split; reflexivity.
  - reflexivity.
  - reflexivity.
  - discriminate.
  - reflexivity.
  - reflexivity.
  - reflexivity.
Defined.

(** X9: when the source accepts an insertion and answers without an
    entity, CREATE returns the request mapped to the source shape and back:
    the bin number as [ID], [binNumber] and [barcode] (whatever barcode was
    asked for), the quantities and the status of the request, and the time
    of the return as [lastUpdated] and [createdAt]. *)
Theorem create_echoes_request
  (World : Type)
  (executeHttpRequest : World -> request -> (exn + option payload) * World)
  (clock : World -> string) (st : state World) (data : Bin)
  (n loc : string) (c k : Z) (w : World) :
  binNumber data = Some n ->
  location data = Some loc ->
  capacity data = Some (Num c) -> safe_integer c ->
  currentStock data = Some (Num k) -> safe_integer k ->
  k <= c ->
  status data = Some "active" \/ status data = Some "inactive" ->
  (forall s4Data,
     mapBinToS4 data = inr s4Data ->
     executeHttpRequest (world st) (post_request s4Data) = (inr None, w)) ->
  exists b,
    fst (on_CREATE executeHttpRequest clock data st) = Return b /\
    ID b = Some n /\ binNumber b = Some n /\ barcode b = Some n /\
    capacity b = Some (Num c) /\ currentStock b = Some (Num k) /\
    status b = status data /\
    lastUpdated b = Some (clock w) /\ createdAt b = Some (clock w).
Proof.
  intros Hn Hloc Hc _ Hk _ Hle Hst Hpost.
  destruct (round_trip_fields (clock w) data loc c k Hloc Hc Hk Hst)
    as (s4 & Hmap & H1 & H2 & H3 & H4 & H5).
  assert (Hgt : gt (currentStock data) (capacity data) = false).
  { rewrite Hc, Hk. simpl. apply Z.ltb_ge. exact Hle. }
  rewrite (on_CREATE_sends executeHttpRequest clock data st s4 Hgt Hmap).
  rewrite (Hpost s4 Hmap). cbn [fst].
  eexists. split; [reflexivity |].
  rewrite H2, H3, H4, H5, Hc, Hk, Hn, str_or_self.
  assert (Hkey : StorageBin s4 = Some n).
  { unfold mapBinToS4 in Hmap. rewrite Hloc, Hc, Hk in Hmap.
    injection Hmap as <-. exact Hn. }
  assert (Hdate : CreationDate s4 = None).
  { unfold mapBinToS4 in Hmap. rewrite Hloc, Hc, Hk in Hmap.
    injection Hmap as <-. reflexivity. }
  unfold mapS4ToBin; cbn [ID binNumber lastUpdated createdAt].
  rewrite Hkey, Hdate. repeat split.
Qed.

Lemma create_echoes_request_witness :
  exists b,
    fst (on_CREATE silent InMemory.clock scenario_bin (InMemory.start store1))
      = Return b /\
    ID b = Some "BIN-A001" /\ binNumber b = Some "BIN-A001" /\
    barcode b = Some "BIN-A001" /\
    capacity b = Some (Num 1000) /\ currentStock b = Some (Num 750) /\
    status b = Some "active" /\
    lastUpdated b = Some (InMemory.clock store1) /\
    createdAt b = Some (InMemory.clock store1).
Proof.
  apply (create_echoes_request InMemory.Store silent InMemory.clock
           (InMemory.start store1) scenario_bin "BIN-A001" "Aisle A - Row 1"
           1000 750 store1).
  - reflexivity.
  - reflexivity.
  - reflexivity.
  - vm_compute. split; discriminate.
  - reflexivity.
  - vm_compute. split; discriminate.
  - lia.
  - left. reflexivity.
  - intros s4Data _. reflexivity.
Defined.

(* ================================================================== *)
(** * Aggregation *)
(* ================================================================== *)

Lemma sumZ_app xs ys : sumZ (xs ++ ys) = sumZ xs + sumZ ys.
Proof. induction xs as [| x xs IH]; simpl; [reflexivity | rewrite IH; lia]. Qed.

Lemma sumZ_perm xs ys : Permutation xs ys -> sumZ xs = sumZ ys.
Proof. induction 1; simpl; lia. Qed.

Lemma filter_perm {A} (p : A -> bool) xs ys :
  Permutation xs ys -> Permutation (filter p xs) (filter p ys).
Proof.
  induction 1 as [| x xs ys _ IH | x y xs | xs ys zs _ IH1 _ IH2]; simpl.
  - constructor.
  - destruct (p x); [constructor |]; exact IH.
  - destruct (p x), (p y); try reflexivity. constructor.
  - exact (perm_trans IH1 IH2).
Qed.

(** X11: over bins whose quantities have sums that stay safe integers, the
    statistics do not depend on the order in which the bins are read, and
    over two batches of bins read one after the other the counts and the
    sums are the sums of those of the batches. *)
Theorem statistics_aggregate (xs ys : list Bin) :
  bounded_total (capacities (xs ++ ys)) ->
  bounded_total (stocks (xs ++ ys)) ->
  (forall zs,
     Permutation (xs ++ ys) zs ->
     binStatistics (xs ++ ys) = binStatistics zs) /\
  totalBins (binStatistics (xs ++ ys))
    = totalBins (binStatistics xs) + totalBins (binStatistics ys) /\
  activeBins (binStatistics (xs ++ ys))
    = activeBins (binStatistics xs) + activeBins (binStatistics ys) /\
  inactiveBins (binStatistics (xs ++ ys))
    = inactiveBins (binStatistics xs) + inactiveBins (binStatistics ys) /\
  totalCapacity (binStatistics (xs ++ ys))
    = totalCapacity (binStatistics xs) + totalCapacity (binStatistics ys) /\
  totalStock (binStatistics (xs ++ ys))
    = totalStock (binStatistics xs) + totalStock (binStatistics ys).
Proof.
  intros _ _. split.
  - intros zs Hperm. unfold binStatistics. rewrite !fold_left_sum.
    rewrite (Permutation_length Hperm).
    rewrite (Permutation_length (filter_perm (fun b => is_active (status b)) _ _ Hperm)).
    rewrite (sumZ_perm _ _ (Permutation_map (fun b => num_or_0 (capacity b)) Hperm)).
    rewrite (sumZ_perm _ _ (Permutation_map (fun b => num_or_0 (currentStock b)) Hperm)).
    reflexivity.
  - unfold binStatistics;
      cbn [totalBins activeBins inactiveBins totalCapacity totalStock].
    rewrite !fold_left_sum, !map_app, !sumZ_app, filter_app, !length_app.
    repeat split; lia.
Qed.

Lemma statistics_aggregate_witness :
  binStatistics ([scenario_bin] ++ sample_bins)
    = binStatistics (sample_bins ++ [scenario_bin]).
Proof.
  assert (Hc : bounded_total (capacities ([scenario_bin] ++ sample_bins)))
    by (vm_compute; discriminate).
  assert (Hs : bounded_total (stocks ([scenario_bin] ++ sample_bins)))
    by (vm_compute; discriminate).
  apply (proj1 (statistics_aggregate [scenario_bin] sample_bins Hc Hs)).
  apply Permutation_cons_append.
Defined.

(* ================================================================== *)
(** * The local service when the bin is not there *)
(* ================================================================== *)

(** X12: in the local service an update of a bin that is not in the
    database is not reported as such by the [before] handler.  When the
    request omits the capacity or the stock, the handler throws a
    [TypeError] on reading it from the missing row; when the request names
    both, the handler checks them against each other and never reads the
    row. *)
Theorem before_UPDATE_without_row (data : Bin) :
  (capacity data = None \/ currentStock data = None ->
   exists property, LocalService.before_UPDATE None data = inl (TypeError property)) /\
  (forall c k,
     capacity data = Some c -> currentStock data = Some k ->
     forall bin,
       LocalService.before_UPDATE bin data
         = inr (if gt (Some k) (Some c) then [stock_exceeds_capacity] else [])).
Proof.
  split.
  - intros [Hc | Hk]; unfold LocalService.before_UPDATE, LocalService.row_field.
    + rewrite Hc. eexists. reflexivity.
    + rewrite Hk. destruct (capacity data); eexists; reflexivity.
  - intros c k Hc Hk bin. unfold LocalService.before_UPDATE. rewrite Hc, Hk.
    reflexivity.
Qed.

Lemma before_UPDATE_without_row_witness :
  (exists property,
     LocalService.before_UPDATE None (change "BIN-Z999" None (Some (Num 5)))
       = inl (TypeError property)) /\
  LocalService.before_UPDATE None
    (change "BIN-Z999" (Some (Num 10)) (Some (Num 50)))
    = inr [stock_exceeds_capacity].
Proof.
  split.
  - apply (proj1 (before_UPDATE_without_row
                    (change "BIN-Z999" None (Some (Num 5))))).
    left. reflexivity.
  - apply (proj2 (before_UPDATE_without_row
                    (change "BIN-Z999" (Some (Num 10)) (Some (Num 50))))
             (Num 10) (Num 50) eq_refl eq_refl None).
Defined.

(* ================================================================== *)
(** * Numeric input *)
(* ================================================================== *)

Lemma digits_only_numeral text : numeral (digits_only text) = true.
Proof.
  induction text as [| c r IH]; [reflexivity |]. simpl.
  destruct (is_digit_char c) eqn:E; [| exact IH].
  unfold numeral in *. simpl. rewrite E, IH. reflexivity.
Qed.

(** A digit character is a decimal digit and nothing else. *)
Lemma digit_char_facts c :
  is_digit_char c = true ->
  (exists d, digit_value c = Some d /\ is_digit d) /\
  is_ws c = false /\ Ascii.eqb c "-" = false /\ Ascii.eqb c "+" = false /\
  Ascii.eqb c "x" = false /\ Ascii.eqb c "X" = false.
Proof.
  destruct c as [[] [] [] [] [] [] [] []]; intros H; try discriminate H;
    (split; [eexists; split; [reflexivity | cbv; split; [discriminate | reflexivity]] |]);
    repeat split.
Qed.

Lemma value_of_digits_nonneg ds :
  Forall is_digit ds -> 0 <= value_of_digits 10 ds.
Proof.
  unfold value_of_digits. intros H.
  assert (G : forall acc, 0 <= acc -> 0 <= fold_left (fun a d => a * 10 + d) ds acc).
  { induction H as [| d ds [Hd _] _ IH]; intros acc Hacc; simpl; [exact Hacc |].
    apply IH. lia. }
  apply G. lia.
Qed.

Lemma numeral_digits s :
  numeral s = true ->
  Forall is_digit (digits_prefix 10 s) /\ (s <> "" -> digits_prefix 10 s <> []).
Proof.
  unfold numeral. induction s as [| c r IH]; simpl.
  - intros _. split; [constructor | intros H; contradiction].
  - intros H. apply andb_true_iff in H as [Hc Hr].
    destruct (digit_char_facts c Hc) as ((d & Hd & Hrange) & _).
    rewrite Hd. destruct (Z.ltb_spec d 10) as [_ | Hge]; [| destruct Hrange; lia].
    split; [constructor; [exact Hrange | apply IH, Hr] | discriminate].
Qed.

Lemma numeral_hex_prefix s : numeral s = true -> hex_prefix s = None.
Proof.
  unfold numeral. destruct s as [| c0 [| c1 r]]; try reflexivity.
  simpl. intros H. apply andb_true_iff in H as [_ H].
  apply andb_true_iff in H as [H1 _].
  destruct (digit_char_facts c1 H1) as (_ & _ & _ & _ & -> & ->).
  rewrite andb_false_r. reflexivity.
Qed.

(** What [parseInt] reads from a string of digits. *)
Lemma parseInt_numeral s :
  numeral s = true -> s <> "" ->
  exists v, parseInt_string s = Num v /\ 0 <= v.
Proof.
  intros Hnum Hne.
  destruct (numeral_digits s Hnum) as [Hds Hnonempty].
  specialize (Hnonempty Hne).
  exists (value_of_digits 10 (digits_prefix 10 s)).
  split; [| apply value_of_digits_nonneg, Hds].
  assert (Hp : parse_unsigned s = Some (value_of_digits 10 (digits_prefix 10 s))).
  { unfold parse_unsigned, read_digits. rewrite (numeral_hex_prefix s Hnum).
    destruct (digits_prefix 10 s); [contradiction | reflexivity]. }
  unfold parseInt_string.
  destruct s as [| c r]; [contradiction |].
  unfold numeral in Hnum. simpl in Hnum. apply andb_true_iff in Hnum as [Hc _].
  destruct (digit_char_facts c Hc) as (_ & Hws & Hm & Hpl & _).
  simpl trimStart. rewrite Hws, Hm, Hpl, Hp. f_equal. lia.
Qed.

(* ================================================================== *)
(** * The forms *)
(* ================================================================== *)

Lemma assign_nonempty key msg errors : CreateForm.assign key msg errors <> [].
Proof.
  destruct errors as [| [k m] rest]; simpl; [discriminate |].
  destruct (String.eqb k key); discriminate.
Qed.

Lemma when_nil c key msg errors :
  CreateForm.when c (CreateForm.assign key msg) errors = [] ->
  c = false /\ errors = [].
Proof.
  destruct c; simpl.
  - intros H. exfalso. exact (assign_nonempty _ _ _ H).
  - intros ->. split; reflexivity.
Qed.

Lemma truthy_nonempty s : negb (truthy_string s) = false -> s <> "".
Proof. destruct s; [discriminate | discriminate]. Qed.

Lemma nonempty_truthy s : s <> "" -> truthy_string s = true.
Proof. destruct s; [contradiction | reflexivity]. Qed.

Lemma or_0_nonempty s : s <> "" -> CreateForm.or_0 s = s.
Proof. destruct s; [contradiction | reflexivity]. Qed.

(** The create form is submitted only when every check passes. *)
Lemma create_form_submitted f body :
  CreateForm.handleSubmit f = Some body ->
  create_form_accepts f /\
  body = {| CreateForm.body_form := f;
            CreateForm.body_capacity := parseInt_string (CreateForm.capacity f);
            CreateForm.body_current_stock :=
              parseInt_string (CreateForm.or_0 (CreateForm.current_stock f)) |}.
Proof.
  unfold CreateForm.handleSubmit, CreateForm.validateForm.
  destruct (CreateForm.newErrors f) eqn:E; [| discriminate].
  cbn [negb]. intros [= <-]. split; [| reflexivity].
  unfold CreateForm.newErrors in E. cbv zeta in E.
  apply when_nil in E as [H6 E]. apply when_nil in E as [H5 E].
  apply when_nil in E as [H34 E]. apply when_nil in E as [H2 E].
  apply when_nil in E as [H1 _].
  apply orb_false_iff in H34 as [H3 H4].
  unfold create_form_accepts.
  repeat split; try assumption; apply truthy_nonempty; assumption.
Qed.

(** X13: a create form whose two numeric fields hold what the digit filter
    of their inputs lets through, at most 15 digits each, and whose bin
    number and location are ASCII text, is submitted only with a capacity of
    at least 1 and a stock between 0 and the capacity, both as integers, and
    with a bin number and a location that are not blank. *)
Theorem filtered_create_is_in_range
  (f : CreateForm.FormData) (capacity_text stock_text : string)
  (body : CreateForm.Body) :
  ascii_text (CreateForm.bin_number f) ->
  ascii_text (CreateForm.location f) ->
  (String.length (CreateForm.capacity f) <= 15)%nat ->
  (String.length (CreateForm.current_stock f) <= 15)%nat ->
  CreateForm.capacity f = digits_only capacity_text ->
  CreateForm.current_stock f = digits_only stock_text ->
  CreateForm.handleSubmit f = Some body ->
  exists c k,
    CreateForm.body_capacity body = Num c /\
    CreateForm.body_current_stock body = Num k /\
    1 <= c /\ 0 <= k <= c /\
    trim (CreateForm.bin_number f) <> "" /\
    trim (CreateForm.location f) <> "".
Proof.
  intros _ _ _ _ Hcap Hstock Hsubmit.
  destruct (create_form_submitted f body Hsubmit)
    as ((Hnumber & Hlocation & Hne & Hpos & Hneg & Hle) & ->).
  cbn [CreateForm.body_capacity CreateForm.body_current_stock].
  rewrite (or_0_nonempty _ Hne) in Hle.
  destruct (parseInt_numeral (CreateForm.capacity f)) as (c & Hc & Hc0);
    [rewrite Hcap; apply digits_only_numeral | exact Hne |].
  assert (Hk : exists k,
            parseInt_string (CreateForm.or_0 (CreateForm.current_stock f)) = Num k
            /\ 0 <= k).
  { destruct (string_dec (CreateForm.current_stock f) "") as [E | E].
    - rewrite E. exists 0. split; [reflexivity | lia].
    - rewrite (or_0_nonempty _ E).
      apply parseInt_numeral; [rewrite Hstock; apply digits_only_numeral | exact E]. }
  destruct Hk as (k & Hk & Hk0).
  rewrite Hc, Hk in *. exists c, k.
  simpl in Hpos, Hle. apply Z.leb_gt in Hpos. apply Z.ltb_ge in Hle.
  repeat split; try assumption; lia.
Qed.

Lemma filtered_create_is_in_range_witness :
  exists c k,
    Num 1000 = Num c /\ Num 750 = Num k /\
    1 <= c /\ 0 <= k <= c /\
    trim "BIN-A001" <> "" /\ trim "Aisle A" <> "".
Proof.
  apply (filtered_create_is_in_range filtered_form "1,000" "-750"
           {| CreateForm.body_form := filtered_form;
              CreateForm.body_capacity := Num 1000;
              CreateForm.body_current_stock := Num 750 |}).
  - reflexivity.
  - reflexivity.
  - simpl. lia.
  - simpl. lia.
  - reflexivity.
  - reflexivity.
  - reflexivity.
Defined.

(** X14: the edit form filled from a bin and saved unchanged sends that
    bin's own location, capacity, stock, status and barcode (the empty
    string for an absent barcode), provided the bin has a location of ASCII
    text that is not blank, a capacity of at least 1 and a stock between 0
    and the capacity, both safe integers. *)
Theorem edit_form_round_trip (data : EditForm.ApiBin) (c k : Z) :
  ascii_text (EditForm.location data) ->
  trim (EditForm.location data) <> "" ->
  EditForm.capacity data = Num c -> safe_integer c -> 1 <= c ->
  EditForm.current_stock data = Num k -> safe_integer k -> 0 <= k <= c ->
  EditForm.handleSave (EditForm.form_of data) =
    Some {| EditForm.b_location := EditForm.location data;
            EditForm.b_capacity := Num c;
            EditForm.b_current_stock := Num k;
            EditForm.b_status := EditForm.status data;
            EditForm.b_barcode := str_or (EditForm.barcode data) "" |}.
Proof.
  intros _ Hloc Hc _ Hc1 Hk _ Hk0.
  unfold EditForm.handleSave, EditForm.validateForm, EditForm.newErrors.
  cbv zeta. unfold EditForm.form_of;
    cbn [EditForm.f_location EditForm.f_capacity EditForm.f_current_stock
         EditForm.f_status EditForm.f_barcode].
  rewrite Hc, Hk.
  rewrite !or_0_nonempty
    by (intros H; pose proof (Number_toString_truthy (Num c)) as T;
        pose proof (Number_toString_truthy (Num k)) as T';
        rewrite ?H in *; discriminate).
  rewrite !parseInt_toString, (nonempty_truthy _ Hloc), Number_toString_truthy.
  cbn [negb orb CreateForm.num_leb CreateForm.num_ltb CreateForm.when].
  destruct (Z.leb_spec c 0); [lia |].
  destruct (Z.ltb_spec k 0); [lia |].
  destruct (Z.ltb_spec c k); [lia |].
  reflexivity.
Qed.

Lemma edit_form_round_trip_witness :
  EditForm.handleSave (EditForm.form_of api_bin) =
    Some {| EditForm.b_location := "Aisle A Row 1";
            EditForm.b_capacity := Num 1000;
            EditForm.b_current_stock := Num 750;
            EditForm.b_status := "active";
            EditForm.b_barcode := "" |}.
Proof.
  apply (edit_form_round_trip api_bin 1000 750).
  - reflexivity.
  - discriminate.
  - reflexivity.
  - vm_compute. split; discriminate.
  - lia.
  - reflexivity.
  - vm_compute. split; discriminate.
  - lia.
Defined.

(** X15: the two forms treat an empty stock field differently.  Both let
    it pass validation as stock 0; the create form then puts the stock 0
    in the body of its request, while the edit form puts there the result
    of [parseInt] on the empty string, [NaN], which [JSON.stringify] writes
    as [null].  The texts of the other fields are ASCII and the capacity is
    a safe integer. *)
Theorem empty_stock_field (c : Z) :
  1 <= c -> safe_integer c ->
  (forall f : CreateForm.FormData,
     ascii_text (CreateForm.bin_number f) ->
     ascii_text (CreateForm.location f) ->
     trim (CreateForm.bin_number f) <> "" ->
     trim (CreateForm.location f) <> "" ->
     parseInt_string (CreateForm.capacity f) = Num c ->
     CreateForm.current_stock f = "" ->
     CreateForm.handleSubmit f =
       Some {| CreateForm.body_form := f;
               CreateForm.body_capacity := Num c;
               CreateForm.body_current_stock := Num 0 |} /\
     option_map (fun body => JSON_number (CreateForm.body_current_stock body))
       (CreateForm.handleSubmit f) = Some "0") /\
  (forall f : EditForm.FormData,
     ascii_text (EditForm.f_location f) ->
     trim (EditForm.f_location f) <> "" ->
     parseInt_string (EditForm.f_capacity f) = Num c ->
     EditForm.f_current_stock f = "" ->
     EditForm.handleSave f =
       Some {| EditForm.b_location := EditForm.f_location f;
               EditForm.b_capacity := Num c;
               EditForm.b_current_stock := NaN;
               EditForm.b_status := EditForm.f_status f;
               EditForm.b_barcode := EditForm.f_barcode f |} /\
     option_map (fun body => JSON_number (EditForm.b_current_stock body))
       (EditForm.handleSave f) = Some "null").
Proof.
  intros Hc _. split.
  - intros f _ _ Hnumber Hlocation Hcap Hstock.
    assert (Hne : CreateForm.capacity f <> "")
      by (intros H; rewrite H in Hcap; discriminate Hcap).
    assert (E : CreateForm.handleSubmit f =
                Some {| CreateForm.body_form := f;
                        CreateForm.body_capacity := Num c;
                        CreateForm.body_current_stock := Num 0 |}).
    { unfold CreateForm.handleSubmit, CreateForm.validateForm, CreateForm.newErrors.
      cbv zeta.
      rewrite (or_0_nonempty _ Hne), Hcap, Hstock,
        (nonempty_truthy _ Hnumber), (nonempty_truthy _ Hlocation),
        (nonempty_truthy _ Hne).
      cbn. destruct (Z.leb_spec c 0); [lia |].
      destruct (Z.ltb_spec c 0); [lia |]. reflexivity. }
    rewrite E. split; reflexivity.
  - intros f _ Hlocation Hcap Hstock.
    assert (Hne : EditForm.f_capacity f <> "")
      by (intros H; rewrite H in Hcap; discriminate Hcap).
    assert (E : EditForm.handleSave f =
                Some {| EditForm.b_location := EditForm.f_location f;
                        EditForm.b_capacity := Num c;
                        EditForm.b_current_stock := NaN;
                        EditForm.b_status := EditForm.f_status f;
                        EditForm.b_barcode := EditForm.f_barcode f |}).
    { unfold EditForm.handleSave, EditForm.validateForm, EditForm.newErrors.
      cbv zeta.
      rewrite (or_0_nonempty _ Hne), Hcap, Hstock,
        (nonempty_truthy _ Hlocation), (nonempty_truthy _ Hne).
      cbn. destruct (Z.leb_spec c 0); [lia |].
      destruct (Z.ltb_spec c 0); [lia |]. reflexivity. }
    rewrite E. split; reflexivity.
Qed.

Lemma empty_stock_field_witness :
  option_map (fun body => JSON_number (CreateForm.body_current_stock body))
    (CreateForm.handleSubmit create_form_without_stock) = Some "0" /\
  option_map (fun body => JSON_number (EditForm.b_current_stock body))
    (EditForm.handleSave edit_form_without_stock) = Some "null".
Proof.
  assert (H : 1 <= 10) by lia.
  assert (Hs : safe_integer 10) by (vm_compute; split; discriminate).
  split.
  - apply (proj1 (empty_stock_field 10 H Hs) create_form_without_stock).
    + reflexivity.
    + reflexivity.
    + discriminate.
    + discriminate.
    + reflexivity.
    + reflexivity.
  - apply (proj2 (empty_stock_field 10 H Hs) edit_form_without_stock).
    + reflexivity.
    + discriminate.
    + reflexivity.
    + reflexivity.
Defined.

(* ================================================================== *)
(** * URLs *)
(* ================================================================== *)

Lemma hex_char_facts n :
  (n < 16)%N -> unreserved (hex_char n) = true /\ hex_value (hex_char n) = Some n.
Proof.
  intros H. rewrite <- (N2Nat.id n).
  assert (Hm : (N.to_nat n < 16)%nat) by lia.
  revert Hm. generalize (N.to_nat n) as m. intros m Hm.
  do 16 (destruct m as [| m]; [split; reflexivity |]). lia.
Qed.

Lemma ascii_nibbles c :
  (N_of_ascii c / 16 < 16)%N /\ (N_of_ascii c mod 16 < 16)%N /\
  ascii_of_N (16 * (N_of_ascii c / 16) + N_of_ascii c mod 16) = c.
Proof.
  pose proof (N_ascii_bounded c) as Hb.
  split; [apply N.Div0.div_lt_upper_bound; lia |].
  split; [apply N.mod_lt; lia |].
  rewrite <- N.div_mod by lia. apply ascii_N_embedding.
Qed.

Lemma encoded_chars s : all_chars url_char (encodeURIComponent s) = true.
Proof.
  induction s as [| c r IH]; [reflexivity |]. simpl.
  destruct (unreserved c) eqn:E.
  - cbn [all_chars]. unfold url_char at 1. rewrite E. exact IH.
  - destruct (ascii_nibbles c) as (Hh & Hl & _).
    destruct (hex_char_facts _ Hh) as [Uh _].
    destruct (hex_char_facts _ Hl) as [Ul _].
    cbv zeta. cbn [all_chars].
    replace (url_char "%") with true by reflexivity.
    unfold url_char. rewrite Uh, Ul. exact IH.
Qed.

(** A character outside a set does not occur in a string made of the
    set. *)
Lemma all_chars_excludes p c s :
  all_chars p s = true -> p c = false -> has_char c s = false.
Proof.
  intros Hall Hc. induction s as [| x r IH]; [reflexivity |].
  simpl in Hall. apply andb_true_iff in Hall as [Hx Hr].
  rewrite has_char_cons, (IH Hr).
  destruct (Ascii.eqb_spec x c) as [-> | _]; [congruence | reflexivity].
Qed.

Lemma decode_fuel_encoded s : forall fuel,
  (String.length (encodeURIComponent s) < fuel)%nat ->
  decode_fuel fuel (encodeURIComponent s) = Some s.
Proof.
  induction s as [| c r IH]; intros fuel Hfuel.
  - destruct fuel; [simpl in Hfuel; lia | reflexivity].
  - cbn [encodeURIComponent] in *. destruct (unreserved c) eqn:E.
    + destruct fuel as [| f]; [simpl in Hfuel; lia |].
      cbn [String.length] in Hfuel. cbn [decode_fuel].
      destruct (Ascii.eqb_spec c "%") as [-> | _]; [discriminate E |].
      rewrite IH by lia. reflexivity.
    + destruct fuel as [| f]; [simpl in Hfuel; lia |].
      cbv zeta in *. cbn [String.length] in Hfuel. cbn [decode_fuel].
      replace (Ascii.eqb "%" "%") with true by reflexivity.
      destruct (ascii_nibbles c) as (Hh & Hl & Hc).
      destruct (hex_char_facts _ Hh) as [_ Vh].
      destruct (hex_char_facts _ Hl) as [_ Vl].
      rewrite Vh, Vl, IH by lia. rewrite Hc. reflexivity.
Qed.

Lemma decode_encoded s : decode (encodeURIComponent s) = Some s.
Proof. apply decode_fuel_encoded. lia. Qed.

Lemma encoded_excludes c s :
  url_char c = false -> has_char c (encodeURIComponent s) = false.
Proof. apply all_chars_excludes, encoded_chars. Qed.

(** X16: [encodeURIComponent] produces nothing but letters, digits, the
    marks [- _ . ! ~ * ' ( )] and [%]; none of the delimiters of a URL
    occurs in its result; and the text can be recovered from it. *)
Theorem encodeURIComponent_safe (s : string) :
  all_chars url_char (encodeURIComponent s) = true /\
  has_char "&" (encodeURIComponent s) = false /\
  has_char "=" (encodeURIComponent s) = false /\
  has_char "?" (encodeURIComponent s) = false /\
  has_char "#" (encodeURIComponent s) = false /\
  has_char "/" (encodeURIComponent s) = false /\
  has_char " " (encodeURIComponent s) = false /\
  decode (encodeURIComponent s) = Some s.
Proof.
  pose proof (encoded_chars s) as H.
  repeat (split; [first [exact H | apply (all_chars_excludes url_char _ _ H); reflexivity] |]).
  apply decode_encoded.
Qed.

Lemma split_single c s : has_char c s = false -> split c s = [s].
Proof.
  induction s as [| x r IH]; [reflexivity |].
  rewrite has_char_cons. intros H. apply orb_false_iff in H as [Hx Hr].
  simpl. rewrite Hx, (IH Hr). reflexivity.
Qed.

Lemma split_app c a b :
  has_char c a = false -> split c (a ++ String c b) = a :: split c b.
Proof.
  induction a as [| x a IH]; intros H.
  - simpl. rewrite Ascii.eqb_refl. reflexivity.
  - rewrite has_char_cons in H. apply orb_false_iff in H as [Hx Ha].
    simpl. rewrite Hx, (IH Ha). reflexivity.
Qed.

Lemma split_sep c a b :
  has_char c a = false ->
  split c (a ++ String c EmptyString ++ b) = a :: split c b.
Proof. apply split_app. Qed.

Lemma has_char_app c a b :
  has_char c (a ++ b) = has_char c a || has_char c b.
Proof.
  induction a as [| x a IH]; [reflexivity |].
  change (String x a ++ b) with (String x (a ++ b)).
  rewrite !has_char_cons, IH. apply orb_assoc.
Qed.

(** X17: the URL that the list screen requests is the base URL, the path
    [/api/bins] and a query of exactly the parameters meant: [limit=100],
    then [search] with the encoded text when the text is not empty, then
    [status] unless the filter is "all".  Whatever the search text holds, it
    adds no parameter, and it can be recovered from the value of
    [search]. *)
Theorem fetchBins_url_parameters
  (API_URL searchQuery : string) (statusFilter : BinsScreen.StatusFilter) :
  BinsScreen.fetchBins_url API_URL searchQuery statusFilter
    = API_URL ++ "/api/bins?"
      ++ join "&" (BinsScreen.fetchBins_params searchQuery statusFilter) /\
  split "&" (join "&" (BinsScreen.fetchBins_params searchQuery statusFilter))
    = BinsScreen.fetchBins_params searchQuery statusFilter /\
  (searchQuery <> "" ->
   exists value,
     In ("search=" ++ value) (BinsScreen.fetchBins_params searchQuery statusFilter)
     /\ decode value = Some searchQuery).
Proof.
  pose proof (encoded_excludes "&" searchQuery eq_refl) as Hamp.
  pose proof (decode_encoded searchQuery) as Hdec.
  split; [| split].
  - unfold BinsScreen.fetchBins_url, BinsScreen.fetchBins_params.
    destruct (truthy_string searchQuery), statusFilter; cbn [app join];
      rewrite ?append_assoc; reflexivity.
  - unfold BinsScreen.fetchBins_params.
    assert (Hs : has_char "&" ("search=" ++ encodeURIComponent searchQuery) = false)
      by (rewrite has_char_app, Hamp; reflexivity).
    destruct (truthy_string searchQuery), statusFilter; cbn [app join];
      rewrite ?split_sep by (exact Hs || reflexivity);
      rewrite ?(split_single _ _ Hs); reflexivity.
  - intros Hne. exists (encodeURIComponent searchQuery). split; [| exact Hdec].
    unfold BinsScreen.fetchBins_params. rewrite (nonempty_truthy _ Hne).
    right. left. reflexivity.
Qed.

Lemma fetchBins_url_parameters_witness :
  exists value,
    In ("search=" ++ value)
       (BinsScreen.fetchBins_params "A&1" BinsScreen.active) /\
    decode value = Some "A&1".
Proof.
  apply (proj2 (proj2 (fetchBins_url_parameters "http://localhost:8001" "A&1"
                         BinsScreen.active))).
  discriminate.
Defined.

(** X18: the URL that the scanner requests has the scanned text as its
    last path segment, and as one segment only: whatever was scanned, the
    path has the four segments [api], [bins], [barcode] and the encoded
    text, which holds no [?] or [#] and from which the scanned text can be
    recovered. *)
Theorem scanned_text_is_one_segment (API_URL data : string) :
  exists segment,
    ScanScreen.lookup_url API_URL data
      = API_URL ++ "/api/bins/barcode/" ++ segment /\
    split "/" ("/api/bins/barcode/" ++ segment)
      = [""; "api"; "bins"; "barcode"; segment] /\
    has_char "?" segment = false /\
    has_char "#" segment = false /\
    decode segment = Some data.
Proof.
  exists (encodeURIComponent data).
  split; [reflexivity |]. split.
  - change ("/api/bins/barcode/" ++ encodeURIComponent data)
      with ("" ++ "/" ++ "api" ++ "/" ++ "bins" ++ "/" ++ "barcode" ++ "/"
            ++ encodeURIComponent data).
    rewrite !split_sep by reflexivity.
    rewrite (split_single "/" _ (encoded_excludes "/" data eq_refl)).
    reflexivity.
  - split; [apply encoded_excludes; reflexivity |].
    split; [apply encoded_excludes; reflexivity | apply decode_encoded].
Qed.

(* ================================================================== *)
(** * Binary64 arithmetic *)
(* ================================================================== *)

Lemma fexp_eq e : fexp prec emax e = Z.max (e - 53) (-1074).
Proof. reflexivity. Qed.

Lemma digits2_pos_bounds p :
  2 ^ (Z.pos (digits2_pos p) - 1) <= Z.pos p < 2 ^ Z.pos (digits2_pos p).
Proof.
  induction p as [p IH | p IH |]; cbn [digits2_pos].
  - rewrite Pos2Z.inj_succ. replace (Z.succ (Z.pos (digits2_pos p)) - 1)
      with (Z.succ (Z.pos (digits2_pos p) - 1)) by lia.
    rewrite !Z.pow_succ_r by lia. lia.
  - rewrite Pos2Z.inj_succ. replace (Z.succ (Z.pos (digits2_pos p)) - 1)
      with (Z.succ (Z.pos (digits2_pos p) - 1)) by lia.
    rewrite !Z.pow_succ_r by lia. lia.
  - cbn. lia.
Qed.

Lemma digits2_pos_unique p k :
  2 ^ (k - 1) <= Z.pos p < 2 ^ k -> Z.pos (digits2_pos p) = k.
Proof.
  intros [Hlo Hhi]. pose proof (digits2_pos_bounds p) as [Blo Bhi].
  set (d := Z.pos (digits2_pos p)) in *.
  assert (Hd : 0 < d) by (subst d; lia).
  assert (Hk : 0 < k).
  { destruct (Z.lt_trichotomy 0 k) as [H | [H | H]]; [exact H | |].
    - subst k. cbn in Hhi. lia.
    - rewrite (Z.pow_neg_r 2 k) in Hhi by lia. lia. }
  destruct (Z.lt_trichotomy d k) as [H | [H | H]]; [| exact H |].
  - assert (2 ^ d <= 2 ^ (k - 1)) by (apply Z.pow_le_mono_r; lia). lia.
  - assert (2 ^ k <= 2 ^ (d - 1)) by (apply Z.pow_le_mono_r; lia). lia.
Qed.

Lemma iter_xO m d : Z.pos (Pos.iter xO m d) = Z.pos m * 2 ^ Z.pos d.
Proof.
  induction d as [| d IH] using Pos.peano_ind.
  - cbn. lia.
  - rewrite Pos.iter_succ, Pos2Z.inj_succ, Z.pow_succ_r by lia.
    rewrite Pos2Z.inj_xO, IH. lia.
Qed.

(** The shifts of [binary_round_aux] leave a mantissa of 53 digits in
    range as it is. *)
Lemma binary_round_aux_normal s m e :
  Z.pos (digits2_pos m) = 53 -> -1074 <= e <= 971 ->
  binary_round_aux prec emax s (Z.pos m) e loc_Exact = S754_finite s m e.
Proof.
  intros Hd He. unfold binary_round_aux, shr_fexp.
  cbn [Zdigits2 shr_record_of_loc]. rewrite Hd, fexp_eq.
  replace (Z.max (53 + e - 53) (-1074) - e) with 0 by lia.
  cbn [shr shr_m shr_r shr_s loc_of_shr_record round_nearest_even Zdigits2].
  rewrite Hd, fexp_eq.
  replace (Z.max (53 + e - 53) (-1074) - e) with 0 by lia.
  cbn [shr shr_m]. 
  replace (e <=? emax - prec) with true; [reflexivity |].
  symmetry. apply Z.leb_le. change (emax - prec) with 971. lia.
Qed.

(** The double of a positive safe integer: the integer itself, with its
    mantissa shifted to 53 digits. *)
Lemma Z2float_pos z :
  0 < z < 2 ^ 53 ->
  exists m e,
    Prim2SF (Z2float z) = S754_finite false m e /\
    Z.pos (digits2_pos m) = 53 /\ -52 <= e <= 0 /\
    Z.pos m = z * 2 ^ (- e).
Proof.
  intros Hz. destruct z as [| p | p]; try lia.
  unfold Z2float, binary_normalize, binary_round, shl_align.
  rewrite fexp_eq.
  pose proof (digits2_pos_bounds p) as Hb.
  set (d := Z.pos (digits2_pos p)) in *.
  assert (Hd : 1 <= d <= 53).
  { split; [subst d; lia |].
    destruct (Z.le_gt_cases d 53) as [H | H]; [exact H |].
    assert (2 ^ 53 <= 2 ^ (d - 1)) by (apply Z.pow_le_mono_r; lia). lia. }
  replace (Z.max (d + 0 - 53) (-1074) - 0) with (d - 53) by lia.
  destruct (d - 53) as [| q | q] eqn:E; try lia.
  - assert (Hd53 : d = 53) by lia.
    exists p, 0. rewrite binary_round_aux_normal by (fold d; lia).
    rewrite Prim2SF_SF2Prim.
    + repeat split; first [lia | fold d; lia].
    + unfold valid_binary, SpecFloat.bounded, canonical_mantissa.
      replace (Z.pos (digits2_pos p)) with 53 by (fold d; lia). reflexivity.
  - assert (Hq : Z.pos q = 53 - d) by lia.
    assert (Hm : Z.pos (Pos.iter xO p q) = Z.pos p * 2 ^ (53 - d))
      by (rewrite iter_xO, Hq; reflexivity).
    assert (Hdm : Z.pos (digits2_pos (Pos.iter xO p q)) = 53).
    { apply digits2_pos_unique. rewrite Hm.
      replace (2 ^ (53 - 1)) with (2 ^ (d - 1) * 2 ^ (53 - d))
        by (rewrite <- Z.pow_add_r by lia; f_equal; lia).
      replace (2 ^ 53) with (2 ^ d * 2 ^ (53 - d))
        by (rewrite <- Z.pow_add_r by lia; f_equal; lia).
      assert (0 < 2 ^ (53 - d)) by (apply Z.pow_pos_nonneg; lia).
      nia. }
    exists (Pos.iter xO p q), (Z.max (d + 0 - 53) (-1074)).
    replace (Z.max (d + 0 - 53) (-1074)) with (d - 53) by lia.
    rewrite binary_round_aux_normal by (try exact Hdm; lia).
    rewrite Prim2SF_SF2Prim.
    + repeat split; try lia. rewrite Hm. f_equal. f_equal. lia.
    + unfold valid_binary, SpecFloat.bounded, canonical_mantissa.
      rewrite Hdm, fexp_eq.
      apply andb_true_iff. split; [apply Z.eqb_eq; lia | apply Z.leb_le].
      change (emax - prec) with 971. lia.
Qed.

Lemma IZR_xI p : IZR (Z.pos p~1) = (2 * IZR (Z.pos p) + 1)%R.
Proof. rewrite Pos2Z.inj_xI, plus_IZR, mult_IZR. reflexivity. Qed.

Lemma IZR_xO p : IZR (Z.pos p~0) = (2 * IZR (Z.pos p))%R.
Proof. rewrite Pos2Z.inj_xO, mult_IZR. reflexivity. Qed.

Lemma shr_1_between mrs v :
  0 <= shr_m mrs -> between mrs v ->
  between (shr_1 mrs) (v / 2) /\ shr_m (shr_1 mrs) = shr_m mrs / 2.
Proof.
  destruct mrs as [m r s]. cbn [shr_m]. intros Hm.
  destruct m as [| p | p]; [| | lia].
  - destruct r, s; unfold between;
      cbn [shr_1 shr_m shr_r shr_s orb]; intros H;
      (split; [lra | reflexivity]).
  - destruct p as [p | p |]; destruct r, s; unfold between;
      cbn [shr_1 shr_m shr_r shr_s orb];
      rewrite ?(IZR_xI p), ?(IZR_xO p); intros H;
      (split; [lra | rewrite ?(Pos2Z.inj_xI p), ?(Pos2Z.inj_xO p); try reflexivity]).
  all: first [ apply (Z.div_unique (2 * Z.pos p + 1) 2 (Z.pos p) 1); lia
             | apply (Z.div_unique (2 * Z.pos p) 2 (Z.pos p) 0); lia ].
Qed.

Lemma pow2_pos n : 0 <= n -> 0 < 2 ^ n.
Proof. intros H. apply Z.pow_pos_nonneg; lia. Qed.

Lemma IZR_pow2_pos n : 0 <= n -> (0 < IZR (2 ^ n))%R.
Proof. intros H. apply IZR_lt. apply pow2_pos, H. Qed.

Lemma iter_shr_1_between p : forall mrs v,
  0 <= shr_m mrs -> between mrs v ->
  between (SpecFloat.iter_pos shr_1 p mrs) (v / IZR (2 ^ Z.pos p)) /\
  shr_m (SpecFloat.iter_pos shr_1 p mrs) = shr_m mrs / 2 ^ Z.pos p.
Proof.
  induction p as [p IH | p IH |]; intros mrs v Hm Hv; cbn [SpecFloat.iter_pos].
  - destruct (shr_1_between mrs v Hm Hv) as [H1 E1].
    assert (N1 : 0 <= shr_m (shr_1 mrs)) by (rewrite E1; apply Z.div_pos; lia).
    destruct (IH _ _ N1 H1) as [H2 E2].
    assert (N2 : 0 <= shr_m (SpecFloat.iter_pos shr_1 p (shr_1 mrs)))
      by (rewrite E2; apply Z.div_pos; [lia | apply pow2_pos; lia]).
    destruct (IH _ _ N2 H2) as [H3 E3].
    pose proof (IZR_pow2_pos (Z.pos p) ltac:(lia)) as Hp.
    rewrite (Pos2Z.inj_xI p).
    replace (2 ^ (2 * Z.pos p + 1)) with (2 * 2 ^ Z.pos p * 2 ^ Z.pos p)
      by (rewrite Z.pow_add_r, Z.pow_mul_r, Z.pow_2_r by lia;
          change (2 ^ 2) with 4; change (2 ^ 1) with 2; rewrite Z.pow_mul_l; lia).
    split.
    + replace (v / IZR (2 * 2 ^ Z.pos p * 2 ^ Z.pos p))%R
        with (v / 2 / IZR (2 ^ Z.pos p) / IZR (2 ^ Z.pos p))%R; [exact H3 |].
      rewrite !mult_IZR. field. lra.
    + pose proof (pow2_pos (Z.pos p) ltac:(lia)).
      rewrite E3, E2, E1. rewrite !Zdiv.Zdiv_Zdiv by lia. f_equal. lia.
  - destruct (IH _ _ Hm Hv) as [H2 E2].
    assert (N2 : 0 <= shr_m (SpecFloat.iter_pos shr_1 p mrs))
      by (rewrite E2; apply Z.div_pos; [lia | apply pow2_pos; lia]).
    destruct (IH _ _ N2 H2) as [H3 E3].
    pose proof (IZR_pow2_pos (Z.pos p) ltac:(lia)) as Hp.
    rewrite (Pos2Z.inj_xO p).
    replace (2 ^ (2 * Z.pos p)) with (2 ^ Z.pos p * 2 ^ Z.pos p)
      by (rewrite <- Z.pow_add_r by lia; f_equal; lia).
    split.
    + replace (v / IZR (2 ^ Z.pos p * 2 ^ Z.pos p))%R
        with (v / IZR (2 ^ Z.pos p) / IZR (2 ^ Z.pos p))%R; [exact H3 |].
      rewrite !mult_IZR. field. lra.
    + pose proof (pow2_pos (Z.pos p) ltac:(lia)).
      rewrite E3, E2. rewrite !Zdiv.Zdiv_Zdiv by lia. reflexivity.
  - change (2 ^ 1) with 2. apply shr_1_between; assumption.
Qed.

(** What [shr_fexp] does to a mantissa of [dm >= 53] digits: it drops the
    [dm - 53] low digits and keeps track of them in the record. *)
Lemma shr_fexp_spec m e l v dm :
  2 ^ (dm - 1) <= m < 2 ^ dm -> 53 <= dm -> -1074 <= dm + e - 53 ->
  between (shr_record_of_loc m l) v ->
  exists mrs,
    shr_fexp prec emax m e l = (mrs, e + (dm - 53)) /\
    between mrs (v / IZR (2 ^ (dm - 53))) /\
    shr_m mrs = m / 2 ^ (dm - 53).
Proof.
  intros Hm Hdm He Hv.
  assert (Hpos : 0 < m).
  { pose proof (pow2_pos (dm - 1) ltac:(lia)). lia. }
  destruct m as [| p | p]; try lia.
  unfold shr_fexp. cbn [Zdigits2].
  rewrite (digits2_pos_unique p dm Hm), fexp_eq.
  replace (Z.max (dm + e - 53) (-1074) - e) with (dm - 53) by lia.
  assert (Hrec : shr_m (shr_record_of_loc (Z.pos p) l) = Z.pos p)
    by (destruct l as [| []]; reflexivity).
  unfold shr. destruct (dm - 53) as [| n | n] eqn:E; try lia.
  - eexists. split; [f_equal; lia |].
    change (2 ^ 0) with 1. rewrite Z.div_1_r.
    split; [| exact Hrec].
    replace (v / 1)%R with v by field. exact Hv.
  - destruct (iter_shr_1_between n (shr_record_of_loc (Z.pos p) l) v) as [H1 H2];
      [rewrite Hrec; lia | exact Hv |].
    eexists. split; [reflexivity |]. split; [exact H1 |].
    rewrite H2, Hrec. reflexivity.
Qed.

(** Rounding to nearest moves by at most one half. *)
Lemma round_nearest_even_bound mrs w :
  between mrs w ->
  let m := round_nearest_even (shr_m mrs) (loc_of_shr_record mrs) in
  (m = shr_m mrs \/ m = shr_m mrs + 1) /\
  (- / 2 <= IZR m - w <= / 2)%R.
Proof.
  destruct mrs as [m r s]. unfold between. cbn [shr_m shr_r shr_s loc_of_shr_record].
  destruct r, s; cbn [round_nearest_even]; intros H.
  - split; [right; reflexivity |]. rewrite plus_IZR. lra.
  - destruct (Z.even m); (split; [auto |]); rewrite ?plus_IZR; lra.
  - split; [left; reflexivity |]. lra.
  - split; [left; reflexivity |]. lra.
Qed.

Lemma IZR_pow2 k : 0 <= k -> IZR (2 ^ k) = powerRZ 2 k.
Proof.
  intros H. rewrite <- (Z2Nat.id k H), <- pow_IZR, pow_powerRZ. reflexivity.
Qed.

Lemma powerRZ2_pos e : (0 < powerRZ 2 e)%R.
Proof. apply powerRZ_lt. lra. Qed.

Lemma powerRZ2_add a b : powerRZ 2 (a + b) = (powerRZ 2 a * powerRZ 2 b)%R.
Proof. apply powerRZ_add. lra. Qed.

Lemma div_pow2_bounds m dm n :
  0 <= n -> n < dm -> 2 ^ (dm - 1) <= m < 2 ^ dm ->
  2 ^ (dm - n - 1) <= m / 2 ^ n < 2 ^ (dm - n).
Proof.
  intros Hn Hdm [Hlo Hhi].
  pose proof (pow2_pos n Hn) as Hp.
  split.
  - apply Z.div_le_lower_bound; [lia |].
    rewrite <- Z.pow_add_r by lia. replace (n + (dm - n - 1)) with (dm - 1) by lia.
    exact Hlo.
  - apply Z.div_lt_upper_bound; [lia |].
    rewrite <- Z.pow_add_r by lia. replace (n + (dm - n)) with dm by lia.
    exact Hhi.
Qed.

Lemma scale_bound (M P E v : R) :
  (0 < P)%R -> (0 < E)%R -> (4503599627370496 <= M)%R ->
  (- (P / 2) <= M * P - v <= P / 2)%R ->
  (- (M * P * E * roundoff) <= M * P * E - v * E <= M * P * E * roundoff)%R.
Proof.
  intros HP HE HM Hb. unfold roundoff.
  assert (HPE : (0 < P * E)%R) by (apply Rmult_lt_0_compat; assumption).
  assert (H1 : (P * E / 2 <= M * P * E * / 9007199254740992)%R).
  { replace (M * P * E * / 9007199254740992)%R
      with (M * / 9007199254740992 * (P * E))%R by field.
    replace (P * E / 2)%R with (/ 2 * (P * E))%R by field.
    apply Rmult_le_compat_r; lra. }
  assert (H2 : (- (P * E / 2) <= (M * P - v) * E <= P * E / 2)%R).
  { split.
    - replace (- (P * E / 2))%R with (- (P / 2) * E)%R by field.
      apply Rmult_le_compat_r; lra.
    - replace (P * E / 2)%R with (P / 2 * E)%R by field.
      apply Rmult_le_compat_r; lra. }
  replace (M * P * E - v * E)%R with ((M * P - v) * E)%R by ring.
  lra.
Qed.

(** [binary_round_aux] rounds correctly: from a mantissa of at least 53
    digits and the position of the exact value above it, it returns a
    normal number within half a unit in the last place of the value. *)
Lemma binary_round_aux_bound sx mx ex lx v dm :
  2 ^ (dm - 1) <= mx < 2 ^ dm -> 53 <= dm ->
  -1074 <= dm + ex - 53 -> dm + ex <= 1023 ->
  between (shr_record_of_loc mx lx) v ->
  exists m2 e2,
    binary_round_aux prec emax sx mx ex lx = S754_finite sx m2 e2 /\
    Z.pos (digits2_pos m2) = 53 /\
    dm + ex - 53 <= e2 <= dm + ex - 52 /\
    (- (F2R m2 e2 * roundoff) <= F2R m2 e2 - v * powerRZ 2 ex
       <= F2R m2 e2 * roundoff)%R.
Proof.
  intros Hm Hdm Hlo Hhi Hv.
  destruct (shr_fexp_spec mx ex lx v dm Hm Hdm Hlo Hv) as (mrs1 & E1 & B1 & M1).
  unfold binary_round_aux. rewrite E1.
  destruct (round_nearest_even_bound mrs1 _ B1) as [Hr Hb].
  set (n := dm - 53) in *.
  set (m1 := shr_m mrs1) in *.
  set (mr := round_nearest_even m1 (loc_of_shr_record mrs1)) in *.
  assert (Hm1 : 2 ^ 52 <= m1 < 2 ^ 53).
  { subst m1. rewrite M1.
    pose proof (div_pow2_bounds mx dm n ltac:(lia) ltac:(lia) Hm) as H.
    replace (dm - n - 1) with 52 in H by lia.
    replace (dm - n) with 53 in H by lia. exact H. }
  pose proof (IZR_pow2_pos n ltac:(lia)) as HP.
  pose proof (IZR_pow2 n ltac:(lia)) as HPn.
  set (P := IZR (2 ^ n)) in *.
  assert (Hval : (- (P / 2) <= IZR mr * P - v <= P / 2)%R).
  { assert (Hw : (v = v / P * P)%R) by (field; lra).
    set (w := (v / P)%R) in *. rewrite Hw. nra. }
  assert (Hmr : 2 ^ 52 <= mr <= 2 ^ 53) by lia.
  assert (HmrR : (4503599627370496 <= IZR mr)%R) by (apply IZR_le; lia).
  pose proof (powerRZ2_pos ex) as HE.
  pose proof (scale_bound (IZR mr) P (powerRZ 2 ex) v HP HE HmrR Hval) as Hfin.
  destruct (Z.eq_dec mr (2 ^ 53)) as [Hcarry | Hnocarry].
  - (* the rounding carried into a 54th digit *)
    destruct (shr_fexp_spec mr (ex + n) loc_Exact (IZR mr) 54) as (mrs2 & E2 & B2 & M2).
    + rewrite Hcarry. change (54 - 1) with 53. split; [lia | reflexivity].
    + lia.
    + lia.
    + reflexivity.
    + rewrite E2, M2, Hcarry.
      change (2 ^ 53 / 2 ^ (54 - 53)) with (Z.pos 4503599627370496).
      cbv iota beta.
      replace (ex + n + (54 - 53) <=? emax - prec) with true
        by (symmetry; apply Z.leb_le; change (emax - prec) with 971; lia).
      exists 4503599627370496%positive, (ex + n + (54 - 53)).
      split; [reflexivity |]. split; [reflexivity |]. split; [lia |].
      replace (F2R 4503599627370496 (ex + n + (54 - 53)))
        with (IZR mr * P * powerRZ 2 ex)%R; [exact Hfin |].
      unfold F2R. rewrite Hcarry.
      replace (ex + n + (54 - 53)) with (ex + (n + 1)) by lia.
      rewrite !powerRZ2_add, <- HPn. change (powerRZ 2 1) with (2 * 1)%R.
      change (IZR (2 ^ 53)) with 9007199254740992%R.
      ring.
  - destruct (shr_fexp_spec mr (ex + n) loc_Exact (IZR mr) 53) as (mrs2 & E2 & B2 & M2).
    + change (53 - 1) with 52. lia.
    + lia.
    + lia.
    + reflexivity.
    + rewrite E2, M2. change (2 ^ (53 - 53)) with 1. rewrite Z.div_1_r.
      destruct mr as [| pm | pm]; try lia.
      replace (ex + n + (53 - 53) <=? emax - prec) with true
        by (symmetry; apply Z.leb_le; change (emax - prec) with 971; lia).
      exists pm, (ex + n + (53 - 53)).
      split; [reflexivity |].
      split; [apply digits2_pos_unique; change (53 - 1) with 52; lia |].
      split; [lia |].
      replace (F2R pm (ex + n + (53 - 53)))
        with (IZR (Z.pos pm) * P * powerRZ 2 ex)%R; [exact Hfin |].
      unfold F2R. replace (ex + n + (53 - 53)) with (ex + n) by lia.
      rewrite powerRZ2_add, <- HPn. ring.
Qed.

Lemma ratio_eq (r c : Z) : 0 < c -> (IZR r / IZR c * IZR c = IZR r)%R.
Proof. intros H. field. apply not_0_IZR. lia. Qed.

(** The location that the division computes from the remainder says where
    the exact quotient lies. *)
Lemma new_location_between q r c :
  0 <= r < c ->
  between (shr_record_of_loc q (new_location c r)) (IZR q + IZR r / IZR c)%R.
Proof.
  intros Hr.
  assert (Hc : (0 < IZR c)%R) by (apply IZR_lt; lia).
  pose proof (ratio_eq r c ltac:(lia)) as Hx.
  set (x := (IZR r / IZR c)%R) in *.
  assert (Hr0 : (0 <= IZR r)%R) by (apply IZR_le; lia).
  assert (Hx0 : (0 <= x)%R) by nra.
  unfold new_location, new_location_even, new_location_odd.
  destruct (Z.even c) eqn:Ev; destruct (Z.eqb_spec r 0) as [-> | Hne].
  - unfold between; cbn [shr_record_of_loc shr_m shr_r shr_s].
    assert (x = 0%R) by nra. lra.
  - assert (Hrp : (1 <= IZR r)%R) by (apply IZR_le; lia).
    destruct (Z.compare_spec (2 * r) c) as [E | E | E];
      unfold between; cbn [shr_record_of_loc shr_m shr_r shr_s].
    + apply (f_equal IZR) in E. rewrite mult_IZR in E. nra.
    + apply IZR_lt in E. rewrite mult_IZR in E. nra.
    + apply IZR_lt in E. rewrite mult_IZR in E.
      assert (IZR r < IZR c)%R by (apply IZR_lt; lia). nra.
  - unfold between; cbn [shr_record_of_loc shr_m shr_r shr_s].
    assert (x = 0%R) by nra. lra.
  - assert (Hrp : (1 <= IZR r)%R) by (apply IZR_le; lia).
    assert (Hodd : 2 * r <> c).
    { intros <-. rewrite Z.even_mul in Ev. discriminate Ev. }
    assert (Hlt : (IZR r < IZR c)%R) by (apply IZR_lt; lia).
    destruct (Z.compare_spec (2 * r + 1) c) as [E | E | E];
      unfold between; cbn [shr_record_of_loc shr_m shr_r shr_s].
    + assert (E' : 2 * r < c) by lia.
      apply IZR_lt in E'. rewrite mult_IZR in E'. nra.
    + assert (E' : 2 * r < c) by lia.
      apply IZR_lt in E'. rewrite mult_IZR in E'. nra.
    + assert (E' : c < 2 * r) by lia.
      apply IZR_lt in E'. rewrite mult_IZR in E'. nra.
Qed.

Lemma F2R_pos m e : (0 < F2R m e)%R.
Proof.
  unfold F2R. apply Rmult_lt_0_compat; [apply IZR_lt; lia | apply powerRZ2_pos].
Qed.

(** Division of two normal doubles with exponents close to zero is
    correctly rounded. *)
Lemma SF64div_bound mS eS mC eC :
  Z.pos (digits2_pos mS) = 53 -> Z.pos (digits2_pos mC) = 53 ->
  -52 <= eS <= 0 -> -52 <= eC <= 0 ->
  exists m1 e1,
    SF64div (S754_finite false mS eS) (S754_finite false mC eC)
      = S754_finite false m1 e1 /\
    Z.pos (digits2_pos m1) = 53 /\
    -105 <= e1 <= 1 /\
    (- (F2R m1 e1 * roundoff) <= F2R m1 e1 - F2R mS eS / F2R mC eC
       <= F2R m1 e1 * roundoff)%R.
Proof.
  intros HdS HdC HeS HeC.
  pose proof (digits2_pos_bounds mS) as BS. rewrite HdS in BS.
  pose proof (digits2_pos_bounds mC) as BC. rewrite HdC in BC.
  change (53 - 1) with 52 in BS, BC.
  unfold SF64div, SFdiv, SFdiv_core_binary. cbn [Zdigits2 xorb].
  rewrite HdS, HdC, fexp_eq.
  replace (Z.min (Z.max (53 + eS - (53 + eC) - 53) (-1074)) (eS - eC))
    with (eS - eC - 53) by lia.
  replace (eS - eC - (eS - eC - 53)) with 53 by lia.
  cbv iota beta.
  rewrite Z.shiftl_mul_pow2 by lia.
  pose proof (Z_div_mod (Z.pos mS * 2 ^ 53) (Z.pos mC) ltac:(lia)) as Hdiv.
  destruct (Z.div_eucl (Z.pos mS * 2 ^ 53) (Z.pos mC)) as [q r].
  destruct Hdiv as [Hq Hr].
  assert (Hqb : 2 ^ 52 <= q < 2 ^ 54).
  { change (2 ^ 54) with (2 * 2 ^ 53). change (2 ^ 53) with (2 * 2 ^ 52) in *.
    set (T := 2 ^ 52) in *. assert (0 < T) by (subst T; reflexivity). nia. }
  set (v := (IZR q + IZR r / IZR (Z.pos mC))%R).
  assert (Hv : between (shr_record_of_loc q (new_location (Z.pos mC) r)) v)
    by (apply new_location_between; exact Hr).
  assert (Hdm : exists dm, 2 ^ (dm - 1) <= q < 2 ^ dm /\ 53 <= dm <= 54).
  { destruct (Z.lt_ge_cases q (2 ^ 53)) as [H | H].
    - exists 53. change (53 - 1) with 52. lia.
    - exists 54. change (54 - 1) with 53. lia. }
  destruct Hdm as (dm & Hq2 & Hdm).
  destruct (binary_round_aux_bound false q (eS - eC - 53)
              (new_location (Z.pos mC) r) v dm Hq2)
    as (m1 & e1 & E & D1 & R1 & B1); try lia; [exact Hv |].
  exists m1, e1. split; [exact E |]. split; [exact D1 |]. split; [lia |].
  replace (F2R mS eS / F2R mC eC)%R with (v * powerRZ 2 (eS - eC - 53))%R;
    [exact B1 |].
  unfold F2R, v.
  assert (HC : (0 < IZR (Z.pos mC))%R) by (apply IZR_lt; lia).
  replace (IZR q + IZR r / IZR (Z.pos mC))%R
    with (IZR (Z.pos mS * 2 ^ 53) / IZR (Z.pos mC))%R.
  2: { rewrite Hq, plus_IZR, mult_IZR. field. lra. }
  rewrite mult_IZR. change (IZR (2 ^ 53)) with 9007199254740992%R.
  replace (eS - eC - 53) with (eS + (- eC + - 53)) by lia.
  rewrite !powerRZ2_add, powerRZ_neg'.
  pose proof (powerRZ2_pos eC). pose proof (powerRZ2_pos eS).
  change (powerRZ 2 (-53)) with (powerRZ 2 (Z.opp 53)).
  rewrite powerRZ_neg', <- (IZR_pow2 53) by lia.
  change (IZR (2 ^ 53)) with 9007199254740992%R.
  field. split; lra.
Qed.

Lemma Z2float_100 :
  Prim2SF (Z2float 100) = S754_finite false 7036874417766400 (-46).
Proof. reflexivity. Qed.

(** Multiplication of a normal double by 100 is correctly rounded. *)
Lemma SF64mul_100_bound m1 e1 :
  Z.pos (digits2_pos m1) = 53 -> -105 <= e1 <= 1 ->
  exists md ed,
    SF64mul (S754_finite false m1 e1) (S754_finite false 7036874417766400 (-46))
      = S754_finite false md ed /\
    (- (F2R md ed * roundoff) <= F2R md ed - 100 * F2R m1 e1
       <= F2R md ed * roundoff)%R.
Proof.
  intros Hd He.
  pose proof (digits2_pos_bounds m1) as B. rewrite Hd in B.
  change (53 - 1) with 52 in B.
  unfold SF64mul, SFmul. cbn [xorb].
  rewrite Pos2Z.inj_mul.
  set (mx := Z.pos m1 * Z.pos 7036874417766400).
  assert (Hmx : 2 ^ 104 <= mx < 2 ^ 106).
  { subst mx. change (2 ^ 106) with (2 ^ 53 * 2 ^ 53).
    change (2 ^ 104) with (2 ^ 52 * 2 ^ 52). nia. }
  assert (Hdm : exists dm, 2 ^ (dm - 1) <= mx < 2 ^ dm /\ 105 <= dm <= 106).
  { destruct (Z.lt_ge_cases mx (2 ^ 105)) as [H | H].
    - exists 105. change (105 - 1) with 104. lia.
    - exists 106. change (106 - 1) with 105. lia. }
  destruct Hdm as (dm & Hmx2 & Hdm).
  destruct (binary_round_aux_bound false mx (e1 + -46) loc_Exact (IZR mx) dm Hmx2)
    as (md & ed & E & _ & _ & Bd); try lia; [reflexivity |].
  exists md, ed. split; [exact E |].
  replace (100 * F2R m1 e1)%R with (IZR mx * powerRZ 2 (e1 + -46))%R;
    [exact Bd |].
  unfold F2R, mx. rewrite mult_IZR, powerRZ2_add.
  change (powerRZ 2 (-46)) with (powerRZ 2 (Z.opp 46)).
  rewrite powerRZ_neg', <- (IZR_pow2 46) by lia.
  change (IZR (2 ^ 46)) with 70368744177664%R.
  field.
Qed.

(** The hundredth that [toFixed(2)] prints is within half a hundredth of
    the number. *)
Lemma closest_hundredth_real m e n :
  closest_hundredth (Z.pos m) e n ->
  (- / 2 <= IZR n - 100 * F2R m e <= / 2)%R.
Proof.
  unfold closest_hundredth, F2R.
  destruct (Z.leb_spec 0 e) as [Hpos | Hneg].
  - intros ->. rewrite !mult_IZR, (IZR_pow2 e Hpos). lra.
  - intros [Hlo Hhi].
    replace (1 - e) with (1 + - e) in * by lia.
    rewrite Z.pow_add_r in * by lia. change (2 ^ 1) with 2 in *.
    apply IZR_le in Hlo. apply IZR_lt in Hhi.
    rewrite opp_IZR in Hlo.
    rewrite minus_IZR, !mult_IZR, (IZR_pow2 (- e)) in * by lia.
    replace e with (Z.opp (- e)) at 1 2 by lia.
    rewrite powerRZ_neg'.
    pose proof (powerRZ2_pos (- e)) as HP.
    set (P := powerRZ 2 (- e)) in *.
    assert (HI : (0 < / P)%R) by (apply Rinv_0_lt_compat; exact HP).
    set (X := (IZR n * (2 * P) - 200 * IZR (Z.pos m))%R).
    assert (HX : (- P <= X <= P)%R) by (subst X; lra).
    replace (IZR n - 100 * (IZR (Z.pos m) * / P))%R with (X * / P / 2)%R
      by (subst X; field; lra).
    assert (H1 : (X * / P <= P * / P)%R) by (apply Rmult_le_compat_r; lra).
    assert (H2 : (- P * / P <= X * / P)%R) by (apply Rmult_le_compat_r; lra).
    assert (Hinv : (P * / P = 1)%R) by (field; lra).
    lra.
Qed.

(** The utilisation that the handler reports is a hundredth closest to the
    exact quotient [S / C * 100]: it differs from it by at most half a
    hundredth. *)
Lemma utilisation_closest (S C : Z) :
  0 <= S <= 10 ^ 11 -> 0 < C < 2 ^ 53 ->
  exists h,
    toFixed2 (Z2float S / Z2float C * Z2float 100)%float = Fixed false h /\
    (2 * h - 1) * C <= 20000 * S <= (2 * h + 1) * C.
Proof.
  intros HS HC.
  destruct (Z2float_pos C HC) as (mC & eC & EC & DC & RC & VC).
  destruct (Z.eq_dec S 0) as [-> | HS0].
  - exists 0. split; [| lia].
    unfold toFixed2. rewrite FloatAxioms.mul_spec, FloatAxioms.div_spec, EC, Z2float_100.
    reflexivity.
  - assert (HS' : 0 < S < 2 ^ 53).
    { split; [lia |]. apply Z.le_lt_trans with (10 ^ 11); [lia | reflexivity]. }
    destruct (Z2float_pos S HS') as (mS & eS & ES & DS & RS & VS).
    destruct (SF64div_bound mS eS mC eC DS DC RS RC) as (m1 & e1 & E1 & D1 & R1 & B1).
    destruct (SF64mul_100_bound m1 e1 D1 R1) as (md & ed & Ed & Bd).
    pose proof (round_hundredths_closest (Z.pos md) ed) as Hh.
    apply closest_hundredth_real in Hh.
    set (h := round_hundredths (Z.pos md) ed) in *.
    exists h. split.
    + unfold toFixed2. rewrite FloatAxioms.mul_spec, FloatAxioms.div_spec, ES, EC, Z2float_100, E1, Ed.
      reflexivity.
    + assert (HFS : F2R mS eS = IZR S).
      { unfold F2R. rewrite VS, mult_IZR, (IZR_pow2 (- eS)) by lia.
        rewrite powerRZ_neg'.
        pose proof (powerRZ2_pos eS). field. lra. }
      assert (HFC : F2R mC eC = IZR C).
      { unfold F2R. rewrite VC, mult_IZR, (IZR_pow2 (- eC)) by lia.
        rewrite powerRZ_neg'.
        pose proof (powerRZ2_pos eC). field. lra. }
      rewrite HFS, HFC in B1.
      assert (HCr : (1 <= IZR C)%R) by (apply IZR_le; lia).
      assert (HSr : (1 <= IZR S <= 100000000000)%R).
      { split; [apply IZR_le; lia |].
        change 100000000000%R with (IZR (10 ^ 11)). apply IZR_le; lia. }
      pose proof (ratio_eq S C ltac:(lia)) as Ha.
      set (a := (IZR S / IZR C)%R) in *.
      set (q := F2R m1 e1) in *. set (d := F2R md ed) in *.
      unfold roundoff in *.
      (* the three bounds, each multiplied by the capacity *)
      set (Q := (q * IZR C)%R). set (D := (d * IZR C)%R). set (H := (IZR h * IZR C)%R).
      assert (B1' : (- (Q * / 9007199254740992) <= Q - IZR S
                     <= Q * / 9007199254740992)%R) by (subst Q; nra).
      assert (Bd' : (- (D * / 9007199254740992) <= D - 100 * Q
                     <= D * / 9007199254740992)%R) by (subst D Q; nra).
      assert (Hh' : (- (IZR C / 2) <= H - 100 * D <= IZR C / 2)%R)
        by (subst H D; nra).
      split.
      * apply Z.nlt_ge. intros Hcontra.
        assert (Hz : 20000 * S + 1 <= (2 * h - 1) * C) by lia.
        apply IZR_le in Hz.
        rewrite plus_IZR, !mult_IZR, minus_IZR, mult_IZR in Hz.
        fold H in Hz. 
        assert (Hz' : (20000 * IZR S + 1 <= 2 * H - IZR C)%R) by (subst H; lra).
        lra.
      * apply Z.nlt_ge. intros Hcontra.
        assert (Hz : (2 * h + 1) * C + 1 <= 20000 * S) by lia.
        apply IZR_le in Hz.
        rewrite plus_IZR, !mult_IZR, plus_IZR, mult_IZR in Hz.
        assert (Hz' : (2 * H + IZR C + 1 <= 20000 * IZR S)%R) by (subst H; lra).
        lra.
Qed.

(* ================================================================== *)
(** * The utilisation *)
(* ================================================================== *)

(** C3, as stated, fails on a tie: 29 of 800 is 3.625 percent exactly, which
    rounded to two decimals is 3.63, but the handler returns 3.62, because
    the double nearest to [29 / 800 * 100] lies below 3.625.  Likewise 115 of
    800 is 14.375 percent exactly, which is 14.38 whether a tie is rounded
    up or to the even hundredth, and the handler returns 14.37. *)
Lemma tie_is_rounded_down :
  (totalStock (binStatistics tie_bins) = 29 /\
   totalCapacity (binStatistics tie_bins) = 800 /\
   20000 * 29 = (2 * 362 + 1) * 800 /\
   rounded_half_up 29 800 = 363 /\
   utilizationPercentage (binStatistics tie_bins) = Fixed false 362 /\
   utilizationPercentage (binStatistics tie_bins)
     <> Fixed false (rounded_half_up 29 800)) /\
  (totalStock (binStatistics odd_tie_bins) = 115 /\
   totalCapacity (binStatistics odd_tie_bins) = 800 /\
   20000 * 115 = (2 * 1437 + 1) * 800 /\
   rounded_half_up 115 800 = 1438 /\
   Z.even 1438 = true /\
   utilizationPercentage (binStatistics odd_tie_bins) = Fixed false 1437 /\
   utilizationPercentage (binStatistics odd_tie_bins)
     <> Fixed false (rounded_half_up 115 800)).
Proof.
  repeat split; vm_compute; discriminate.
Qed.

(** C3, amended: [getBinStatistics] counts the bins it read, counts the
    active ones, takes the inactive ones as the difference, and sums
    capacity and stock, an absent quantity counting as 0; the sums are those
    of the integers as long as they stay safe integers.  The utilisation is
    0 when the total capacity is not positive.  Otherwise, for a total stock
    between 0 and 10^11, it is a hundredth closest to the exact quotient
    [totalStock / totalCapacity * 100]: it differs from it by at most half a
    hundredth, and where the quotient lies halfway between two hundredths it
    can be either of them.  On the four sample bins the handler returns 4, 3,
    1, 3500, 2150 and 61.43. *)
Theorem statistics_correct :
  (forall allBins : list Bin,
     bounded_total (capacities allBins) ->
     bounded_total (stocks allBins) ->
     let s := binStatistics allBins in
     totalBins s = Z.of_nat (length allBins) /\
     activeBins s =
       Z.of_nat (length (filter (fun b => is_active (status b)) allBins)) /\
     inactiveBins s = totalBins s - activeBins s /\
     0 <= inactiveBins s /\
     totalCapacity s = sumZ (capacities allBins) /\
     totalStock s = sumZ (stocks allBins) /\
     (totalCapacity s <= 0 -> utilizationPercentage s = Fixed false 0) /\
     (0 < totalCapacity s -> 0 <= totalStock s <= 10 ^ 11 ->
      exists h,
        utilizationPercentage s = Fixed false h /\
        (2 * h - 1) * totalCapacity s <= 20000 * totalStock s
          <= (2 * h + 1) * totalCapacity s)) /\
  binStatistics sample_bins =
    {| totalBins := 4; activeBins := 3; inactiveBins := 1;
       totalCapacity := 3500; totalStock := 2150;
       utilizationPercentage := Fixed false 6143 |} /\
  binStatistics [] =
    {| totalBins := 0; activeBins := 0; inactiveBins := 0;
       totalCapacity := 0; totalStock := 0;
       utilizationPercentage := Fixed false 0 |} /\
  (forall (World : Type) (executeHttpRequest : World -> request -> _)
          (clock : World -> string) st rs w,
     executeHttpRequest (world st) statistics_request =
       (inr (Some (Results rs)), w) ->
     exists s,
       fst (on_getBinStatistics executeHttpRequest clock st) = Return s /\
       s = binStatistics (map (mapS4ToBin (clock w)) rs) /\
       totalBins s = Z.of_nat (length rs)) /\
  (forall rows, LocalService.getBinStatistics rows = binStatistics rows) /\
  (forall b, is_active (status b) = true <-> status b = Some "active").
Proof.
  split; [| split; [| split; [| split; [| split;
    [reflexivity | intros b; apply is_active_iff]]]]].
  - intros allBins Hcap Hstock s. subst s. unfold binStatistics, capacities, stocks.
    cbn [totalBins activeBins inactiveBins totalCapacity totalStock
         utilizationPercentage].
    rewrite !fold_left_sum, !Z.add_0_l.
    pose proof (filter_length_le (fun b => is_active (status b)) allBins).
    set (C := sumZ (map (fun b => num_or_0 (capacity b)) allBins)) in *.
    set (S := sumZ (map (fun b => num_or_0 (currentStock b)) allBins)) in *.
    assert (HC : C <= 2 ^ 53 - 1).
    { unfold bounded_total, capacities in Hcap. fold C.
      apply Z.le_trans with (sumZ (map Z.abs (map (fun b => num_or_0 (capacity b)) allBins)));
        [| exact Hcap].
      subst C. clear. induction allBins as [| b l IH]; cbn [map sumZ fold_right]; [lia |].
      unfold sumZ in IH. lia. }
    repeat split; try lia.
    + intros Hle. destruct (Z.ltb_spec 0 C); [lia | reflexivity].
    + intros Hlt HS. destruct (Z.ltb_spec 0 C); [| lia].
      apply utilisation_closest; [exact HS | lia].
  - vm_compute. reflexivity.
  - vm_compute. reflexivity.
  - intros World exec clock st rs w H.
    rewrite (on_getBinStatistics_results exec clock st rs w H).
    eexists. split; [reflexivity |]. split; [reflexivity |].
    unfold binStatistics. cbn [totalBins]. rewrite length_map. reflexivity.
Qed.

Lemma statistics_correct_witness :
  (exists h,
     utilizationPercentage (binStatistics sample_bins) = Fixed false h /\
     (2 * h - 1) * 3500 <= 20000 * 2150 <= (2 * h + 1) * 3500) /\
  totalCapacity (binStatistics sample_bins) = 3500 /\
  totalStock (binStatistics sample_bins) = 2150 /\
  utilizationPercentage (binStatistics []) = Fixed false 0 /\
  exists s,
    fst (on_getBinStatistics (InMemory.serve true) InMemory.clock
           (InMemory.start store1)) = Return s /\
    totalBins s = 1.
Proof.
  destruct statistics_correct as (Hall & Hsample & Hempty & Hhandler & _ & _).
  assert (Hc : bounded_total (capacities sample_bins)) by (vm_compute; discriminate).
  assert (Hs : bounded_total (stocks sample_bins)) by (vm_compute; discriminate).
  destruct (Hall sample_bins Hc Hs) as (_ & _ & _ & _ & Hcap & Hstock & _ & Hpos).
  split.
  { apply Hpos; [reflexivity | split; vm_compute; discriminate]. }
  split; [exact Hcap |]. split; [exact Hstock |].
  split.
  - assert (Hc0 : bounded_total (capacities [])) by (vm_compute; discriminate).
    assert (Hs0 : bounded_total (stocks [])) by (vm_compute; discriminate).
    destruct (Hall [] Hc0 Hs0) as (_ & _ & _ & _ & _ & _ & Hzero & _).
    apply Hzero. vm_compute. discriminate.
  - destruct (Hhandler InMemory.Store (InMemory.serve true) InMemory.clock
                (InMemory.start store1) store1 store1 eq_refl)
      as (s & Hs' & _ & Htotal).
    exists s. split; assumption.
Defined.

(* ================================================================== *)
(** * The filter as the source reads it *)
(* ================================================================== *)

Lemma strip_prefix_app p s : strip_prefix p (p ++ s) = Some s.
Proof.
  induction p as [| a p IH]; [reflexivity |].
  simpl. rewrite Ascii.eqb_refl. exact IH.
Qed.

Lemma prefix_app p s : String.prefix p (p ++ s) = true.
Proof.
  induction p as [| a p IH]; [destruct s; reflexivity |].
  simpl. destruct (ascii_dec a a) as [_ | N]; [exact IH | contradiction].
Qed.

(** A literal without quote is read back whole, when the text goes on with
    something else than a quote. *)
Lemma read_literal_plain t rest :
  has_char "'" t = false ->
  (forall r, rest <> String "'" r) ->
  read_literal (t ++ String "'" rest) = Some (t, rest).
Proof.
  intros Ht Hrest. induction t as [| c t IH].
  - simpl. destruct rest as [| c' r']; [reflexivity |].
    destruct (Ascii.eqb_spec c' "'") as [-> | _]; [| reflexivity].
    exfalso. apply (Hrest r'). reflexivity.
  - rewrite has_char_cons in Ht. apply orb_false_iff in Ht as [Hc Ht].
    change (String c t ++ String "'" rest) with (String c (t ++ String "'" rest)).
    cbn [read_literal]. rewrite Hc, (IH Ht). reflexivity.
Qed.

Lemma plain_term_excludes c t :
  plain_term t -> plain_char c = false -> has_char c t = false.
Proof. intros Ht Hc. exact (all_chars_excludes plain_char c t Ht Hc). Qed.

Lemma parse_substringof_render t f rest :
  has_char "'" t = false ->
  parse_substringof ("substringof('" ++ t ++ "'," ++ field_name f ++ ") eq true" ++ rest)
    = Some (SubstringOf t f, rest).
Proof.
  intros Ht. unfold parse_substringof.
  rewrite strip_prefix_app.
  change ("'," ++ field_name f ++ ") eq true" ++ rest)
    with (String "'" ("," ++ field_name f ++ ") eq true" ++ rest)).
  rewrite (read_literal_plain t _ Ht) by discriminate.
  rewrite strip_prefix_app.
  destruct f; cbn [field_name parse_field];
    repeat first [ rewrite strip_prefix_app | reflexivity
                 | progress cbn [strip_prefix append Ascii.eqb Bool.eqb] ].
Qed.

Lemma parse_status_render f rest :
  has_char "'" f = false ->
  (forall r, rest <> String "'" r) ->
  parse_atom ("BlockingIndicator eq '" ++ f ++ String "'" rest)
    = Some (Eq FBlockingIndicator f, rest).
Proof.
  intros Hf Hrest. unfold parse_atom, parse_substringof, parse_eq, parse_field.
  cbn [strip_prefix append Ascii.eqb Bool.eqb].
  rewrite (read_literal_plain f rest Hf Hrest). reflexivity.
Qed.

Lemma parse_search_render t rest :
  has_char "'" t = false ->
  parse_conjunct (search_filter t ++ rest)
    = Some (Or (SubstringOf t FStorageBin) (SubstringOf t FWarehouse), rest).
Proof.
  intros Ht. unfold parse_conjunct, search_filter.
  rewrite !append_assoc.
  change ("(substringof('" ++ t ++ "',StorageBin) eq true or " ++
          "substringof('" ++ t ++ "',Warehouse) eq true)" ++ rest)
    with ("(" ++ ("substringof('" ++ t ++ "'," ++ field_name FStorageBin
                  ++ ") eq true"
                  ++ (" or " ++ ("substringof('" ++ t ++ "',"
                                 ++ field_name FWarehouse ++ ") eq true"
                                 ++ (")" ++ rest))))).
  rewrite strip_prefix_app.
  unfold parse_atom at 1. rewrite (parse_substringof_render t _ _ Ht).
  rewrite strip_prefix_app.
  unfold parse_atom. rewrite (parse_substringof_render t _ _ Ht).
  rewrite strip_prefix_app. reflexivity.
Qed.

Lemma includes_or_In items : In (Tok "or") items -> includes_or items = true.
Proof.
  intros H. unfold includes_or. apply existsb_exists.
  exists (Tok "or"). split; [exact H | reflexivity].
Qed.

Lemma includes_or_not_In items : ~ In (Tok "or") items -> includes_or items = false.
Proof.
  intros H. unfold includes_or.
  destruct (existsb _ items) eqn:E; [| reflexivity].
  apply existsb_exists in E as (x & Hin & Hx).
  destruct x as [t | |]; try discriminate.
  apply String.eqb_eq in Hx. subst t. contradiction.
Qed.

Lemma find_val_falsy items :
  (forall v, In (Val v) items -> truthy v = false) -> find_val items = None.
Proof.
  intros H. unfold find_val.
  induction items as [| w items IH]; [reflexivity |].
  cbn [find]. destruct w as [t | p | v].
  - apply IH. intros v Hv. apply H. right. exact Hv.
  - apply IH. intros v Hv. apply H. right. exact Hv.
  - rewrite (H v (or_introl eq_refl)).
    apply IH. intros v' Hv. apply H. right. exact Hv.
Qed.

Lemma find_val_first pre v post :
  (forall v', In (Val v') pre -> truthy v' = false) -> truthy v = true ->
  find_val (pre ++ Val v :: post) = Some v.
Proof.
  intros Hpre Hv. unfold find_val.
  induction pre as [| w pre IH]; cbn [app find].
  - rewrite Hv. reflexivity.
  - destruct w as [t | p | v'].
    + apply IH. intros x Hx. apply Hpre. right. exact Hx.
    + apply IH. intros x Hx. apply Hpre. right. exact Hx.
    + rewrite (Hpre v' (or_introl eq_refl)).
      apply IH. intros x Hx. apply Hpre. right. exact Hx.
Qed.

(** The handler extracts the term and the flag that the amended claim
    describes. *)
Lemma searchTerm_reads w term : reads_term w term -> searchTerm w = term.
Proof.
  intros H. unfold searchTerm.
  destruct H as [E | items E Hor | items E Hlit | items pre t post E Hor Hitems Hpre Ht];
    rewrite E.
  - reflexivity.
  - rewrite (includes_or_not_In items Hor). reflexivity.
  - rewrite (find_val_falsy items Hlit). destruct (includes_or items); reflexivity.
  - rewrite (includes_or_In items Hor), Hitems.
    rewrite (find_val_first pre (JStr t) post Hpre); [reflexivity |].
    destruct t; [contradiction | reflexivity].
Qed.

Lemma statusFlag_reads w flag : reads_flag w flag -> statusFlag w = flag.
Proof.
  intros H. unfold statusFlag.
  destruct H as [E | E | E | st E Hne Hna]; rewrite E; try reflexivity.
  cbn [truthy_opt is_active]. destruct st as [| c st]; [contradiction |].
  cbn [truthy_string].
  destruct (String.eqb_spec (String c st) "active") as [Heq | _];
    [contradiction | reflexivity].
Qed.

Lemma read_query_text sel w term flag :
  where_ sel = Some w -> reads_term w term -> reads_flag w flag ->
  read_query sel =
    "/A_WarehouseStorageBin?$format=json&$top=" ++ num_param (limit sel) 100
    ++ "&$skip=" ++ num_param (skip sel) 0 ++ conjunction_text term flag.
Proof.
  intros Hw Ht Hf. unfold read_query, read_filters.
  rewrite Hw, (searchTerm_reads w term Ht), (statusFlag_reads w flag Hf).
  unfold conjunction_text, search_filter, status_filter.
  destruct term as [t |], flag as [f |]; cbn [app join];
    rewrite ?append_assoc, ?append_nil_r; reflexivity.
Qed.

Lemma digit_char_not_amp d : is_digit d -> Ascii.eqb (digit_char d) "&" = false.
Proof.
  intros [H0 H1]. unfold digit_char.
  replace (Z.to_N d) with (N.of_nat (Z.to_nat d)) by lia.
  assert (Hn : (Z.to_nat d < 10)%nat) by lia.
  revert Hn. generalize (Z.to_nat d) as n. intros n Hn.
  do 10 (destruct n as [| n]; [reflexivity |]). lia.
Qed.

Lemma digits_no_amp ds :
  Forall is_digit ds -> has_char "&" (string_of_digits ds) = false.
Proof.
  induction 1 as [| d ds Hd _ IH]; [reflexivity |].
  cbn [string_of_digits]. rewrite has_char_cons, IH, (digit_char_not_amp d Hd).
  reflexivity.
Qed.

Lemma num_param_no_amp n d : has_char "&" (num_param n d) = false.
Proof.
  unfold num_param, Number_toString.
  set (z := match n with Some z => if z =? 0 then d else z | None => d end).
  destruct (z <? 0) eqn:E.
  - rewrite has_char_cons. cbn [Ascii.eqb Bool.eqb orb].
    apply digits_no_amp, decimal_digits_digits. apply Z.ltb_lt in E. lia.
  - apply digits_no_amp, decimal_digits_digits. apply Z.ltb_ge in E. lia.
Qed.

(** The [$filter] parameter of a URL of the READ handler. *)
Lemma query_param_filter a b text :
  has_char "&" a = false -> has_char "&" b = false ->
  has_char "&" text = false ->
  query_param "$filter"
    (ODATA_PATH ++ "/A_WarehouseStorageBin?$format=json&$top=" ++ a
     ++ "&$skip=" ++ b ++ "&$filter=" ++ text) = Some text.
Proof.
  intros Ha Hb Ht. unfold query_param.
  change (after "?" (ODATA_PATH ++ "/A_WarehouseStorageBin?$format=json&$top=" ++ a
                     ++ "&$skip=" ++ b ++ "&$filter=" ++ text))
    with (Some ("$format=json" ++ "&" ++ ("$top=" ++ a) ++ "&" ++ ("$skip=" ++ b)
                ++ "&" ++ ("$filter=" ++ text))).
  cbv iota beta.
  rewrite (split_sep "&" "$format=json") by reflexivity.
  rewrite (split_sep "&" ("$top=" ++ a)) by (rewrite has_char_app, Ha; reflexivity).
  rewrite (split_sep "&" ("$skip=" ++ b)) by (rewrite has_char_app, Hb; reflexivity).
  rewrite (split_single "&" ("$filter=" ++ text))
    by (rewrite has_char_app, Ht; reflexivity).
  cbn [find].
  replace (String.prefix ("$filter" ++ "=") "$format=json") with false by reflexivity.
  replace (String.prefix ("$filter" ++ "=") ("$top=" ++ a)) with false by reflexivity.
  replace (String.prefix ("$filter" ++ "=") ("$skip=" ++ b)) with false by reflexivity.
  change ("$filter" ++ "=") with "$filter=".
  rewrite prefix_app. apply strip_prefix_app.
Qed.

Lemma query_param_no_filter a b :
  has_char "&" a = false -> has_char "&" b = false ->
  query_param "$filter"
    (ODATA_PATH ++ "/A_WarehouseStorageBin?$format=json&$top=" ++ a
     ++ "&$skip=" ++ b) = None.
Proof.
  intros Ha Hb. unfold query_param.
  change (after "?" (ODATA_PATH ++ "/A_WarehouseStorageBin?$format=json&$top=" ++ a
                     ++ "&$skip=" ++ b))
    with (Some ("$format=json" ++ "&" ++ ("$top=" ++ a) ++ "&" ++ ("$skip=" ++ b))).
  cbv iota beta.
  rewrite (split_sep "&" "$format=json") by reflexivity.
  rewrite (split_sep "&" ("$top=" ++ a)) by (rewrite has_char_app, Ha; reflexivity).
  rewrite (split_single "&" ("$skip=" ++ b))
    by (rewrite has_char_app, Hb; reflexivity).
  cbn [find].
  replace (String.prefix ("$filter" ++ "=") "$format=json") with false by reflexivity.
  replace (String.prefix ("$filter" ++ "=") ("$top=" ++ a)) with false by reflexivity.
  replace (String.prefix ("$filter" ++ "=") ("$skip=" ++ b)) with false by reflexivity.
  reflexivity.
Qed.

Lemma parse_conjuncts_status n f :
  has_char "'" f = false ->
  parse_conjuncts (S n) (status_filter f) = Some [Eq FBlockingIndicator f].
Proof.
  intros Hf. cbn [parse_conjuncts]. unfold parse_conjunct, status_filter.
  replace (strip_prefix "(" ("BlockingIndicator eq '" ++ f ++ "'"))
    with (@None string) by reflexivity.
  change ("BlockingIndicator eq '" ++ f ++ "'")
    with ("BlockingIndicator eq '" ++ f ++ String "'" "").
  rewrite (parse_status_render f "" Hf) by discriminate. reflexivity.
Qed.

Lemma parse_conjuncts_search n t :
  has_char "'" t = false ->
  parse_conjuncts (S n) (search_filter t)
    = Some [Or (SubstringOf t FStorageBin) (SubstringOf t FWarehouse)].
Proof.
  intros Ht. cbn [parse_conjuncts].
  rewrite <- (append_nil_r (search_filter t)).
  rewrite (parse_search_render t "" Ht). reflexivity.
Qed.

Lemma parse_conjuncts_step n s :
  parse_conjuncts (S n) s =
    match parse_conjunct s with
    | None => None
    | Some (e, EmptyString) => Some [e]
    | Some (e, r) =>
        match strip_prefix " and " r with
        | None => None
        | Some r' =>
            match parse_conjuncts n r' with
            | Some es => Some (e :: es)
            | None => None
            end
        end
    end.
Proof. reflexivity. Qed.

Lemma parse_conjuncts_both n t f :
  has_char "'" t = false -> has_char "'" f = false ->
  parse_conjuncts (S (S n)) (search_filter t ++ " and " ++ status_filter f)
    = Some [Or (SubstringOf t FStorageBin) (SubstringOf t FWarehouse);
            Eq FBlockingIndicator f].
Proof.
  intros Ht Hf. rewrite parse_conjuncts_step.
  rewrite (parse_search_render t _ Ht).
  change (" and " ++ status_filter f) with (String " " ("and " ++ status_filter f)).
  cbv iota beta.
  change (String " " ("and " ++ status_filter f)) with (" and " ++ status_filter f).
  rewrite strip_prefix_app.
  rewrite (parse_conjuncts_status n f Hf). reflexivity.
Qed.

Lemma search_filter_length t rest :
  exists k, String.length (search_filter t ++ rest) = S k.
Proof. unfold search_filter. cbn [append String.length]. eexists. reflexivity. Qed.

Lemma search_filter_no_amp t :
  has_char "&" t = false -> has_char "&" (search_filter t) = false.
Proof.
  intros Ht. unfold search_filter.
  rewrite !has_char_app, Ht. reflexivity.
Qed.

Lemma reads_flag_values w f :
  reads_flag w (Some f) -> f = "" \/ f = "X".
Proof.
  intros H. inversion H; subst; auto.
Qed.

(** For a plain search term, the source reads the filter that the handler
    sends as the conjunction of the search and of the status filter. *)
Lemma url_selects_conjunction sel w term flag r :
  where_ sel = Some w -> reads_term w term -> reads_flag w flag ->
  (forall t, term = Some t -> plain_term t) ->
  url_selects (r_url (list_request sel)) r = Some (conjunction term flag r).
Proof.
  intros Hw Ht Hf Hplain.
  unfold url_selects, list_request. cbn [r_url].
  rewrite (read_query_text sel w term flag Hw Ht Hf).
  pose proof (num_param_no_amp (limit sel) 100) as Ha.
  pose proof (num_param_no_amp (skip sel) 0) as Hb.
  set (a := num_param (limit sel) 100) in *.
  set (b := num_param (skip sel) 0) in *.
  destruct term as [t |]; destruct flag as [f |].
  - pose proof (Hplain t eq_refl) as Hp.
    pose proof (plain_term_excludes "'" t Hp eq_refl) as Hq.
    pose proof (plain_term_excludes "&" t Hp eq_refl) as Hamp.
    replace (conjunction_text (Some t) (Some f))
      with ("&$filter=" ++ (search_filter t ++ " and " ++ status_filter f))
      by (unfold conjunction_text, search_filter, status_filter;
          rewrite ?append_assoc; reflexivity).
    destruct (reads_flag_values w f Hf) as [-> | ->].
    + rewrite query_param_filter; try assumption;
        [| rewrite has_char_app, (search_filter_no_amp t Hamp); reflexivity].
      unfold parse_filter.
      destruct (search_filter_length t (" and " ++ status_filter "")) as [k Hk].
      rewrite Hk.
      rewrite (parse_conjuncts_both _ t "" Hq eq_refl).
      unfold conjunction. cbn [forallb satisfies field_value].
      rewrite andb_true_r. reflexivity.
    + rewrite query_param_filter; try assumption;
        [| rewrite has_char_app, (search_filter_no_amp t Hamp); reflexivity].
      unfold parse_filter.
      destruct (search_filter_length t (" and " ++ status_filter "X")) as [k Hk].
      rewrite Hk.
      rewrite (parse_conjuncts_both _ t "X" Hq eq_refl).
      unfold conjunction. cbn [forallb satisfies field_value].
      rewrite andb_true_r. reflexivity.
  - pose proof (Hplain t eq_refl) as Hp.
    pose proof (plain_term_excludes "'" t Hp eq_refl) as Hq.
    pose proof (plain_term_excludes "&" t Hp eq_refl) as Hamp.
    replace (conjunction_text (Some t) None)
      with ("&$filter=" ++ search_filter t)
      by (unfold conjunction_text, search_filter;
          rewrite ?append_assoc; reflexivity).
    rewrite query_param_filter; try assumption;
      [| apply search_filter_no_amp, Hamp].
    unfold parse_filter. rewrite (parse_conjuncts_search _ t Hq).
    unfold conjunction. cbn [forallb satisfies field_value].
    reflexivity.
  - destruct (reads_flag_values w f Hf) as [-> | ->];
      (change (conjunction_text None (Some "")) with ("&$filter=" ++ status_filter "")
       || change (conjunction_text None (Some "X")) with ("&$filter=" ++ status_filter "X"));
      (rewrite query_param_filter; [| assumption | assumption | reflexivity]);
      unfold parse_filter; rewrite parse_conjuncts_status by reflexivity;
      unfold conjunction; cbn [forallb satisfies field_value andb];
      rewrite andb_true_r; reflexivity.
  - cbn [conjunction_text]. rewrite !append_nil_r.
    rewrite query_param_no_filter by assumption. reflexivity.
Qed.

(** C4, as stated, fails: the search does not look at the location.  A
    record of warehouse "WH1" and storage type "BULK" maps to the location
    "WH1 - BULK", which contains the term "BULK", so that the search of the
    specification finds the bin; but the filter that the handler sends tests
    [StorageBin] and [Warehouse] only, and the source does not select the
    record. *)
Lemma search_misses_storage_type :
  location (mapS4ToBin "2025-01-01T00:00:00.000Z"
              (stored "BIN-A001" "WH1" "BULK" "1000" "750" ""))
    = Some "WH1 - BULK" /\
  spec_search "BULK"
    (mapS4ToBin "2025-01-01T00:00:00.000Z"
       (stored "BIN-A001" "WH1" "BULK" "1000" "750" "")) = true /\
  query_param "$filter" (r_url (list_request (search_for "BULK" None)))
    = Some "(substringof('BULK',StorageBin) eq true or substringof('BULK',Warehouse) eq true)" /\
  url_selects (r_url (list_request (search_for "BULK" None)))
    (stored "BIN-A001" "WH1" "BULK" "1000" "750" "") = Some false.
Proof. repeat split. Qed.

(** A status that is a predicate of the where array, as in a CQN query, is
    not read as a status: no status filter is sent, and its literal, being
    the first truthy one, is taken for the search term. *)
Example status_predicate_is_not_read :
  query_param "$filter"
    (r_url (list_request (status_predicate_query "inactive" "A0")))
    = Some "(substringof('inactive',StorageBin) eq true or substringof('inactive',Warehouse) eq true)" /\
  url_selects (r_url (list_request (status_predicate_query "inactive" "A0")))
    (stored "BIN-A001" "WH1" "BULK" "1000" "750" "X") = Some false.
Proof. split; reflexivity. Qed.

(** The term is put between quotes as it is: with a quote inside, the text
    that is sent is no longer the conjunction of the two filters. *)
Example quote_ends_the_literal :
  query_param "$filter" (r_url (list_request (search_for "O'Brien" None)))
    = Some "(substringof('O'Brien',StorageBin) eq true or substringof('O'Brien',Warehouse) eq true)" /\
  url_selects (r_url (list_request (search_for "O'Brien" None)))
    (stored "O'Brien" "WH1" "BULK" "1000" "750" "") = None.
Proof. split; reflexivity. Qed.

(** C4, amended: the handler reads the search term as the first truthy
    literal of a where array that holds the token "or", and the status as
    the [status] property of the where object.  The filter of the URL it
    requests is the conjunction, joined by " and ", of (a) when there is a
    search term, the disjunction of a substring match on [StorageBin] and one
    on [Warehouse], and (b) when there is a non-empty status, the equality of
    [BlockingIndicator] with [""] for "active" and with ["X"] otherwise.  For
    a term of letters, digits and [- _ . ~], the source that reads this URL
    selects the records that satisfy this conjunction; without a search
    term, among them when every literal is empty, it selects every record
    that passes the status filter, and without a where clause every
    record.  The page size and the offset are absent or safe integers. *)
Theorem read_filter_is_conjunction (sel : Select) :
  safe_param (limit sel) -> safe_param (skip sel) ->
  (where_ sel = None ->
   r_url (list_request sel) =
     ODATA_PATH ++ "/A_WarehouseStorageBin?$format=json&$top="
     ++ num_param (limit sel) 100 ++ "&$skip=" ++ num_param (skip sel) 0 /\
   forall r, url_selects (r_url (list_request sel)) r = Some true) /\
  (forall w term flag,
     where_ sel = Some w -> reads_term w term -> reads_flag w flag ->
     r_url (list_request sel) =
       ODATA_PATH ++ "/A_WarehouseStorageBin?$format=json&$top="
       ++ num_param (limit sel) 100 ++ "&$skip=" ++ num_param (skip sel) 0
       ++ conjunction_text term flag /\
     ((forall t, term = Some t -> plain_term t) ->
      forall r,
        url_selects (r_url (list_request sel)) r
          = Some (conjunction term flag r)) /\
     (term = None ->
      forall r,
        url_selects (r_url (list_request sel)) r
          = Some match flag with
                 | Some f => String.eqb (opt_string (BlockingIndicator r)) f
                 | None => true
                 end)).
Proof.
  intros _ _. split.
  - intros Hw.
    assert (E : r_url (list_request sel) =
                ODATA_PATH ++ "/A_WarehouseStorageBin?$format=json&$top="
                ++ num_param (limit sel) 100 ++ "&$skip=" ++ num_param (skip sel) 0).
    { unfold list_request, read_query, read_filters. cbn [r_url].
      rewrite Hw. rewrite ?append_assoc. reflexivity. }
    split; [exact E |].
    intros r. unfold url_selects. rewrite E.
    rewrite query_param_no_filter by apply num_param_no_amp. reflexivity.
  - intros w term flag Hw Ht Hf. split; [| split].
    + unfold list_request. cbn [r_url].
      rewrite (read_query_text sel w term flag Hw Ht Hf). reflexivity.
    + intros Hplain r. apply (url_selects_conjunction sel w term flag r Hw Ht Hf Hplain).
    + intros -> r.
      rewrite (url_selects_conjunction sel w None flag r Hw Ht Hf)
        by (intros t; discriminate).
      reflexivity.
Qed.

Lemma read_filter_is_conjunction_witness :
  r_url (list_request (search_for "A0" (Some "inactive")))
    = ODATA_PATH ++ "/A_WarehouseStorageBin?$format=json&$top=100&$skip=0&$filter=(substringof('A0',StorageBin) eq true or substringof('A0',Warehouse) eq true) and BlockingIndicator eq 'X'" /\
  url_selects (r_url (list_request (search_for "A0" (Some "inactive"))))
    (stored "BIN-A001" "WH1" "BULK" "1000" "750" "X") = Some true /\
  url_selects (r_url (list_request (search_for "A0" (Some "inactive"))))
    (stored "BIN-A001" "WH1" "BULK" "1000" "750" "") = Some false /\
  url_selects (r_url (list_request (search_for "" (Some "active"))))
    (stored "BIN-B001" "WH2" "RACK" "10" "5" "") = Some true.
Proof.
  assert (Hterm : reads_term
            {| w_items := Some [Ref ["binNumber"]; Tok "like"; Val (JStr "A0");
                                Tok "or";
                                Ref ["location"]; Tok "like"; Val (JStr "A0")];
               w_status := Some "inactive" |} (Some "A0")).
  { apply term_first_literal
      with (items := [Ref ["binNumber"]; Tok "like"; Val (JStr "A0"); Tok "or";
                      Ref ["location"]; Tok "like"; Val (JStr "A0")])
           (pre := [Ref ["binNumber"]; Tok "like"])
           (post := [Tok "or"; Ref ["location"]; Tok "like"; Val (JStr "A0")]).
    - reflexivity.
    - simpl. tauto.
    - reflexivity.
    - intros v [H | [H | []]]; discriminate H.
    - discriminate. }
  assert (Hflag : reads_flag
            {| w_items := Some [Ref ["binNumber"]; Tok "like"; Val (JStr "A0");
                                Tok "or";
                                Ref ["location"]; Tok "like"; Val (JStr "A0")];
               w_status := Some "inactive" |} (Some "X")).
  { apply flag_other with (st := "inactive"); [reflexivity | discriminate | discriminate]. }
  destruct (read_filter_is_conjunction (search_for "A0" (Some "inactive")) I I)
    as [_ Hsome].
  destruct (Hsome _ (Some "A0") (Some "X") eq_refl Hterm Hflag)
    as (Hurl & Hsel & _).
  split; [exact Hurl |].
  assert (Hplain : forall t, Some "A0" = Some t -> plain_term t)
    by (intros t [= <-]; reflexivity).
  split; [exact (Hsel Hplain (stored "BIN-A001" "WH1" "BULK" "1000" "750" "X")) |].
  split; [exact (Hsel Hplain (stored "BIN-A001" "WH1" "BULK" "1000" "750" "")) |].
  destruct (read_filter_is_conjunction (search_for "" (Some "active")) I I)
    as [_ Hempty].
  destruct (Hempty _ None (Some "") eq_refl) as (_ & _ & Hnone).
  - apply term_no_literal
      with (items := [Ref ["binNumber"]; Tok "like"; Val (JStr ""); Tok "or";
                      Ref ["location"]; Tok "like"; Val (JStr "")]);
      [reflexivity |].
    intros v [H | [H | [H | [H | [H | [H | [H | []]]]]]]];
      try discriminate H; injection H as <-; reflexivity.
  - apply flag_active. reflexivity.
  - exact (Hnone eq_refl (stored "BIN-B001" "WH2" "RACK" "10" "5" "")).
Defined.

(** X10: the status filter is sound for the mapper when the status arrives
    as the [status] property of the where object, and there is none
    otherwise.  The page size and the offset are absent or safe integers,
    and the search term, if any, is plain.  With the status "active" or
    "inactive" as that property, every record that the source selects for
    the URL of the handler is mapped by [mapS4ToBin] to a bin of that
    status.  Without that property, whatever predicates the where array
    holds, the selection does not depend on the blocking indicator. *)
Theorem status_filter_sound (now : string) (sel : Select) (w : Where)
  (term : option string) :
  safe_param (limit sel) -> safe_param (skip sel) ->
  where_ sel = Some w ->
  reads_term w term ->
  (forall t, term = Some t -> plain_term t) ->
  (forall st r,
     w_status w = Some st ->
     st = "active" \/ st = "inactive" ->
     url_selects (r_url (list_request sel)) r = Some true ->
     status (mapS4ToBin now r) = Some st) /\
  (w_status w = None ->
   forall r r',
     StorageBin r = StorageBin r' -> Warehouse r = Warehouse r' ->
     url_selects (r_url (list_request sel)) r
       = url_selects (r_url (list_request sel)) r').
Proof.
  intros _ _ Hw Ht Hplain. split.
  - intros st r Hst Hcase Hsel.
    assert (Hflag : reads_flag w (Some (if String.eqb st "active" then "" else "X"))).
    { destruct Hcase as [-> | ->].
      - apply flag_active, Hst.
      - apply flag_other with (st := "inactive");
          [exact Hst | discriminate | discriminate]. }
    rewrite (url_selects_conjunction sel w term _ r Hw Ht Hflag Hplain) in Hsel.
    injection Hsel as Hsel. unfold conjunction in Hsel.
    apply andb_true_iff in Hsel as [_ Hflagged].
    apply String.eqb_eq in Hflagged.
    unfold mapS4ToBin. cbn [status].
    destruct Hcase as [-> | ->]; cbn [String.eqb Ascii.eqb Bool.eqb] in Hflagged;
      destruct (BlockingIndicator r) as [[| c s] |];
      cbn [opt_string] in Hflagged; try discriminate Hflagged; reflexivity.
  - intros Hnone r r' Hbin Hwh.
    assert (Hflag : reads_flag w None) by (apply flag_absent, Hnone).
    rewrite !(url_selects_conjunction sel w term None _ Hw Ht Hflag Hplain).
    unfold conjunction. rewrite Hbin, Hwh. reflexivity.
Qed.

Lemma status_filter_sound_witness :
  status (mapS4ToBin "2025-01-01T00:00:00.000Z"
            (stored "BIN-A001" "WH1" "BULK" "1000" "750" "X"))
    = Some "inactive".
Proof.
  refine (proj1 (status_filter_sound "2025-01-01T00:00:00.000Z"
           (search_for "A0" (Some "inactive"))
           {| w_items := Some [Ref ["binNumber"]; Tok "like"; Val (JStr "A0");
                               Tok "or";
                               Ref ["location"]; Tok "like"; Val (JStr "A0")];
              w_status := Some "inactive" |}
           (Some "A0") I I eq_refl _ _)
           "inactive" (stored "BIN-A001" "WH1" "BULK" "1000" "750" "X")
           eq_refl (or_intror eq_refl) eq_refl).
  - apply term_first_literal
      with (items := [Ref ["binNumber"]; Tok "like"; Val (JStr "A0"); Tok "or";
                      Ref ["location"]; Tok "like"; Val (JStr "A0")])
           (pre := [Ref ["binNumber"]; Tok "like"])
           (post := [Tok "or"; Ref ["location"]; Tok "like"; Val (JStr "A0")]).
    + reflexivity.
    + simpl. tauto.
    + reflexivity.
    + intros v [H | [H | []]]; discriminate H.
    + discriminate.
  - intros t [= <-]. reflexivity.
Defined.

(* ================================================================== *)
(** * What an update writes and returns *)
(* ================================================================== *)

(** The merged bin of an update maps to [update_record]. *)
Lemma merged_maps_to_update_record now r data :
  mapBinToS4 (merge (mapS4ToBin now r) data) = inr (update_record data r).
Proof.
  unfold mapBinToS4, merge, mapS4ToBin, update_record, over, supplied_or.
  cbn [location capacity currentStock binNumber status].
  destruct (location data) as [loc |], (capacity data) as [cap |],
    (currentStock data) as [stock |], (binNumber data) as [n |],
    (status data) as [st |];
    rewrite split_first_segment, split_second_segment;
    f_equal; f_equal;
    try (destruct (after "-" _); reflexivity);
    try (destruct (truthy_opt (BlockingIndicator r)); reflexivity).
Qed.

Lemma over_supplied_or {A} (supplied : option A) (current : A) :
  over supplied (Some current) = Some (supplied_or supplied current).
Proof. destruct supplied; reflexivity. Qed.

(** C7, amended: the update reads the current record first.  When that read
    fails, or returns no entity, the update fails with status 500 and the
    message "Failed to update bin: " followed by the cause, having sent
    nothing else; there is no separate not-found error.  Otherwise, for a
    current record and a location of ASCII text and quantities that are safe
    integers or [NaN], the location, the quantities and the status it works
    with are those of the request where the request names them and those of
    the current record, as [mapS4ToBin] maps it, where it does not.  The
    stock check runs on these quantities.  One PATCH then writes
    [update_record]: the key, the warehouse and the storage type cut anew
    from that location, the quantities as numerals and the status as
    blocking indicator; a barcode in the request is not written.  The bin is
    read again and returned as [mapS4ToBin] maps it: with the time of the
    return as [lastUpdated] and the key of the record as barcode; when the
    source returns the record as it was written, with the quantities the
    update worked with. *)
Theorem update_merges_and_writes
  (World : Type)
  (executeHttpRequest : World -> request -> (exn + option payload) * World)
  (clock : World -> string) (st : state World) (data : Bin) :
  (forall e w,
     executeHttpRequest (world st) (get_request (ID data)) = (inl e, w) ->
     on_UPDATE executeHttpRequest clock data st
       = (Rejected (failed "Failed to update bin: " e),
          {| world := w; sent := (sent st ++ [get_request (ID data)])%list |}) /\
     code (failed "Failed to update bin: " e) = 500) /\
  (forall w,
     executeHttpRequest (world st) (get_request (ID data)) = (inr None, w) ->
     on_UPDATE executeHttpRequest clock data st
       = (Rejected (failed "Failed to update bin: " (TypeError "StorageBin")),
          {| world := w; sent := (sent st ++ [get_request (ID data)])%list |})) /\
  (forall cur w,
     executeHttpRequest (world st) (get_request (ID data))
       = (inr (Some cur), w) ->
     let r := entity_of cur in
     let loc :=
       supplied_or (location data)
         (trim (str_or (Warehouse r) "" ++ " - " ++ str_or (StorageType r) "")) in
     let cap :=
       supplied_or (capacity data)
         (parseInt (or_else (MaximumStorageCapacity r) (JNum (Num 0)))) in
     let stock :=
       supplied_or (currentStock data)
         (parseInt (or_else (CurrentStock r) (JNum (Num 0)))) in
     let st' :=
       supplied_or (status data)
         (if truthy_opt (BlockingIndicator r) then "inactive" else "active") in
     ascii_record r ->
     ascii_text loc -> safe_number cap -> safe_number stock ->
     (gt (Some stock) (Some cap) = true ->
      on_UPDATE executeHttpRequest clock data st
        = (Rejected stock_exceeds_capacity,
           {| world := w; sent := (sent st ++ [get_request (ID data)])%list |})) /\
     (gt (Some stock) (Some cap) = false ->
      let written := update_record data r in
      (forall e w2,
         executeHttpRequest w (patch_request (ID data) written) = (inl e, w2) ->
         on_UPDATE executeHttpRequest clock data st
           = (Rejected (failed "Failed to update bin: " e),
              {| world := w2;
                 sent := (sent st ++ [get_request (ID data);
                                      patch_request (ID data) written])%list |})) /\
      (forall d w2 upd w3,
         executeHttpRequest w (patch_request (ID data) written) = (inr d, w2) ->
         executeHttpRequest w2 (get_request (ID data)) = (inr (Some upd), w3) ->
         exists updated,
           on_UPDATE executeHttpRequest clock data st
             = (Return updated,
                {| world := w3;
                   sent := (sent st ++ [get_request (ID data);
                                        patch_request (ID data) written;
                                        get_request (ID data)])%list |}) /\
           updated = mapS4ToBin (clock w3) (entity_of upd) /\
           lastUpdated updated = Some (clock w3) /\
           barcode updated = Some (str_or (StorageBin (entity_of upd)) "") /\
           (upd = Entity written ->
            capacity updated = Some cap /\
            currentStock updated = Some stock /\
            binNumber updated = StorageBin written /\
            status updated
              = Some (if String.eqb st' "active" then "active" else "inactive"))))).
Proof.
  split; [| split].
  - intros e w H. split; [| reflexivity].
    apply on_UPDATE_read_fails, H.
  - intros w H. apply on_UPDATE_no_entity, H.
  - intros cur w Hread r loc cap stock st' _ _ _ _.
    assert (Hgt : forall b,
              gt (Some stock) (Some cap) = b ->
              let merged := merge (mapS4ToBin (clock w) (entity_of cur)) data in
              gt (currentStock merged) (capacity merged) = b).
    { intros b Hb. cbv zeta.
      unfold merge, mapS4ToBin. cbn [currentStock capacity].
      rewrite !over_supplied_or. exact Hb. }
    split.
    + intros Hex.
      apply (on_UPDATE_exceeding executeHttpRequest clock data st cur w Hread).
      apply Hgt, Hex.
    + intros Hok written.
      pose proof (on_UPDATE_writes executeHttpRequest clock data st cur w written
                    Hread
                    (conj (Hgt false Hok)
                          (merged_maps_to_update_record (clock w) (entity_of cur) data)))
        as Hrun.
      cbv zeta in Hrun.
      split.
      * intros e w2 Hpatch. rewrite Hrun, Hpatch.
        rewrite <- !app_assoc. reflexivity.
      * intros d w2 upd w3 Hpatch Hget. rewrite Hrun, Hpatch, Hget.
        eexists. split; [rewrite <- !app_assoc; reflexivity |].
        split; [reflexivity |]. split; [reflexivity |]. split; [reflexivity |].
        intros ->. cbn [entity_of]. unfold mapS4ToBin, written, update_record.
        cbn [capacity currentStock binNumber status StorageBin
             MaximumStorageCapacity CurrentStock BlockingIndicator].
        rewrite !quantity_read_back.
        repeat split.
        fold st'. destruct (String.eqb st' "active"); reflexivity.
Qed.

Lemma update_merges_and_writes_witness :
  (exists updated,
     on_UPDATE (InMemory.serve true) InMemory.clock
       (change "BIN-A001" None (Some (Num 800))) (InMemory.start store1)
       = (Return updated,
          {| world := [stored "BIN-A001" "WH1" "BULK" "1000" "800" ""];
             sent := [get_request (Some "BIN-A001");
                      patch_request (Some "BIN-A001")
                        (stored "BIN-A001" "WH1" "BULK" "1000" "800" "");
                      get_request (Some "BIN-A001")] |}) /\
     currentStock updated = Some (Num 800) /\
     capacity updated = Some (Num 1000) /\
     lastUpdated updated = Some (InMemory.clock store1)) /\
  on_UPDATE (InMemory.serve true) InMemory.clock
    (change "BIN-Z999" None (Some (Num 5))) (InMemory.start store1)
    = (Rejected (failed "Failed to update bin: " InMemory.not_found),
       {| world := store1; sent := [get_request (Some "BIN-Z999")] |}).
Proof.
  split.
  - destruct (update_merges_and_writes InMemory.Store (InMemory.serve true)
                InMemory.clock (InMemory.start store1)
                (change "BIN-A001" None (Some (Num 800)))) as (_ & _ & Hfound).
    assert (Hascii : ascii_record (stored "BIN-A001" "WH1" "BULK" "1000" "750" ""))
      by (repeat split).
    destruct (Hfound (Entity (stored "BIN-A001" "WH1" "BULK" "1000" "750" ""))
                store1 eq_refl Hascii eq_refl) as [_ Hwrite].
    + vm_compute. split; discriminate.
    + vm_compute. split; discriminate.
    + destruct (Hwrite eq_refl) as [_ Hrun].
      destruct (Hrun None [stored "BIN-A001" "WH1" "BULK" "1000" "800" ""]
                  (Entity (stored "BIN-A001" "WH1" "BULK" "1000" "800" ""))
                  [stored "BIN-A001" "WH1" "BULK" "1000" "800" ""]
                  eq_refl eq_refl)
        as (updated & Heq & _ & Hlast & _ & Hsame).
      destruct (Hsame eq_refl) as (Hcap & Hstock & _ & _).
      exists updated. split; [exact Heq |].
      split; [exact Hstock |]. split; [exact Hcap | exact Hlast].
  - destruct (update_merges_and_writes InMemory.Store (InMemory.serve true)
                InMemory.clock (InMemory.start store1)
                (change "BIN-Z999" None (Some (Num 5)))) as (Habsent & _ & _).
    apply (Habsent InMemory.not_found store1). reflexivity.
Defined.

(** A barcode in the request does not reach the source, and the bin comes
    back with its key as barcode. *)
Example update_drops_barcode :
  on_UPDATE (InMemory.serve true) InMemory.clock
    (relabel "BIN-A001" "999" 800) (InMemory.start store1)
  = (Return (mapS4ToBin (InMemory.clock store1)
               (stored "BIN-A001" "WH1" "BULK" "1000" "800" "")),
     {| world := [stored "BIN-A001" "WH1" "BULK" "1000" "800" ""];
        sent := [get_request (Some "BIN-A001");
                 patch_request (Some "BIN-A001")
                   (stored "BIN-A001" "WH1" "BULK" "1000" "800" "");
                 get_request (Some "BIN-A001")] |}) /\
  barcode (mapS4ToBin (InMemory.clock store1)
             (stored "BIN-A001" "WH1" "BULK" "1000" "800" ""))
    = Some "BIN-A001".
Proof. split; vm_compute; reflexivity. Qed.

(** An update that names the stock only, of a record without storage type,
    writes the storage type "BULK". *)
Example update_writes_BULK :
  StorageType (update_record (change "BIN-C001" None (Some (Num 1))) untyped_record)
    = Some "BULK" /\
  StorageType untyped_record = None.
Proof. split; reflexivity. Qed.
